(** * Mental Health preprocessing pipeline: a shallow embedding

    The notebook [notebooks/Preprocessing.ipynb] builds a scikit-learn
    [Pipeline] over pandas data frames.  This file embeds

    - the pandas operations the notebook relies on ([X[c]], [X[c] = s],
      [X.drop(columns=...)], [X.pop(c)]),
    - the helpers imported with [from preprocess import *]
      ([assign_pressure], [assign_satisfaction], [GroupImputer],
      [add_pressure_ratio], [replace_diet_habits],
      [replace_sleep_duration]), whose module is not part of the
      sources at hand and is therefore modelled from the specification,
    - the scikit-learn estimators the notebook instantiates
      ([FunctionTransformer], [OneHotEncoder(handle_unknown="ignore")],
      [ColumnTransformer(remainder="passthrough")], [Pipeline]),
    - the notebook cells themselves ([drop_cols], [categorical_cols],
      [preprocessor], [all_features], the [pop("Depression")] cell, the
      validation cell with [pipe_baseline] and [pipe_with_ratio], the
      cell that saves the processed frames).

    Numbers are rationals ([Q]); a missing value is the cell [NaN].
    The arithmetic on the numbers of a frame (the medians, the ratio)
    is exact, where pandas computes in binary64; the rounding to
    binary64 is applied where the output matrix is built (see [np]). *)

From Stdlib Require Import String Ascii List Bool Arith ZArith QArith Lia.
From Stdlib Require Import Sorted Permutation Lqa.
Import ListNotations.
Close Scope Q_scope.
Open Scope string_scope.
Open Scope list_scope.

(** ** Cells, series, data frames *)

Inductive cell : Type :=
| Num (q : Q)
| Str (s : string)
| NaN.

Definition Series := list cell.

(** A data frame is column oriented: an ordered list of named series. *)
Definition DataFrame := list (string * Series).

Definition cell_eqb (a b : cell) : bool :=
  match a, b with
  | Num x, Num y => Qeq_bool x y
  | Str s, Str t => String.eqb s t
  | NaN, NaN => true
  | _, _ => false
  end.

Definition is_missing (c : cell) : bool :=
  match c with NaN => true | _ => false end.

Definition is_number (c : cell) : bool :=
  match c with Num _ => true | _ => false end.

Definition is_text (c : cell) : bool :=
  match c with Str _ => true | _ => false end.

Definition mem (g : cell) (l : list cell) : bool := existsb (cell_eqb g) l.

Definition mem_str (s : string) (l : list string) : bool :=
  existsb (String.eqb s) l.

(** ** Exceptions and the error monad *)

Inductive exn : Type :=
| KeyError (label : string)
| ValueError (msg : string)
| TypeError
| NotFittedError.

Inductive result (A : Type) : Type :=
| Ok (a : A)
| Raise (e : exn).
Arguments Ok {A} a.
Arguments Raise {A} e.

Definition bind {A B} (m : result A) (k : A -> result B) : result B :=
  match m with
  | Ok a => k a
  | Raise e => Raise e
  end.

Notation "x <- m ;; k" := (bind m (fun x => k))
  (at level 61, m at next level, right associativity).

Definition is_ok {A} (r : result A) : bool :=
  match r with Ok _ => true | Raise _ => false end.

(** ** pandas

    The operations of the library the notebook and the helpers use,
    with the behaviour the library documents for them. *)

Module pd.

Definition columns (X : DataFrame) : list string := map fst X.

Definition has_column (c : string) (X : DataFrame) : bool :=
  mem_str c (columns X).

(** [X[c]]: the series named [c], [KeyError] when there is none. *)
Fixpoint getitem (X : DataFrame) (c : string) : result Series :=
  match X with
  | [] => Raise (KeyError c)
  | (n, s) :: rest => if String.eqb n c then Ok s else getitem rest c
  end.

(** [X[c] = s]: overwrite the series in place when [c] exists, append
    a new last column otherwise. *)
Fixpoint setitem (X : DataFrame) (c : string) (s : Series) : DataFrame :=
  match X with
  | [] => [(c, s)]
  | (n, t) :: rest =>
      if String.eqb n c then (n, s) :: rest
      else (n, t) :: setitem rest c s
  end.

(** [X.drop(columns=labels)] with the default [errors="raise"]: every
    label must name a column, else [KeyError]. *)
Fixpoint first_absent (labels : list string) (X : DataFrame)
  : option string :=
  match labels with
  | [] => None
  | l :: ls => if has_column l X then first_absent ls X else Some l
  end.

Definition drop (X : DataFrame) (labels : list string)
  : result DataFrame :=
  match first_absent labels X with
  | Some l => Raise (KeyError l)
  | None => Ok (filter (fun p => negb (mem_str (fst p) labels)) X)
  end.

(** [X.pop(c)]: returns the series and the frame without it (the
    frame object itself is changed; see the notebook store below). *)
Definition pop (X : DataFrame) (c : string)
  : result (Series * DataFrame) :=
  s <- getitem X c ;;
  Ok (s, filter (fun p => negb (String.eqb (fst p) c)) X).

(** Row selection by position, as [train_test_split] performs it. *)
Definition take_rows (idx : list nat) (X : DataFrame) : DataFrame :=
  map (fun p => (fst p, map (fun i => nth i (snd p) NaN) idx)) X.

(** Median of a list of numbers: middle element of the sorted list,
    mean of the two middle elements for an even count, nothing for an
    empty list. *)
Fixpoint insert_sorted (x : Q) (l : list Q) : list Q :=
  match l with
  | [] => [x]
  | y :: t => if Qle_bool x y then x :: l else y :: insert_sorted x t
  end.

Definition sort_values (l : list Q) : list Q :=
  fold_right insert_sorted [] l.

Definition median (l : list Q) : option Q :=
  let s := sort_values l in
  let n := length s in
  match n with
  | O => None
  | _ =>
      if Nat.even n
      then Some (Qred ((nth (n / 2 - 1) s 0 + nth (n / 2) s 0) / 2)%Q)
      else Some (nth (n / 2) s 0%Q)
  end.

End pd.

(** ** The [preprocess] module

    The notebook imports its helpers with [from preprocess import *];
    the module itself is not among the sources.  Everything in this
    module is therefore modelled from the specification (sections 3
    and 4.1 to 4.3), with the column names the notebook uses. *)

Definition status_col : string := "Working Professional or Student".

Module preprocess.

(** The numbers of a series: its valid values. *)
Definition numeric_values (s : Series) : list Q :=
  flat_map (fun c => match c with Num q => [q] | _ => [] end) s.

(** The cells of [vals] on the rows whose group key is [g]. *)
Fixpoint group_rows (g : cell) (keys vals : Series) : Series :=
  match vals with
  | [] => []
  | v :: vs =>
      if cell_eqb (hd NaN keys) g
      then v :: group_rows g (tl keys) vs
      else group_rows g (tl keys) vs
  end.

(** Distinct group keys in order of first appearance. *)
Fixpoint unique (l : Series) : list cell :=
  match l with
  | [] => []
  | x :: t => x :: filter (fun y => negb (cell_eqb y x)) (unique t)
  end.

(** Association lists keyed by group and by column name. *)
Fixpoint lookup_group {V} (g : cell) (m : list (cell * V)) : option V :=
  match m with
  | [] => None
  | (k, v) :: rest => if cell_eqb k g then Some v else lookup_group g rest
  end.

Fixpoint lookup {V} (c : string) (m : list (string * V)) : option V :=
  match m with
  | [] => None
  | (k, v) :: rest => if String.eqb k c then Some v else lookup c rest
  end.

(** Modelled from the spec: [GroupStatistic] (section 3), the state
    learned by [GroupImputer.fit], which is defined in the missing
    module [preprocess]: a mapping group key -> column -> median,
    with a column-wide fallback.  A median that does not exist (no
    valid value) is recorded as [None]. *)
Record GroupStatistic : Type := {
  group_medians : list (cell * list (string * option Q));
  fallback_medians : list (string * option Q)
}.

(** The configured columns of a frame; each must exist. *)
Fixpoint select (cols : list string) (X : DataFrame)
  : result (list (string * Series)) :=
  match cols with
  | [] => Ok []
  | c :: cs =>
      s <- pd.getitem X c ;;
      rest <- select cs X ;;
      Ok ((c, s) :: rest)
  end.

(** Modelled from the spec: [GroupImputer.fit] (section 4.3) of the
    missing module [preprocess]: for each column and each group value
    present in the status field, the median of the non-missing values
    within that group, and a column-wide fallback median. *)
Definition GroupImputer_fit (cols : list string) (X : DataFrame)
  : result GroupStatistic :=
  keys <- pd.getitem X status_col ;;
  series <- select cols X ;;
  Ok {| group_medians :=
          map (fun g =>
                 (g, map (fun cs =>
                            (fst cs,
                             pd.median
                               (numeric_values
                                  (group_rows g keys (snd cs)))))
                         series))
              (unique keys);
        fallback_medians :=
          map (fun cs => (fst cs, pd.median (numeric_values (snd cs))))
              series |}.

(** A stored median, when there is an entry and it holds a value. *)
Definition learned (A : Type) (o : option (option A)) : option A :=
  match o with Some (Some a) => Some a | _ => None end.
Arguments learned {A} o.

Definition group_median (st : GroupStatistic) (g : cell) (c : string)
  : option Q :=
  match lookup_group g (group_medians st) with
  | Some per_col => learned (lookup c per_col)
  | None => None
  end.

Definition fallback_median (st : GroupStatistic) (c : string)
  : option Q :=
  learned (lookup c (fallback_medians st)).

Definition cell_of (o : option Q) : cell :=
  match o with Some m => Num m | None => NaN end.

(** The replacement for a missing cell of column [c] in group [g]. *)
Definition fill_value (st : GroupStatistic) (c : string) (g : cell)
  : cell :=
  match group_median st g c with
  | Some m => Num m
  | None => cell_of (fallback_median st c)
  end.

(** Modelled from the spec: the per-row part of [GroupImputer]'s
    [apply]: a missing cell gets the value for the row's group, any
    other cell is kept. *)
Fixpoint fill_series (st : GroupStatistic) (c : string)
         (keys vals : Series) : Series :=
  match vals with
  | [] => []
  | v :: vs =>
      (if is_missing v then fill_value st c (hd NaN keys) else v)
        :: fill_series st c (tl keys) vs
  end.

(** Modelled from the spec: [apply] goes through the configured
    columns one after the other; the group keys are those of the input
    frame. *)
Fixpoint impute_columns (st : GroupStatistic) (keys : Series)
         (cols : list string) (X : DataFrame) : result DataFrame :=
  match cols with
  | [] => Ok X
  | c :: cs =>
      s <- pd.getitem X c ;;
      impute_columns st keys cs (pd.setitem X c (fill_series st c keys s))
  end.

(** Modelled from the spec: [GroupImputer.transform] (the spec's
    [apply], section 4.3) of the missing module [preprocess]: a
    missing cell is replaced by the statistic of the row's group, or
    by the fallback median when the group was unseen or had no valid
    value; before [fit] the imputer has no statistics and signals the
    uninitialised-imputer failure. *)
Definition GroupImputer_transform (cols : list string)
           (fitted : option GroupStatistic) (X : DataFrame)
  : result DataFrame :=
  match fitted with
  | None => Raise NotFittedError
  | Some st =>
      keys <- pd.getitem X status_col ;;
      impute_columns st keys cols X
  end.

(** Modelled from the spec: the row rule of [assign_pressure] and
    [assign_satisfaction] (section 4.2) of the missing module
    [preprocess]: the non-missing value among the two status-specific
    source cells; missing when both are missing; the cell matching the
    row's status when both are present. *)
Definition coalesce_cell (status a w : cell) : cell :=
  match is_missing a, is_missing w with
  | true, _ => w
  | false, true => a
  | false, false => if cell_eqb status (Str "Student") then a else w
  end.

Fixpoint coalesce (status a w : Series) : Series :=
  match a with
  | [] => []
  | x :: xs =>
      coalesce_cell (hd NaN status) x (hd NaN w)
        :: coalesce (tl status) xs (tl w)
  end.

(** Modelled from the spec: the unified value is written to a new
    column; the status column and both source columns must exist. *)
Definition assign_unified (target student_col worker_col : string)
           (X : DataFrame) : result DataFrame :=
  status <- pd.getitem X status_col ;;
  a <- pd.getitem X student_col ;;
  w <- pd.getitem X worker_col ;;
  Ok (pd.setitem X target (coalesce status a w)).

(** Modelled from the spec: [assign_pressure] of the missing module
    [preprocess]; the column names are those of [drop_cols] and
    [all_features] in the notebook. *)
Definition assign_pressure : DataFrame -> result DataFrame :=
  assign_unified "Pressure" "Academic Pressure" "Work Pressure".

(** Modelled from the spec: [assign_satisfaction] of the missing module
    [preprocess]. *)
Definition assign_satisfaction : DataFrame -> result DataFrame :=
  assign_unified "Satisfaction" "Study Satisfaction" "Job Satisfaction".

Section Helpers.

(** The value the ratio takes when [Satisfaction] is zero; the spec
    leaves the choice open. *)
Variable sentinel : Q.

(** The fixed lookup tables of the two text normalisers and the bucket
    for values they do not list; the spec names them without giving
    their entries. *)
Variable diet_table sleep_table : list (string * string).
Variable other : string.

(** Modelled from the spec: the row rule of [add_pressure_ratio]
    (section 4.2) of the missing module [preprocess]:
    [Pressure / Satisfaction], the sentinel when [Satisfaction] is zero.
    The ratio is defined for two numbers only (section 3); it is missing
    for a row in which one of the two is not a number. *)
Definition ratio_cell (p s : cell) : cell :=
  match p, s with
  | Num a, Num b =>
      if Qeq_bool b 0%Q then Num sentinel else Num (Qred (a / b)%Q)
  | _, _ => NaN
  end.

Fixpoint ratio_series (p s : Series) : Series :=
  match p with
  | [] => []
  | x :: xs => ratio_cell x (hd NaN s) :: ratio_series xs (tl s)
  end.

(** Modelled from the spec: [add_pressure_ratio] of the missing module
    [preprocess]; the new column has the name [all_features] gives it. *)
Definition add_pressure_ratio (X : DataFrame) : result DataFrame :=
  p <- pd.getitem X "Pressure" ;;
  s <- pd.getitem X "Satisfaction" ;;
  Ok (pd.setitem X "Pressure_Satisfaction_Ratio" (ratio_series p s)).

(** Modelled from the spec: the cell rule of [replace_diet_habits] and
    [replace_sleep_duration] (section 4.1) of the missing module
    [preprocess]: each cell goes through a fixed lookup table; what the
    table does not list goes to the explicit other bucket. *)
Definition normalize_cell (table : list (string * string)) (c : cell)
  : cell :=
  match c with
  | Str s =>
      match lookup s table with
      | Some v => Str v
      | None => Str other
      end
  | _ => Str other
  end.

Definition normalize_column (table : list (string * string))
           (c : string) (X : DataFrame) : result DataFrame :=
  s <- pd.getitem X c ;;
  Ok (pd.setitem X c (map (normalize_cell table) s)).

(** Modelled from the spec: [replace_diet_habits] of the missing module
    [preprocess]. *)
Definition replace_diet_habits : DataFrame -> result DataFrame :=
  normalize_column diet_table "Dietary Habits".

(** Modelled from the spec: [replace_sleep_duration] of the missing
    module [preprocess]. *)
Definition replace_sleep_duration : DataFrame -> result DataFrame :=
  normalize_column sleep_table "Sleep Duration".

End Helpers.

End preprocess.

(** ** numpy

    The matrix a [ColumnTransformer] returns is a numpy array.  The
    indicator columns are [float64]; stacked with numeric columns only,
    the whole array is [float64] and every number is rounded to the
    nearest binary64 value, ties to even; stacked with a column of
    text it is an array of objects, whose entries are kept as they
    are. *)

Module np.

(** The integer nearest to [n / d], ties to even ([0 <= n], [0 < d]). *)
Definition round_half_even (n d : Z) : Z :=
  let q := (n / d)%Z in
  match (2 * (n mod d) ?= d)%Z with
  | Lt => q
  | Gt => (q + 1)%Z
  | Eq => if Z.even q then q else (q + 1)%Z
  end.

(** [n / (d * 2 ^ k)] as a fraction of two integers. *)
Definition scale_num (n k : Z) : Z := (n * 2 ^ Z.max 0 (- k))%Z.
Definition scale_den (d k : Z) : Z := (d * 2 ^ Z.max 0 k)%Z.

(** The exponent of the last of the 53 significant bits of [n / d]
    ([0 < n], [0 < d]); it is not below that of the subnormal numbers. *)
Definition last_place (n d : Z) : Z :=
  let e0 := (Z.log2 n - Z.log2 d)%Z in
  let e := if (scale_num n e0 <? scale_den d e0)%Z then (e0 - 1)%Z else e0 in
  Z.max (e - 52) (-1074).

(** The binary64 number nearest to [q].  Numbers beyond the largest
    binary64 number are not treated apart: a numeric column cannot hold
    one. *)
Definition float64 (q : Q) : Q :=
  let n := Z.abs (Qnum q) in
  let d := Zpos (Qden q) in
  if (n =? 0)%Z then 0%Q
  else
    let k := last_place n d in
    let m := round_half_even (scale_num n k) (scale_den d k) in
    Qred (Qmake (Z.sgn (Qnum q) * m * 2 ^ Z.max 0 k)
                (Z.to_pos (2 ^ Z.max 0 (- k)))).

Definition astype_float64 (c : cell) : cell :=
  match c with
  | Num q => Num (float64 q)
  | _ => c
  end.

(** A binary64 number of magnitude at most [2 ^ 53], in lowest terms:
    an integer in that range, or a fraction with a power of two below
    [2 ^ 1075] as its denominator. *)
Definition is_float64 (q : Q) : bool :=
  let d := Zpos (Qden q) in
  (Z.gcd (Qnum q) d =? 1)%Z && (d =? 2 ^ Z.log2 d)%Z
  && (Z.log2 d <=? 1074)%Z && (Z.abs (Qnum q) <=? 2 ^ 53)%Z.

(** A series whose numbers are such numbers. *)
Definition exact (s : Series) : bool :=
  forallb (fun c => match c with Num q => is_float64 q | _ => true end) s.

(** The dtype of a column is taken to be the one pandas infers from
    its cells: [object] when a cell holds text, a number dtype
    otherwise. *)
Definition numeric (s : Series) : bool := negb (existsb is_text s).

(** The remainder columns as they are in the stacked array. *)
Definition stacked (rest : list Series) : list Series :=
  if forallb numeric rest then map (map astype_float64) rest else rest.

(** [np.hstack] of the indicator blocks and the remainder columns. *)
Definition hstack (blocks rest : list Series) : list Series :=
  blocks ++ stacked rest.

End np.

(** ** scikit-learn

    The estimators the notebook instantiates, with the behaviour the
    library documents for the parameters the notebook passes. *)

Module sklearn.

(** What flows between the steps of a pipeline: a data frame, or the
    plain matrix (a list of unnamed columns) a [ColumnTransformer]
    returns. *)
Inductive data : Type :=
| Frame (X : DataFrame)
| Matrix (m : list Series).

(** *** OneHotEncoder *)

Inductive handle_unknown : Type := hu_error | hu_ignore.

Definition strings_of (l : list cell) : list string :=
  flat_map (fun c => match c with Str s => [s] | _ => [] end) l.

Fixpoint insert_string (x : string) (l : list string) : list string :=
  match l with
  | [] => [x]
  | y :: t =>
      if String.leb x y then x :: l else y :: insert_string x t
  end.

Definition sort_strings (l : list string) : list string :=
  fold_right insert_string [] l.

(** [categories_] of one column: the distinct values, sorted, a missing
    value last; a column mixing strings and numbers is refused, and so
    is a column without rows. *)
Definition learn_categories (s : Series) : result (list cell) :=
  match s with
  | [] => Raise (ValueError "Found array with 0 sample(s)")
  | _ :: _ =>
      let u := preprocess.unique s in
      match strings_of u, preprocess.numeric_values u with
      | _ :: _, _ :: _ => Raise TypeError
      | strs, nums =>
          Ok (map Str (sort_strings strs)
                ++ map Num (pd.sort_values nums)
                ++ (if existsb is_missing u then [NaN] else []))
      end
  end.

Definition indicator (k v : cell) : cell :=
  if cell_eqb v k then Num 1%Q else Num 0%Q.

(** The indicator columns of one input column, one per category. *)
Definition one_hot (cats : list cell) (s : Series) : list Series :=
  map (fun k => map (indicator k) s) cats.

Definition unknown_values (cats : list cell) (s : Series) : list cell :=
  filter (fun v => negb (mem v cats)) s.

(** The input is validated first: a column without rows is refused,
    and a numeric column cannot be compared with a vocabulary of text.
    Then a value that is not in the vocabulary is an error or is
    ignored, as [handle_unknown] says. *)
Definition OneHotEncoder_transform_column (hu : handle_unknown)
           (cats : list cell) (s : Series) : result (list Series) :=
  match s with
  | [] => Raise (ValueError "Found array with 0 sample(s)")
  | _ :: _ =>
      if existsb is_text cats && np.numeric s then Raise TypeError
      else
        match hu, unknown_values cats s with
        | hu_error, _ :: _ => Raise (ValueError "Found unknown categories")
        | _, _ => Ok (one_hot cats s)
        end
  end.

(** The encoder takes a column for a vocabulary: the column has a row,
    and it is a column of text when the vocabulary holds text. *)
Definition accepts (cats : list cell) (s : Series) : bool :=
  match s with
  | [] => false
  | _ :: _ => negb (existsb is_text cats && np.numeric s)
  end.

(** It takes every encoded column of a frame. *)
Definition encodable (cols : list string) (cats : list (list cell))
           (X : DataFrame) : Prop :=
  forall c ks s,
    In (c, ks) (combine cols cats) -> pd.getitem X c = Ok s ->
    accepts ks s = true.

Section FeatureNames.

(** How a number is printed in a feature name. *)
Variable repr_num : Q -> string.

Definition repr (c : cell) : string :=
  match c with
  | Str s => s
  | Num q => repr_num q
  | NaN => "nan"
  end.

(** [OneHotEncoder.get_feature_names_out(input_features)]. *)
Definition OneHotEncoder_feature_names (input_features : list string)
           (categories : list (list cell)) : list string :=
  flat_map (fun fc => map (fun k => (fst fc ++ "_" ++ repr k)%string) (snd fc))
           (combine input_features categories).

End FeatureNames.

(** *** ColumnTransformer([("onehot", OneHotEncoder, cols)],
        remainder="passthrough") *)

Record ColumnTransformer_state : Type := {
  feature_names_in_ : list string;
  categories_ : list (list cell);
  remainder_ : list string
}.

Fixpoint learn_all (cols : list string) (X : DataFrame)
  : result (list (list cell)) :=
  match cols with
  | [] => Ok []
  | c :: cs =>
      match pd.getitem X c with
      | Raise _ =>
          Raise (ValueError "A given column is not a column of the dataframe")
      | Ok s =>
          cats <- learn_categories s ;;
          rest <- learn_all cs X ;;
          Ok (cats :: rest)
      end
  end.

(** The column names are resolved first, then the encoder is fitted
    on the columns. *)
Definition ColumnTransformer_fit (cols : list string) (X : DataFrame)
  : result ColumnTransformer_state :=
  match pd.first_absent cols X with
  | Some _ =>
      Raise (ValueError "A given column is not a column of the dataframe")
  | None =>
      cats <- learn_all cols X ;;
      Ok {| feature_names_in_ := pd.columns X;
            categories_ := cats;
            remainder_ :=
              filter (fun c => negb (mem_str c cols)) (pd.columns X) |}
  end.

Fixpoint encode_all (hu : handle_unknown) (cols : list string)
         (cats : list (list cell)) (X : DataFrame)
  : result (list Series) :=
  match cols, cats with
  | c :: cs, k :: ks =>
      s <- pd.getitem X c ;;
      block <- OneHotEncoder_transform_column hu k s ;;
      rest <- encode_all hu cs ks X ;;
      Ok (block ++ rest)
  | _, _ => Ok []
  end.

Fixpoint passthrough (cols : list string) (X : DataFrame)
  : result (list Series) :=
  match cols with
  | [] => Ok []
  | c :: cs =>
      s <- pd.getitem X c ;;
      rest <- passthrough cs X ;;
      Ok (s :: rest)
  end.

(** Columns are selected by name; every column used at fit time must be
    there; the output stacks the indicator blocks, then the remainder
    columns in their fit-time order.  The stacked matrix is taken as
    the array of its entries: the library keeps it sparse when the
    training output was sparse enough, and [pd.DataFrame] takes a dense
    array only; the model follows the dense case, the one the notebook
    ran in. *)
Definition ColumnTransformer_transform (hu : handle_unknown)
           (cols : list string) (st : ColumnTransformer_state)
           (X : DataFrame) : result (list Series) :=
  match pd.first_absent (cols ++ remainder_ st) X with
  | Some _ => Raise (ValueError "columns are missing")
  | None =>
      blocks <- encode_all hu cols (categories_ st) X ;;
      rest <- passthrough (remainder_ st) X ;;
      Ok (np.hstack blocks rest)
  end.

(** *** Fitted estimators and the pipeline

    The estimator objects keep what [fit] learned as attributes.  The
    notebook has one [GroupImputer] object and one [ColumnTransformer]
    object; every pipeline built from them shares these two objects.
    The store holds their attributes; [fit] and [transform] run in a
    state-and-exception monad over it.  An attribute is written when
    the step that learns it has succeeded.  The library writes part of
    its column bookkeeping before the encoder is fitted, so what a
    [fit] that raises leaves in the estimator is not modelled: the
    store paired with an exception is the one the failing step found,
    and nothing is stated about it. *)

Record store : Type := {
  impute_ : option preprocess.GroupStatistic;
  encode_ : option ColumnTransformer_state
}.

Definition unfitted : store := {| impute_ := None; encode_ := None |}.

Definition M (A : Type) : Type := store -> result A * store.

Definition ret {A} (a : A) : M A := fun st => (Ok a, st).

Definition raise {A} (e : exn) : M A := fun st => (Raise e, st).

Definition mbind {A B} (m : M A) (k : A -> M B) : M B :=
  fun st =>
    match m st with
    | (Ok a, st') => k a st'
    | (Raise e, st') => (Raise e, st')
    end.

Definition lift {A} (r : result A) : M A := fun st => (r, st).

Definition get : M store := fun st => (Ok st, st).

Definition put (st : store) : M unit := fun _ => (Ok tt, st).

Notation "x <~ m ;; k" := (mbind m (fun x => k))
  (at level 61, m at next level, right associativity).

Inductive estimator : Type :=
| FunctionTransformer (func : DataFrame -> result DataFrame)
| GroupImputer (cols : list string)
| ColumnTransformer (hu : handle_unknown) (cols : list string).

Definition as_frame (X : data) : result DataFrame :=
  match X with
  | Frame X => Ok X
  | Matrix _ => Raise TypeError
  end.

Definition estimator_fit (e : estimator) (X : data) : M unit :=
  match e with
  | FunctionTransformer _ => ret tt
  | GroupImputer cols =>
      X <~ lift (as_frame X) ;;
      stat <~ lift (preprocess.GroupImputer_fit cols X) ;;
      st <~ get ;;
      put {| impute_ := Some stat; encode_ := encode_ st |}
  | ColumnTransformer _ cols =>
      X <~ lift (as_frame X) ;;
      enc <~ lift (ColumnTransformer_fit cols X) ;;
      st <~ get ;;
      put {| impute_ := impute_ st; encode_ := Some enc |}
  end.

Definition estimator_transform (e : estimator) (X : data) : M data :=
  match e with
  | FunctionTransformer func =>
      X <~ lift (as_frame X) ;;
      Xt <~ lift (func X) ;;
      ret (Frame Xt)
  | GroupImputer cols =>
      X <~ lift (as_frame X) ;;
      st <~ get ;;
      Xt <~ lift (preprocess.GroupImputer_transform cols (impute_ st) X) ;;
      ret (Frame Xt)
  | ColumnTransformer hu cols =>
      X <~ lift (as_frame X) ;;
      st <~ get ;;
      match encode_ st with
      | None => raise NotFittedError
      | Some enc =>
          m <~ lift (ColumnTransformer_transform hu cols enc X) ;;
          ret (Matrix m)
      end
  end.

(** [TransformerMixin.fit_transform]: [fit(X).transform(X)]. *)
Definition estimator_fit_transform (e : estimator) (X : data) : M data :=
  _ <~ estimator_fit e X ;;
  estimator_transform e X.

Definition Pipeline : Type := list (string * estimator).

(** [Pipeline.fit]: every step but the last is fitted and its output
    fed to the next one; the last step is fitted only. *)
Fixpoint Pipeline_fit (steps : Pipeline) (X : data) : M unit :=
  match steps with
  | [] => ret tt
  | (_, e) :: rest =>
      match rest with
      | [] => estimator_fit e X
      | _ :: _ =>
          Xt <~ estimator_fit_transform e X ;;
          Pipeline_fit rest Xt
      end
  end.

(** [Pipeline.transform]: the steps' [transform], in order. *)
Fixpoint Pipeline_transform (steps : Pipeline) (X : data) : M data :=
  match steps with
  | [] => ret X
  | (_, e) :: rest =>
      Xt <~ estimator_transform e X ;;
      Pipeline_transform rest Xt
  end.

(** [Pipeline.fit_transform]: every step is fitted and applied in turn,
    the last one included. *)
Fixpoint Pipeline_fit_transform (steps : Pipeline) (X : data) : M data :=
  match steps with
  | [] => ret X
  | (_, e) :: rest =>
      Xt <~ estimator_fit_transform e X ;;
      Pipeline_fit_transform rest Xt
  end.

End sklearn.

(** ** The notebook *)

Module notebook.
Import sklearn.

(** *** The kernel's objects

    [read_csv] creates two frame objects; a variable is bound to an
    object, and [X = train] binds [X] to the object [train] is bound
    to, so that [X.pop(...)] changes what [train] sees. *)

Definition ref := nat.

Record kernel : Type := {
  heap : list DataFrame;
  globals : list (string * ref)
}.

Definition loaded (train test : DataFrame) : kernel :=
  {| heap := [train; test]; globals := [("train", 0); ("test", 1)] |}.

Definition address (k : kernel) (v : string) : result ref :=
  match preprocess.lookup v (globals k) with
  | Some r => Ok r
  | None => Raise (KeyError v)
  end.

Definition deref (k : kernel) (v : string) : result DataFrame :=
  r <- address k v ;;
  match nth_error (heap k) r with
  | Some X => Ok X
  | None => Raise (KeyError v)
  end.

Fixpoint store_at {A} (n : nat) (a : A) (l : list A) : list A :=
  match n, l with
  | O, _ :: t => a :: t
  | S n', x :: t => x :: store_at n' a t
  | _, [] => []
  end.

(** [x = y] for a variable [y] bound to a frame. *)
Definition assign_name (x y : string) (k : kernel) : result kernel :=
  r <- address k y ;;
  Ok {| heap := heap k; globals := (x, r) :: globals k |}.

(** [v.pop(c)]: the object [v] is bound to loses the column. *)
Definition pop_in_place (v c : string) (k : kernel)
  : result (Series * kernel) :=
  r <- address k v ;;
  X <- deref k v ;;
  sx <- pd.pop X c ;;
  Ok (fst sx, {| heap := store_at r (snd sx) (heap k);
                 globals := globals k |}).

(** *** Train, validation set split

    [X = train; y = X.pop("Depression"); train_test_split(X, y, ...)]:
    the split picks rows; which rows is left open, so that what is
    proved for every two lists of row numbers holds for the stratified
    partition [train_test_split] returns.  That [train_test_split] can
    itself refuse a label column is not modelled. *)
Definition split_cell (train_idx val_idx : list nat) (k : kernel)
  : result (kernel * (Series * (DataFrame * DataFrame))) :=
  k1 <- assign_name "X" "train" k ;;
  yk <- pop_in_place "X" "Depression" k1 ;;
  X <- deref (snd yk) "X" ;;
  Ok (snd yk,
      (fst yk, (pd.take_rows train_idx X, pd.take_rows val_idx X))).

(** *** Pipeline *)

Definition drop_cols : list string :=
  [ "Name"; "City"; "Profession";
    "Academic Pressure"; "Work Pressure";
    "Study Satisfaction"; "Job Satisfaction";
    "Degree" ].

Definition categorical_cols : list string :=
  [ "Gender";
    "Working Professional or Student";
    "Sleep Duration";
    "Dietary Habits";
    "Have you ever had suicidal thoughts ?";
    "Family History of Mental Illness" ].

Definition impute_cols : list string :=
  [ "Pressure"; "Satisfaction"; "Financial Stress" ].

Definition categorical_transformer : estimator :=
  ColumnTransformer hu_ignore categorical_cols.

Section Preprocessor.

Variable sentinel : Q.
Variable diet_table sleep_table : list (string * string).
Variable other : string.
Variable repr_num : Q -> string.

Definition preprocessor : Pipeline :=
  [ ("pressure", FunctionTransformer preprocess.assign_pressure);
    ("satisfaction", FunctionTransformer preprocess.assign_satisfaction);
    ("impute", GroupImputer impute_cols);
    ("pressure_ratio",
      FunctionTransformer (preprocess.add_pressure_ratio sentinel));
    ("diet_clean",
      FunctionTransformer (preprocess.replace_diet_habits diet_table other));
    ("sleep_clean",
      FunctionTransformer
        (preprocess.replace_sleep_duration sleep_table other));
    ("drop_cols", FunctionTransformer (fun X => pd.drop X drop_cols));
    ("encode", categorical_transformer) ].

(** [pd.DataFrame(values, columns=names)]: the names must be as many as
    the columns of the matrix. *)
Definition DataFrame_of (values : data) (names : list string)
  : result DataFrame :=
  match values with
  | Frame _ => Raise TypeError
  | Matrix m =>
      if Nat.eqb (length m) (length names)
      then Ok (combine names m)
      else Raise (ValueError "Shape of passed values does not match")
  end.

Definition cat_features (enc : ColumnTransformer_state) : list string :=
  OneHotEncoder_feature_names repr_num categorical_cols (categories_ enc).

Definition all_features (enc : ColumnTransformer_state)
           (train_columns : list string) : list string :=
  cat_features enc
    ++ filter (fun col => negb (mem_str col drop_cols)
                          && negb (mem_str col categorical_cols))
              train_columns
    ++ [ "Pressure"; "Satisfaction"; "Pressure_Satisfaction_Ratio" ].

Record outputs : Type := {
  features : list string;
  final_train : DataFrame;
  final_val : DataFrame;
  final_test : DataFrame
}.

(** The cell that fits the preprocessor on [X_train], transforms the
    three data sets and names the columns. *)
Definition transform_cell (k : kernel) (X_train X_val : DataFrame)
  : M outputs :=
  _ <~ Pipeline_fit preprocessor (Frame X_train) ;;
  a <~ Pipeline_transform preprocessor (Frame X_train) ;;
  b <~ Pipeline_transform preprocessor (Frame X_val) ;;
  test <~ lift (deref k "test") ;;
  c <~ Pipeline_transform preprocessor (Frame test) ;;
  st <~ get ;;
  match encode_ st with
  | None => raise NotFittedError
  | Some enc =>
      train <~ lift (deref k "train") ;;
      let names := all_features enc (pd.columns train) in
      ft <~ lift (DataFrame_of a names) ;;
      fv <~ lift (DataFrame_of b names) ;;
      fte <~ lift (DataFrame_of c names) ;;
      ret {| features := names;
             final_train := ft; final_val := fv; final_test := fte |}
  end.

(** The frame the steps before [encode] hand to the encoder. *)
Definition encoder_input (st : store) (X : DataFrame) : result DataFrame :=
  X1 <- preprocess.assign_pressure X ;;
  X2 <- preprocess.assign_satisfaction X1 ;;
  X3 <- preprocess.GroupImputer_transform impute_cols (impute_ st) X2 ;;
  X4 <- preprocess.add_pressure_ratio sentinel X3 ;;
  X5 <- preprocess.replace_diet_habits diet_table other X4 ;;
  X6 <- preprocess.replace_sleep_duration sleep_table other X5 ;;
  pd.drop X6 drop_cols.

(** The steps of [preprocessor.transform] written out: what
    [Pipeline_transform preprocessor] computes from a frame and the
    fitted objects (see [Pipeline_transform_preprocessor]). *)
Definition transform_stages (st : store) (X : DataFrame)
  : result (list Series) :=
  X1 <- preprocess.assign_pressure X ;;
  X2 <- preprocess.assign_satisfaction X1 ;;
  X3 <- preprocess.GroupImputer_transform impute_cols (impute_ st) X2 ;;
  X4 <- preprocess.add_pressure_ratio sentinel X3 ;;
  X5 <- preprocess.replace_diet_habits diet_table other X4 ;;
  X6 <- preprocess.replace_sleep_duration sleep_table other X5 ;;
  X7 <- pd.drop X6 drop_cols ;;
  match encode_ st with
  | None => Raise NotFittedError
  | Some enc =>
      ColumnTransformer_transform hu_ignore categorical_cols enc X7
  end.

(** The steps of [preprocessor.fit] written out (see
    [Pipeline_fit_preprocessor]). *)
Definition fit_stages (X : DataFrame) : result store :=
  X1 <- preprocess.assign_pressure X ;;
  X2 <- preprocess.assign_satisfaction X1 ;;
  stat <- preprocess.GroupImputer_fit impute_cols X2 ;;
  X3 <- preprocess.GroupImputer_transform impute_cols (Some stat) X2 ;;
  X4 <- preprocess.add_pressure_ratio sentinel X3 ;;
  X5 <- preprocess.replace_diet_habits diet_table other X4 ;;
  X6 <- preprocess.replace_sleep_duration sleep_table other X5 ;;
  X7 <- pd.drop X6 drop_cols ;;
  enc <- ColumnTransformer_fit categorical_cols X7 ;;
  Ok {| impute_ := Some stat; encode_ := Some enc |}.

(** The columns of the matrix the fitted [ColumnTransformer] returns,
    by name: the indicator columns, then the remainder. *)
Definition feature_schema (enc : ColumnTransformer_state) : list string :=
  cat_features enc ++ remainder_ enc.

(** The notebook from the loaded files to the final frames. *)
Definition run (train test : DataFrame) (train_idx val_idx : list nat)
  : result outputs :=
  ky <- split_cell train_idx val_idx (loaded train test) ;;
  fst (transform_cell (fst ky) (fst (snd (snd ky))) (snd (snd (snd ky)))
                      unfitted).

(** *** Validation of new feature

    [pipe_baseline] is built from the step objects of [preprocessor]:
    the two pipelines share the imputer and the encoder, hence the
    store.  The cell fits and applies the one, then the other, on
    [X_train]; the scores computed from the two matrices are outside
    the model. *)
Definition pipe_baseline : Pipeline :=
  filter (fun step => negb (String.eqb (fst step) "pressure_ratio"))
         preprocessor.

Definition pipe_with_ratio : Pipeline := preprocessor.

Definition validation_cell (X_train : DataFrame) : M (data * data) :=
  baseline <~ Pipeline_fit_transform pipe_baseline (Frame X_train) ;;
  with_ratio <~ Pipeline_fit_transform pipe_with_ratio (Frame X_train) ;;
  ret (baseline, with_ratio).

(** The steps of [fit_transform] written out, for [preprocessor]
    ([ratio = true]) and for [pipe_baseline] ([ratio = false]): the
    store it leaves and the matrix it returns (see
    [Pipeline_fit_transform_stages]). *)
Definition fit_transform_stages (ratio : bool) (X : DataFrame)
  : result (store * list Series) :=
  X1 <- preprocess.assign_pressure X ;;
  X2 <- preprocess.assign_satisfaction X1 ;;
  stat <- preprocess.GroupImputer_fit impute_cols X2 ;;
  X3 <- preprocess.GroupImputer_transform impute_cols (Some stat) X2 ;;
  X4 <- (if ratio then preprocess.add_pressure_ratio sentinel X3
         else Ok X3) ;;
  X5 <- preprocess.replace_diet_habits diet_table other X4 ;;
  X6 <- preprocess.replace_sleep_duration sleep_table other X5 ;;
  X7 <- pd.drop X6 drop_cols ;;
  enc <- ColumnTransformer_fit categorical_cols X7 ;;
  m <- ColumnTransformer_transform hu_ignore categorical_cols enc X7 ;;
  Ok ({| impute_ := Some stat; encode_ := Some enc |}, m).

(** The steps of [pipe_baseline.transform] written out (see
    [Pipeline_transform_baseline]). *)
Definition baseline_transform_stages (st : store) (X : DataFrame)
  : result (list Series) :=
  X1 <- preprocess.assign_pressure X ;;
  X2 <- preprocess.assign_satisfaction X1 ;;
  X3 <- preprocess.GroupImputer_transform impute_cols (impute_ st) X2 ;;
  X5 <- preprocess.replace_diet_habits diet_table other X3 ;;
  X6 <- preprocess.replace_sleep_duration sleep_table other X5 ;;
  X7 <- pd.drop X6 drop_cols ;;
  match encode_ st with
  | None => Raise NotFittedError
  | Some enc =>
      ColumnTransformer_transform hu_ignore categorical_cols enc X7
  end.

End Preprocessor.

(** *** Vocabulary for the statements *)

(** Where the indicator block of the [j]-th encoded column starts in
    the output matrix. *)
Definition block_offset (cats : list (list cell)) (j : nat) : nat :=
  length (concat (firstn j cats)).

Definition no_missing (s : Series) : bool :=
  forallb (fun v => negb (is_missing v)) s.

(** The output column called [c]. *)
Definition output_column (names : list string) (m : list Series)
           (c : string) : option Series :=
  preprocess.lookup c (combine names m).

(** A frame once the label column has been popped. *)
Definition without_label (X : DataFrame) : DataFrame :=
  filter (fun p => negb (String.eqb (fst p) "Depression")) X.

(** The frame the imputer is fitted on. *)
Definition base_features (X : DataFrame) : result DataFrame :=
  X1 <- preprocess.assign_pressure X ;;
  preprocess.assign_satisfaction X1.

Definition has_number (X : DataFrame) (c : string) : bool :=
  match pd.getitem X c with
  | Ok s => existsb is_number s
  | Raise _ => false
  end.

(** Every imputed column holds at least one number when the imputer is
    fitted. *)
Definition imputable (X : DataFrame) : bool :=
  match base_features X with
  | Ok X2 => forallb (has_number X2) impute_cols
  | Raise _ => false
  end.

(** The kinds of stage of section 4.6 of the specification and the
    steps of the pipeline that carry them out. *)
Inductive stage : Type :=
| Normalize
| DeriveBase
| Impute
| DeriveRatio
| DropSuperseded
| Encode.

Definition stage_of_step (name : string) : option stage :=
  preprocess.lookup name
    [ ("pressure", DeriveBase); ("satisfaction", DeriveBase);
      ("impute", Impute); ("pressure_ratio", DeriveRatio);
      ("diet_clean", Normalize); ("sleep_clean", Normalize);
      ("drop_cols", DropSuperseded); ("encode", Encode) ].

Definition stage_eqb (a b : stage) : bool :=
  match a, b with
  | Normalize, Normalize | DeriveBase, DeriveBase | Impute, Impute
  | DeriveRatio, DeriveRatio | DropSuperseded, DropSuperseded
  | Encode, Encode => true
  | _, _ => false
  end.

(** Consecutive steps of one kind form one stage. *)
Fixpoint collapse (l : list stage) : list stage :=
  match l with
  | [] => []
  | a :: t =>
      match t with
      | [] => [a]
      | b :: _ => if stage_eqb a b then collapse t else a :: collapse t
      end
  end.

Fixpoint step_stages (steps : Pipeline) : list stage :=
  match steps with
  | [] => []
  | (name, _) :: rest =>
      match stage_of_step name with
      | Some k => k :: step_stages rest
      | None => step_stages rest
      end
  end.

Definition stage_order (steps : Pipeline) : list stage :=
  collapse (step_stages steps).

(** The order section 4.6 of the specification gives. *)
Definition specified_order : list stage :=
  [ Normalize; DeriveBase; Impute; DeriveRatio; Normalize;
    DropSuperseded; Encode ].

Fixpoint position (name : string) (steps : Pipeline) : option nat :=
  match steps with
  | [] => None
  | (n, _) :: rest =>
      if String.eqb n name then Some 0
      else option_map S (position name rest)
  end.

(** *** Save processed data *)

(** The rows a split picks from a series. *)
Definition take (idx : list nat) (s : Series) : Series :=
  map (fun i => nth i s NaN) idx.

Definition nrows (X : DataFrame) : nat :=
  fold_right Nat.max 0 (map (fun p => length (snd p)) X).

Definition pad (n : nat) (s : Series) : Series :=
  s ++ repeat NaN (n - length s).

(** [pd.concat([X.reset_index(drop=True),
                s.reset_index(drop=True).rename(name)], axis=1)]: the
    series becomes a new last column; both sides are aligned on the
    row positions, the shorter one padded with missing values. *)
Definition concat_columns (X : DataFrame) (name : string) (s : Series)
  : DataFrame :=
  let n := Nat.max (nrows X) (length s) in
  map (fun p => (fst p, pad n (snd p))) X ++ [(name, pad n s)].

Record saved : Type := {
  processed_train : DataFrame;
  processed_val : DataFrame;
  processed_test : DataFrame
}.

Definition save_cell (out : outputs) (y_train y_val : Series) : saved :=
  {| processed_train := concat_columns (final_train out) "Depression" y_train;
     processed_val := concat_columns (final_val out) "Depression" y_val;
     processed_test := final_test out |}.

(** The notebook from the loaded files to the frames it saves:
    [train_test_split] picks from [y] the rows it picks from [X]. *)
Definition save_run (sentinel : Q)
           (diet_table sleep_table : list (string * string))
           (other : string) (repr_num : Q -> string)
           (train test : DataFrame) (train_idx val_idx : list nat)
  : result saved :=
  ky <- split_cell train_idx val_idx (loaded train test) ;;
  out <- fst (transform_cell sentinel diet_table sleep_table other repr_num
                (fst ky) (fst (snd (snd ky))) (snd (snd (snd ky)))
                unfitted) ;;
  Ok (save_cell out (take train_idx (fst (snd ky)))
                    (take val_idx (fst (snd ky)))).

(** *** More vocabulary for the statements *)

(** The columns a step before the encoder writes or removes. *)
Definition written_cols : list string :=
  [ "Pressure"; "Satisfaction"; "Pressure_Satisfaction_Ratio";
    "Financial Stress"; "Dietary Habits"; "Sleep Duration" ]
    ++ drop_cols.

(** [X'] has every column of [X], and maybe more. *)
Definition covers (X X' : DataFrame) : Prop :=
  forall c, pd.has_column c X = true -> pd.has_column c X' = true.

(** The encoded columns no step rewrites. *)
Definition raw_categorical_cols : list string :=
  [ "Gender"; status_col;
    "Have you ever had suicidal thoughts ?";
    "Family History of Mental Illness" ].

Definition has_text (X : DataFrame) (c : string) : bool :=
  match pd.getitem X c with
  | Ok s => existsb is_text s
  | Raise _ => false
  end.

(** The columns of the survey that hold text. *)
Definition text_cols : list string :=
  categorical_cols ++ [ "Name"; "City"; "Profession"; "Degree" ].

(** Every column outside [T] holds numbers and missing values only. *)
Definition numeric_outside (T : list string) (X : DataFrame) : Prop :=
  forall c s, pd.getitem X c = Ok s -> ~ In c T -> np.numeric s = true.

(** No indicator column of the encoder can have the name [c]. *)
Definition plain_name (c : string) : Prop :=
  forall cc, In cc categorical_cols ->
             String.prefix (cc ++ "_")%string c = false.

(** The columns the helper steps create. *)
Definition engineered_cols : list string :=
  [ "Pressure"; "Satisfaction"; "Pressure_Satisfaction_Ratio" ].

Definition ratio_name : string := "Pressure_Satisfaction_Ratio".

(** The raw columns the steps before the encoder read. *)
Definition source_cols : list string :=
  [ status_col; "Academic Pressure"; "Work Pressure";
    "Study Satisfaction"; "Job Satisfaction"; "Financial Stress";
    "Dietary Habits"; "Sleep Duration" ].

(** Every column name [transform] looks up in its input, given the
    fitted encoder. *)
Definition reads (enc : ColumnTransformer_state) : list string :=
  source_cols ++ engineered_cols ++ drop_cols ++ categorical_cols
    ++ remainder_ enc.

(** Two frames hold the same series under every name of interest. *)
Definition agree (S : string -> Prop) (X X' : DataFrame) : Prop :=
  forall c, S c -> pd.getitem X c = pd.getitem X' c.

(** Two results of one kind: both values, related, or the same
    exception. *)
Definition result_rel {A} (R : A -> A -> Prop) (r r' : result A) : Prop :=
  match r, r' with
  | Ok a, Ok a' => R a a'
  | Raise e, Raise e' => e = e'
  | _, _ => False
  end.

(** Every column has [n] rows. *)
Definition rectangular (n : nat) (X : DataFrame) : Prop :=
  Forall (fun p => length (snd p) = n) X.

(** How many entries of a vocabulary a value matches. *)
Definition hits (v : cell) (cats : list cell) : nat :=
  length (filter (cell_eqb v) cats).

End notebook.

(** ** Small constructed data sets *)

Module fixtures.

Definition n (z : Z) : cell := Num (inject_Z z).

Definition student : cell := Str "Student".
Definition worker : cell := Str "Working Professional".

(** A frame as it reaches the imputer. *)
Definition engineered : DataFrame :=
  [ (status_col, [student; student; student; worker; worker; student]);
    ("Pressure", [n 1; n 3; n 5; n 2; NaN; NaN]);
    ("Satisfaction", [n 4; NaN; n 2; n 3; n 1; n 5]);
    ("Financial Stress", [n 2; n 2; NaN; NaN; NaN; n 4]) ].

Definition held_out : DataFrame :=
  [ (status_col, [student; worker; Str "Retired"]);
    ("Pressure", [NaN; NaN; NaN]);
    ("Satisfaction", [n 1; n 2; n 3]);
    ("Financial Stress", [NaN; NaN; NaN]) ].

(** What [fit] learns from [engineered]. *)
Definition engineered_stat : preprocess.GroupStatistic :=
  {| preprocess.group_medians :=
       [ (student,
          [ ("Pressure", Some 3%Q); ("Satisfaction", Some 4%Q);
            ("Financial Stress", Some 2%Q) ]);
         (worker,
          [ ("Pressure", Some 2%Q); ("Satisfaction", Some 2%Q);
            ("Financial Stress", None) ]) ];
     preprocess.fallback_medians :=
       [ ("Pressure", Some (5 # 2)%Q); ("Satisfaction", Some 3%Q);
         ("Financial Stress", Some 2%Q) ] |}.

(** [held_out] with the medians of [engineered] filled in. *)
Definition held_out_imputed : DataFrame :=
  [ (status_col, [student; worker; Str "Retired"]);
    ("Pressure", [n 3; n 2; Num (5 # 2)%Q]);
    ("Satisfaction", [n 1; n 2; n 3]);
    ("Financial Stress", [n 2; n 2; n 2]) ].

(** Raw survey records (without the label). *)
Definition survey (financial_stress : Series) : DataFrame :=
  [ ("id", [n 1; n 2; n 3; n 4]);
    ("Name", [Str "Asha"; Str "Ben"; Str "Chen"; Str "Dina"]);
    ("Gender", [Str "Female"; Str "Male"; Str "Male"; Str "Female"]);
    ("Age", [n 21; n 35; n 19; n 44]);
    ("City", [Str "Pune"; Str "Agra"; Str "Surat"; Str "Delhi"]);
    (status_col, [student; worker; student; worker]);
    ("Profession", [NaN; Str "Teacher"; NaN; Str "Chef"]);
    ("Academic Pressure", [n 5; NaN; NaN; NaN]);
    ("Work Pressure", [NaN; n 2; NaN; NaN]);
    ("CGPA", [n 8; NaN; n 7; NaN]);
    ("Study Satisfaction", [n 2; NaN; n 0; NaN]);
    ("Job Satisfaction", [NaN; n 4; NaN; NaN]);
    ("Sleep Duration",
      [Str "7-8 hours"; Str "Less than 5 hours"; Str "7-8 hours"; NaN]);
    ("Dietary Habits",
      [Str "Healthy"; Str "Moderate"; Str "Unhealthy"; Str "Healthy"]);
    ("Degree", [Str "BSc"; Str "BA"; Str "BSc"; Str "MA"]);
    ("Have you ever had suicidal thoughts ?",
      [Str "Yes"; Str "No"; Str "No"; Str "No"]);
    ("Work/Study Hours", [n 3; n 9; n 6; n 8]);
    ("Financial Stress", financial_stress);
    ("Family History of Mental Illness",
      [Str "No"; Str "Yes"; Str "No"; Str "No"]) ].

Definition X_train : DataFrame := survey [n 1; NaN; n 3; n 4].

(** The same records with no financial-stress score at all. *)
Definition X_no_score : DataFrame := survey [NaN; NaN; NaN; NaN].


(** Held-out records with a gender unseen in [X_train]. *)
Definition X_val : DataFrame :=
  map (fun p =>
         if String.eqb (fst p) "Gender"
         then (fst p, [Str "Other"; Str "Male"; Str "Female"; Str "Other"])
         else p)
      X_train.

Definition train_csv : DataFrame :=
  X_train ++ [("Depression", [n 1; n 0; n 0; n 1])].

(** A fitted encoder and a frame with a gender it has not seen. *)
Definition encoder : sklearn.ColumnTransformer_state :=
  {| sklearn.feature_names_in_ := notebook.categorical_cols ++ ["Age"];
     sklearn.categories_ :=
       [ [Str "Female"; Str "Male"]; [student; worker];
         [Str "7-8 hours"]; [Str "Healthy"];
         [Str "No"; Str "Yes"]; [Str "No"; Str "Yes"] ];
     sklearn.remainder_ := ["Age"] |}.

Definition unseen_gender : DataFrame :=
  [ ("Gender", [Str "Other"; Str "Male"]);
    (status_col, [student; worker]);
    ("Sleep Duration", [Str "7-8 hours"; Str "7-8 hours"]);
    ("Dietary Habits", [Str "Healthy"; Str "Healthy"]);
    ("Have you ever had suicidal thoughts ?", [Str "No"; Str "Yes"]);
    ("Age", [n 20; n 30]);
    ("Family History of Mental Illness", [Str "No"; Str "No"]) ].



Definition diet_table : list (string * string) :=
  [ ("Healthy", "Healthy"); ("Moderate", "Moderate");
    ("Unhealthy", "Unhealthy") ].

Definition sleep_table : list (string * string) :=
  [ ("7-8 hours", "7-8 hours");
    ("Less than 5 hours", "Less than 5 hours") ].

Definition repr_num (q : Q) : string := "number".

Definition pipeline : sklearn.Pipeline :=
  notebook.preprocessor 0%Q diet_table sleep_table "Other".

End fixtures.

(** * Properties *)

(** ** Data frame access *)

Section FrameLemmas.

Lemma mem_str_true (c : string) (l : list string) :
  mem_str c l = true <-> In c l.
Proof.
  unfold mem_str. rewrite existsb_exists. split.
  - intros [x [Hin Hx]]. apply String.eqb_eq in Hx. now subst.
  - intros Hin. exists c. split; [assumption | apply String.eqb_refl].
Qed.

Lemma mem_str_false (c : string) (l : list string) :
  mem_str c l = false <-> ~ In c l.
Proof.
  rewrite <- mem_str_true. destruct (mem_str c l); split; congruence.
Qed.

Lemma has_column_getitem (c : string) (X : DataFrame) :
  pd.has_column c X = true <-> exists s, pd.getitem X c = Ok s.
Proof.
  unfold pd.has_column, pd.columns, mem_str.
  induction X as [| [n t] rest IH]; simpl.
  - split; [discriminate | intros [s Hs]; discriminate].
  - rewrite (String.eqb_sym c n). destruct (String.eqb n c); simpl.
    + split; [intros _; now exists t | reflexivity].
    + exact IH.
Qed.

Lemma getitem_raises (c : string) (X : DataFrame) :
  pd.has_column c X = false -> pd.getitem X c = Raise (KeyError c).
Proof.
  unfold pd.has_column, pd.columns, mem_str.
  induction X as [| [n t] rest IH]; simpl; [reflexivity |].
  rewrite (String.eqb_sym c n). destruct (String.eqb n c); simpl.
  - discriminate.
  - exact IH.
Qed.

Lemma getitem_setitem_same (X : DataFrame) (c : string) (s : Series) :
  pd.getitem (pd.setitem X c s) c = Ok s.
Proof.
  induction X as [| [n t] rest IH]; simpl.
  - now rewrite String.eqb_refl.
  - destruct (String.eqb n c) eqn:E; simpl; rewrite E; [reflexivity | exact IH].
Qed.

Lemma getitem_setitem_other (X : DataFrame) (c c' : string) (s : Series) :
  c <> c' -> pd.getitem (pd.setitem X c' s) c = pd.getitem X c.
Proof.
  intros Hne. induction X as [| [n t] rest IH]; simpl.
  - apply String.eqb_neq in Hne. rewrite String.eqb_sym in Hne.
    now rewrite Hne.
  - destruct (String.eqb n c') eqn:E; simpl.
    + apply String.eqb_eq in E. subst n.
      assert (String.eqb c' c = false) as ->
          by (apply String.eqb_neq; congruence).
      reflexivity.
    + destruct (String.eqb n c); [reflexivity | exact IH].
Qed.

Lemma getitem_filter (keep : string -> bool) (X : DataFrame) (c : string) :
  keep c = true ->
  pd.getitem (filter (fun p => keep (fst p)) X) c = pd.getitem X c.
Proof.
  intros Hk. induction X as [| [n t] rest IH]; simpl; [reflexivity |].
  destruct (String.eqb n c) eqn:E.
  - apply String.eqb_eq in E. subst n. rewrite Hk. simpl.
    now rewrite String.eqb_refl.
  - destruct (keep n); simpl; [rewrite E |]; exact IH.
Qed.

Lemma first_absent_some (labels : list string) (X : DataFrame) (l : string) :
  pd.first_absent labels X = Some l ->
  In l labels /\ pd.has_column l X = false.
Proof.
  induction labels as [| a ls IH]; simpl; [discriminate |].
  destruct (pd.has_column a X) eqn:E.
  - intros H. destruct (IH H). auto.
  - intros H. injection H as <-. auto.
Qed.

Lemma first_absent_none (labels : list string) (X : DataFrame) :
  pd.first_absent labels X = None <->
  forall l, In l labels -> pd.has_column l X = true.
Proof.
  induction labels as [| a ls IH]; simpl.
  - split; [intros _ l [] | reflexivity].
  - destruct (pd.has_column a X) eqn:E.
    + rewrite IH. split.
      * intros H l [<- | Hl]; auto.
      * intros H l Hl. apply H. now right.
    + split; [discriminate |].
      intros H. specialize (H a (or_introl eq_refl)). congruence.
Qed.

Lemma getitem_drop (X X' : DataFrame) (labels : list string) (c : string) :
  pd.drop X labels = Ok X' -> ~ In c labels ->
  pd.getitem X' c = pd.getitem X c.
Proof.
  unfold pd.drop. destruct (pd.first_absent labels X); [discriminate |].
  intros H Hc. injection H as <-.
  apply (getitem_filter (fun n => negb (mem_str n labels))).
  apply mem_str_false in Hc. now rewrite Hc.
Qed.

End FrameLemmas.

(** ** Column dropping *)

(** C9.  A data frame that lacks at least one of the columns of
    [drop_cols] makes [X.drop(columns = drop_cols)] raise [KeyError] on
    an absent label, and the [drop_cols] step of the pipeline raises
    the same exception: no frame is returned. *)
Theorem drop_cols_absent_column_raises :
  forall (X : DataFrame) (st : sklearn.store),
    (exists c, In c notebook.drop_cols /\ pd.has_column c X = false) ->
    exists l,
      In l notebook.drop_cols /\ pd.has_column l X = false /\
      pd.drop X notebook.drop_cols = Raise (KeyError l) /\
      sklearn.estimator_transform
        (sklearn.FunctionTransformer (fun X => pd.drop X notebook.drop_cols))
        (sklearn.Frame X) st = (Raise (KeyError l), st).
Proof.
  intros X st [c [Hin Habs]].
  destruct (pd.first_absent notebook.drop_cols X) as [l |] eqn:E.
  - destruct (first_absent_some _ _ _ E) as [Hl Hl'].
    assert (Hd : pd.drop X notebook.drop_cols = Raise (KeyError l))
      by (unfold pd.drop; now rewrite E).
    exists l. repeat split; try assumption.
    unfold sklearn.estimator_transform, sklearn.mbind, sklearn.lift.
    simpl. now rewrite Hd.
  - rewrite first_absent_none in E. rewrite (E c Hin) in Habs.
    discriminate.
Qed.

Lemma drop_cols_absent_column_raises_witness :
  exists l,
    In l notebook.drop_cols /\ pd.has_column l [("Name", [NaN])] = false /\
    pd.drop [("Name", [NaN])] notebook.drop_cols = Raise (KeyError l) /\
    sklearn.estimator_transform
      (sklearn.FunctionTransformer (fun X => pd.drop X notebook.drop_cols))
      (sklearn.Frame [("Name", [NaN])]) sklearn.unfitted
    = (Raise (KeyError l), sklearn.unfitted).
Proof.
  apply (drop_cols_absent_column_raises [("Name", [NaN])] sklearn.unfitted).
  exists "City". split; [simpl; tauto | reflexivity].
Defined.

(** ** The ratio feature *)

Section Ratio.

Variable sentinel : Q.


Lemma ratio_series_length (p s : Series) :
  length (preprocess.ratio_series sentinel p s) = length p.
Proof.
  revert s. induction p as [| x xs IH]; intros s; [reflexivity |].
  simpl. now rewrite IH.
Qed.


Lemma ratio_series_numeric (p s : Series) :
  np.numeric (preprocess.ratio_series sentinel p s) = true.
Proof.
  unfold np.numeric. apply negb_true_iff.
  revert s. induction p as [| x xs IH]; intros s; [reflexivity |].
  simpl. rewrite IH.
  destruct x as [a | |], (hd NaN s) as [b | |]; try reflexivity.
  simpl. now destruct (Qeq_bool b 0).
Qed.


End Ratio.




(** ** Group-median imputation *)

Section CellEquality.

Lemma cell_eqb_refl (a : cell) : cell_eqb a a = true.
Proof.
  destruct a; simpl;
    [apply Qeq_bool_refl | apply String.eqb_refl | reflexivity].
Qed.

Lemma cell_eqb_sym (a b : cell) : cell_eqb a b = cell_eqb b a.
Proof.
  destruct a, b; simpl;
    try reflexivity; [apply Qeq_bool_comm | apply String.eqb_sym].
Qed.

Lemma cell_eqb_trans (a b c : cell) :
  cell_eqb a b = true -> cell_eqb b c = true -> cell_eqb a c = true.
Proof.
  destruct a, b, c; simpl; try discriminate; try reflexivity.
  - apply Qeq_bool_trans.
  - intros H1 H2. apply String.eqb_eq in H1, H2. subst.
    apply String.eqb_refl.
Qed.

Lemma cell_eqb_compat (a b c : cell) :
  cell_eqb a b = true -> cell_eqb c a = cell_eqb c b.
Proof.
  intros Hab. destruct (cell_eqb c a) eqn:Ea, (cell_eqb c b) eqn:Eb;
    try reflexivity.
  - rewrite (cell_eqb_trans c a b Ea Hab) in Eb. discriminate.
  - rewrite cell_eqb_sym in Hab.
    rewrite (cell_eqb_trans c b a Eb Hab) in Ea. discriminate.
Qed.

End CellEquality.

Section GroupMedians.

Import preprocess.

Lemma group_rows_compat (g g' : cell) (keys vals : Series) :
  cell_eqb g g' = true -> group_rows g keys vals = group_rows g' keys vals.
Proof.
  intros Hg. revert keys. induction vals as [| v vs IH]; intros keys.
  - reflexivity.
  - simpl. rewrite (cell_eqb_compat g g' (hd NaN keys) Hg).
    now rewrite (IH (tl keys)).
Qed.

Lemma mem_filter_other (g x : cell) (l : list cell) :
  cell_eqb g x = false ->
  mem g (filter (fun y => negb (cell_eqb y x)) l) = mem g l.
Proof.
  intros Hgx. unfold mem. induction l as [| y t IH]; [reflexivity |].
  simpl. destruct (cell_eqb y x) eqn:Eyx; simpl.
  - rewrite IH.
    destruct (cell_eqb g y) eqn:Egy; [| reflexivity].
    rewrite (cell_eqb_trans g y x Egy Eyx) in Hgx. discriminate.
  - now rewrite IH.
Qed.

Lemma mem_unique (g : cell) (keys : Series) :
  mem g (unique keys) = mem g keys.
Proof.
  induction keys as [| x t IH]; [reflexivity |].
  change (mem g (unique (x :: t)))
    with (cell_eqb g x
          || mem g (filter (fun y => negb (cell_eqb y x)) (unique t))).
  change (mem g (x :: t)) with (cell_eqb g x || mem g t).
  destruct (cell_eqb g x) eqn:E; [reflexivity |].
  simpl. now rewrite (mem_filter_other g x _ E).
Qed.

Lemma lookup_group_map {V} (F : cell -> V) (g : cell) (ks : list cell) :
  (forall k k', cell_eqb k k' = true -> F k = F k') ->
  lookup_group g (map (fun k => (k, F k)) ks)
  = if mem g ks then Some (F g) else None.
Proof.
  intros HF. unfold mem. induction ks as [| k t IH]; [reflexivity |].
  simpl. rewrite (cell_eqb_sym g k).
  destruct (cell_eqb k g) eqn:E; simpl.
  - now rewrite (HF k g E).
  - exact IH.
Qed.

Lemma lookup_select {V} (G : Series -> V) (cols : list string)
      (X : DataFrame) (series : list (string * Series))
      (c : string) (s : Series) :
  select cols X = Ok series -> In c cols -> pd.getitem X c = Ok s ->
  lookup c (map (fun cs => (fst cs, G (snd cs))) series) = Some (G s).
Proof.
  revert series. induction cols as [| c0 cs IH]; intros series Hsel Hin Hget.
  - destruct Hin.
  - simpl in Hsel.
    destruct (pd.getitem X c0) as [s0 |] eqn:E0; [| discriminate].
    simpl in Hsel.
    destruct (select cs X) as [rest |]; [| discriminate].
    simpl in Hsel. injection Hsel as <-. simpl.
    destruct (String.eqb c0 c) eqn:Ec.
    + apply String.eqb_eq in Ec. subst c0. congruence.
    + destruct Hin as [-> | Hin];
        [rewrite String.eqb_refl in Ec; discriminate |].
      now apply IH.
Qed.

Lemma learned_some {A} (x : option A) : learned (Some x) = x.
Proof. now destruct x. Qed.

(** What [fit] stores for a group and a column. *)
Lemma fit_group_median (cols : list string) (train : DataFrame)
      (stat : GroupStatistic) (keys vals : Series) (g : cell) (c : string) :
  GroupImputer_fit cols train = Ok stat ->
  pd.getitem train status_col = Ok keys ->
  In c cols -> pd.getitem train c = Ok vals ->
  group_median stat g c
  = if mem g keys
    then pd.median (numeric_values (group_rows g keys vals))
    else None.
Proof.
  unfold GroupImputer_fit. intros Hfit Hk Hin Hv. rewrite Hk in Hfit.
  simpl in Hfit.
  destruct (select cols train) as [series |] eqn:Hsel; [| discriminate].
  simpl in Hfit. injection Hfit as <-.
  unfold group_median. simpl.
  rewrite (lookup_group_map
             (fun g => map (fun cs =>
                              (fst cs,
                               pd.median
                                 (numeric_values
                                    (group_rows g keys (snd cs)))))
                           series)).
  - rewrite mem_unique. destruct (mem g keys); [| reflexivity].
    rewrite (lookup_select
               (fun s => pd.median (numeric_values (group_rows g keys s)))
               cols train series c vals Hsel Hin Hv).
    apply learned_some.
  - intros k k' Hkk. apply map_ext. intros cs.
    now rewrite (group_rows_compat k k' keys (snd cs) Hkk).
Qed.

Lemma fit_fallback_median (cols : list string) (train : DataFrame)
      (stat : GroupStatistic) (vals : Series) (c : string) :
  GroupImputer_fit cols train = Ok stat ->
  In c cols -> pd.getitem train c = Ok vals ->
  fallback_median stat c = pd.median (numeric_values vals).
Proof.
  unfold GroupImputer_fit. intros Hfit Hin Hv.
  destruct (pd.getitem train status_col); [| discriminate].
  simpl in Hfit.
  destruct (select cols train) as [series |] eqn:Hsel; [| discriminate].
  simpl in Hfit. injection Hfit as <-.
  unfold fallback_median. simpl.
  rewrite (lookup_select (fun s => pd.median (numeric_values s))
             cols train series c vals Hsel Hin Hv).
  apply learned_some.
Qed.

Lemma impute_columns_other (st : GroupStatistic) (keys : Series)
      (cols : list string) (X X' : DataFrame) (c : string) :
  ~ In c cols -> impute_columns st keys cols X = Ok X' ->
  pd.getitem X' c = pd.getitem X c.
Proof.
  revert X. induction cols as [| c0 cs IH]; intros X Hnin H.
  - simpl in H. now injection H as <-.
  - simpl in H. destruct (pd.getitem X c0) as [s0 |]; [| discriminate].
    simpl in H. rewrite (IH _ (fun Hc => Hnin (or_intror Hc)) H).
    apply getitem_setitem_other. intros ->. apply Hnin. now left.
Qed.

Lemma impute_columns_in (st : GroupStatistic) (keys : Series)
      (cols : list string) (X X' : DataFrame) (c : string) (s : Series) :
  NoDup cols -> In c cols -> pd.getitem X c = Ok s ->
  impute_columns st keys cols X = Ok X' ->
  pd.getitem X' c = Ok (fill_series st c keys s).
Proof.
  revert X. induction cols as [| c0 cs IH]; intros X Hnd Hin Hget H.
  - destruct Hin.
  - inversion Hnd as [| ? ? Hc0 Hnd']; subst. simpl in H.
    destruct (pd.getitem X c0) as [s0 |] eqn:E0; [| discriminate].
    simpl in H.
    destruct (String.eqb c0 c) eqn:Ec.
    + apply String.eqb_eq in Ec. subst c0.
      rewrite (impute_columns_other _ _ _ _ _ _ Hc0 H).
      rewrite getitem_setitem_same. congruence.
    + apply String.eqb_neq in Ec.
      destruct Hin as [-> | Hin]; [congruence |].
      apply (IH (pd.setitem X c0 (fill_series st c0 keys s0)) Hnd' Hin);
        [| exact H].
      rewrite getitem_setitem_other; [exact Hget | congruence].
Qed.

Lemma has_column_setitem (X : DataFrame) (c c' : string) (s : Series) :
  pd.has_column c X = true -> pd.has_column c (pd.setitem X c' s) = true.
Proof.
  intros H. apply has_column_getitem.
  destruct (String.eqb c c') eqn:E.
  - apply String.eqb_eq in E. subst c'. exists s.
    apply getitem_setitem_same.
  - apply String.eqb_neq in E. rewrite getitem_setitem_other by exact E.
    now apply has_column_getitem.
Qed.

Lemma impute_columns_total (st : GroupStatistic) (keys : Series)
      (cols : list string) (X : DataFrame) :
  (forall c, In c cols -> pd.has_column c X = true) ->
  exists X', impute_columns st keys cols X = Ok X'.
Proof.
  revert X. induction cols as [| c0 cs IH]; intros X Hall.
  - now exists X.
  - destruct (proj1 (has_column_getitem c0 X) (Hall c0 (or_introl eq_refl)))
      as [s0 Hs0].
    simpl. rewrite Hs0. cbn [bind]. apply IH.
    intros c Hc. apply has_column_setitem. apply Hall. now right.
Qed.

Lemma fill_series_missing (st : GroupStatistic) (c : string)
      (keys vals : Series) (i : nat) :
  nth_error vals i = Some NaN ->
  nth_error (fill_series st c keys vals) i
  = Some (fill_value st c (nth i keys NaN)).
Proof.
  revert keys i. induction vals as [| v vs IH]; intros keys i H.
  - destruct i; discriminate.
  - destruct i as [| i].
    + simpl in H. injection H as ->. destruct keys; reflexivity.
    + simpl in H. simpl. rewrite (IH (tl keys) i H).
      destruct keys; [destruct i |]; reflexivity.
Qed.

Lemma fill_series_present (st : GroupStatistic) (c : string)
      (keys vals : Series) (i : nat) (v : cell) :
  nth_error vals i = Some v -> is_missing v = false ->
  nth_error (fill_series st c keys vals) i = Some v.
Proof.
  revert keys i. induction vals as [| x vs IH]; intros keys i H Hv.
  - destruct i; discriminate.
  - destruct i as [| i]; simpl in *.
    + injection H as ->. now rewrite Hv.
    + now apply IH.
Qed.

Lemma impute_cols_NoDup : NoDup notebook.impute_cols.
Proof.
  unfold notebook.impute_cols.
  repeat constructor; simpl; intuition discriminate.
Qed.

End GroupMedians.

(** The exact values on a small constructed data set. *)
Example fit_engineered :
  preprocess.GroupImputer_fit notebook.impute_cols fixtures.engineered
  = Ok fixtures.engineered_stat.
Proof. reflexivity. Qed.

Example transform_held_out :
  preprocess.GroupImputer_transform notebook.impute_cols
    (Some fixtures.engineered_stat) fixtures.held_out
  = Ok fixtures.held_out_imputed.
Proof. reflexivity. Qed.

(** C1.  After [fit] on a training frame, [transform] succeeds on
    every frame that has the status column and the configured columns,
    and it replaces a missing cell of a configured column [c], in a row
    whose status is [g], by the median of the numbers of [c] on the
    training rows of group [g]; when [g] does not occur in the training
    frame, or its rows hold no number for [c], the cell becomes the
    median of all the numbers of [c] in the training frame. *)
Theorem GroupImputer_fills_group_median :
  forall (train X : DataFrame) (stat : preprocess.GroupStatistic)
         (c : string) (g : cell) (i : nat)
         (keys_tr vals_tr keys vals : Series),
    preprocess.GroupImputer_fit notebook.impute_cols train = Ok stat ->
    pd.getitem train status_col = Ok keys_tr ->
    pd.getitem train c = Ok vals_tr ->
    (forall c', In c' notebook.impute_cols -> pd.has_column c' X = true) ->
    In c notebook.impute_cols ->
    pd.getitem X status_col = Ok keys ->
    pd.getitem X c = Ok vals ->
    nth_error vals i = Some NaN ->
    nth i keys NaN = g ->
    exists X' vals',
      preprocess.GroupImputer_transform notebook.impute_cols (Some stat) X
      = Ok X' /\
      pd.getitem X' c = Ok vals' /\
      (forall m,
          mem g keys_tr = true ->
          pd.median
            (preprocess.numeric_values
               (preprocess.group_rows g keys_tr vals_tr)) = Some m ->
          nth_error vals' i = Some (Num m)) /\
      (mem g keys_tr = false \/
       preprocess.numeric_values (preprocess.group_rows g keys_tr vals_tr)
       = [] ->
       nth_error vals' i
       = Some (preprocess.cell_of
                 (pd.median (preprocess.numeric_values vals_tr)))).
Proof.
  intros train X stat c g i keys_tr vals_tr keys vals
         Hfit Hktr Hvtr Hcols Hin Hk Hv Hmiss Hg.
  destruct (impute_columns_total stat keys notebook.impute_cols X Hcols)
    as [X' Htr].
  exists X', (preprocess.fill_series stat c keys vals).
  split; [unfold preprocess.GroupImputer_transform; now rewrite Hk |].
  split.
  - exact (impute_columns_in stat keys _ X X' c vals
             impute_cols_NoDup Hin Hv Htr).
  - rewrite (fill_series_missing stat c keys vals i Hmiss), Hg.
    unfold preprocess.fill_value.
    rewrite (fit_group_median _ train stat keys_tr vals_tr g c
               Hfit Hktr Hin Hvtr).
    rewrite (fit_fallback_median _ train stat vals_tr c Hfit Hin Hvtr).
    split.
    + intros m Hmem Hmed. now rewrite Hmem, Hmed.
    + intros [Hmem | Hnil].
      * now rewrite Hmem.
      * rewrite Hnil. now destruct (mem g keys_tr).
Qed.

Lemma GroupImputer_fills_group_median_witness :
  exists X' vals',
    preprocess.GroupImputer_transform notebook.impute_cols
      (Some fixtures.engineered_stat) fixtures.held_out = Ok X' /\
    pd.getitem X' "Financial Stress" = Ok vals' /\
    nth_error vals' 0 = Some (Num 2%Q) /\
    nth_error vals' 1 = Some (Num 2%Q).
Proof.
  destruct (GroupImputer_fills_group_median
              fixtures.engineered fixtures.held_out fixtures.engineered_stat
              "Financial Stress" fixtures.student 0
              [fixtures.student; fixtures.student; fixtures.student;
               fixtures.worker; fixtures.worker; fixtures.student]
              [fixtures.n 2; fixtures.n 2; NaN; NaN; NaN; fixtures.n 4]
              [fixtures.student; fixtures.worker; Str "Retired"]
              [NaN; NaN; NaN])
    as [X' [vals' [Htr [Hget [Hmed _]]]]];
    try reflexivity.
  - intros c' [<- | [<- | [<- | []]]]; reflexivity.
  - simpl; tauto.
  - exists X', vals'. split; [exact Htr |]. split; [exact Hget |]. split.
    + apply Hmed; reflexivity.
    + vm_compute in Htr. injection Htr as <-.
      vm_compute in Hget. injection Hget as <-. reflexivity.
Defined.

(** ** The pipeline, step by step *)

Section PipelineSteps.

Import sklearn notebook.

Variable sentinel : Q.
Variable diet_table sleep_table : list (string * string).
Variable other : string.

Let P : Pipeline := preprocessor sentinel diet_table sleep_table other.

Ltac step_red := cbv beta iota zeta delta [impute_ encode_].

Lemma estimator_transform_store (e : estimator) (X : data) (st : store) :
  snd (estimator_transform e X st) = st.
Proof.
  destruct e as [func | cols | hu cols];
    unfold estimator_transform, mbind, lift, ret, get, raise;
    destruct (as_frame X) as [F |]; simpl; try reflexivity.
  - destruct (func F); reflexivity.
  - destruct (preprocess.GroupImputer_transform cols (impute_ st) F);
      reflexivity.
  - destruct (encode_ st) as [enc |]; [| reflexivity].
    destruct (ColumnTransformer_transform hu cols enc F); reflexivity.
Qed.

Lemma Pipeline_transform_store (steps : Pipeline) (X : data) (st : store) :
  snd (Pipeline_transform steps X st) = st.
Proof.
  revert X. induction steps as [| [name e] rest IH]; intros X.
  - reflexivity.
  - simpl. unfold mbind.
    pose proof (estimator_transform_store e X st) as He.
    destruct (estimator_transform e X st) as [[Xt | err] st'];
      simpl in He; subst st'.
    + apply IH.
    + reflexivity.
Qed.

Lemma Pipeline_transform_preprocessor (X : DataFrame) (st : store) :
  Pipeline_transform P (Frame X) st
  = (match transform_stages sentinel diet_table sleep_table other st X with
     | Ok m => Ok (Matrix m)
     | Raise e => Raise e
     end, st).
Proof.
  unfold P, preprocessor, transform_stages, categorical_transformer.
  unfold Pipeline_transform, estimator_transform, mbind, lift, ret, get,
    raise, as_frame.
  cbv beta iota zeta.
  destruct (preprocess.assign_pressure X) as [X1 |]; cbn [bind]; cbv beta iota zeta;
    [| reflexivity].
  destruct (preprocess.assign_satisfaction X1) as [X2 |]; cbn [bind];
    cbv beta iota zeta; [| reflexivity].
  destruct (preprocess.GroupImputer_transform impute_cols (impute_ st) X2)
    as [X3 |]; cbn [bind]; cbv beta iota zeta; [| reflexivity].
  destruct (preprocess.add_pressure_ratio sentinel X3) as [X4 |];
    cbn [bind]; cbv beta iota zeta; [| reflexivity].
  destruct (preprocess.replace_diet_habits diet_table other X4) as [X5 |];
    cbn [bind]; cbv beta iota zeta; [| reflexivity].
  destruct (preprocess.replace_sleep_duration sleep_table other X5)
    as [X6 |]; cbn [bind]; cbv beta iota zeta; [| reflexivity].
  destruct (pd.drop X6 drop_cols) as [X7 |]; cbn [bind]; cbv beta iota zeta;
    [| reflexivity].
  destruct (encode_ st) as [enc |]; [| reflexivity].
  destruct (ColumnTransformer_transform hu_ignore categorical_cols enc X7);
    reflexivity.
Qed.

Lemma Pipeline_fit_preprocessor (X : DataFrame) (st0 st1 : store) :
  Pipeline_fit P (Frame X) st0 = (Ok tt, st1) ->
  fit_stages sentinel diet_table sleep_table other X = Ok st1.
Proof.
  unfold P, preprocessor, categorical_transformer.
  unfold Pipeline_fit, estimator_fit_transform, estimator_fit,
    estimator_transform, mbind, lift, ret, get, put, raise, as_frame.
  step_red.
  destruct (preprocess.assign_pressure X) as [X1 |] eqn:E1; step_red;
    [| discriminate].
  destruct (preprocess.assign_satisfaction X1) as [X2 |] eqn:E2; step_red;
    [| discriminate].
  destruct (preprocess.GroupImputer_fit impute_cols X2) as [stat |] eqn:E3;
    step_red; [| discriminate].
  destruct (preprocess.GroupImputer_transform impute_cols (Some stat) X2)
    as [X3 |] eqn:E4; step_red; [| discriminate].
  destruct (preprocess.add_pressure_ratio sentinel X3) as [X4 |] eqn:E5;
    step_red; [| discriminate].
  destruct (preprocess.replace_diet_habits diet_table other X4)
    as [X5 |] eqn:E6; step_red; [| discriminate].
  destruct (preprocess.replace_sleep_duration sleep_table other X5)
    as [X6 |] eqn:E7; step_red; [| discriminate].
  destruct (pd.drop X6 drop_cols) as [X7 |] eqn:E8; step_red;
    [| discriminate].
  destruct (ColumnTransformer_fit categorical_cols X7) as [enc |] eqn:E9;
    step_red; [| discriminate].
  intros H. injection H as <-. unfold fit_stages.
  rewrite E1; cbn [bind]. rewrite E2; cbn [bind]. rewrite E3; cbn [bind].
  rewrite E4; cbn [bind]. rewrite E5; cbn [bind]. rewrite E6; cbn [bind].
  rewrite E7; cbn [bind]. rewrite E8; cbn [bind]. rewrite E9; cbn [bind].
  reflexivity.
Qed.

End PipelineSteps.

(** ** Learned state *)

(** C3.  [preprocessor.transform] returns the store of fitted objects
    exactly as it received it, whatever the data and whether or not it
    raises: the group medians and the encoder vocabularies left by
    [fit] are not changed.  Three calls in a row (training, validation
    and test data) therefore end in the store they started from, and
    each call computes what it would compute alone from that store. *)
Theorem transform_keeps_learned_state :
  forall (sentinel : Q) (diet_table sleep_table : list (string * string))
         (other : string) (st : sklearn.store)
         (X_train X_val test : sklearn.data),
    let T :=
      sklearn.Pipeline_transform
        (notebook.preprocessor sentinel diet_table sleep_table other) in
    (forall X,
        snd (T X st) = st /\
        sklearn.impute_ (snd (T X st)) = sklearn.impute_ st /\
        sklearn.encode_ (snd (T X st)) = sklearn.encode_ st) /\
    sklearn.mbind (T X_train) (fun a =>
      sklearn.mbind (T X_val) (fun b =>
        sklearn.mbind (T test) (fun c => sklearn.ret (a, (b, c))))) st
    = (match fst (T X_train st), fst (T X_val st), fst (T test st) with
       | Ok a, Ok b, Ok c => Ok (a, (b, c))
       | Raise e, _, _ => Raise e
       | Ok _, Raise e, _ => Raise e
       | Ok _, Ok _, Raise e => Raise e
       end, st).
Proof.
  intros sentinel diet_table sleep_table other st X_train X_val test T.
  assert (HT : forall X, snd (T X st) = st)
    by (intros X; apply Pipeline_transform_store).
  split.
  - intros X. rewrite (HT X). repeat split.
  - unfold sklearn.mbind, sklearn.ret.
    pose proof (HT X_train) as H1. pose proof (HT X_val) as H2.
    pose proof (HT test) as H3.
    destruct (T X_train st) as [[a | e1] s1]; simpl in H1 |- *; subst s1;
      [| reflexivity].
    destruct (T X_val st) as [[b | e2] s2]; simpl in H2 |- *; subst s2;
      [| reflexivity].
    destruct (T test st) as [[c | e3] s3]; simpl in H3 |- *; subst s3;
      reflexivity.
Qed.

(** ** The imputer before fit *)

(** C8.  Without learned statistics [GroupImputer.transform] raises the
    uninitialised-imputer exception on every data frame, and so does
    the [impute] step of a pipeline whose imputer has not been fitted;
    the whole pipeline, applied before [fit], returns no output on any
    data frame. *)
Theorem GroupImputer_transform_before_fit :
  forall (cols : list string) (X : DataFrame)
         (enc : option sklearn.ColumnTransformer_state)
         (sentinel : Q) (diet_table sleep_table : list (string * string))
         (other : string),
    let st := {| sklearn.impute_ := None; sklearn.encode_ := enc |} in
    preprocess.GroupImputer_transform cols None X = Raise NotFittedError /\
    sklearn.estimator_transform (sklearn.GroupImputer cols) (sklearn.Frame X)
      st = (Raise NotFittedError, st) /\
    is_ok (fst (sklearn.Pipeline_transform
                  (notebook.preprocessor sentinel diet_table sleep_table
                     other)
                  (sklearn.Frame X) st)) = false.
Proof.
  intros cols X enc sentinel diet_table sleep_table other st.
  split; [reflexivity |]. split; [reflexivity |].
  rewrite Pipeline_transform_preprocessor.
  unfold notebook.transform_stages, st. cbn [sklearn.impute_ fst].
  destruct (preprocess.assign_pressure X) as [X1 |]; cbn [bind];
    [| reflexivity].
  destruct (preprocess.assign_satisfaction X1) as [X2 |]; cbn [bind];
    reflexivity.
Qed.

(** ** Order of the stages *)

(** The stages of the pipeline are not those of section 4.6 of the
    specification ("normalize, derive base features, impute, derive
    ratio, normalize text, drop, encode"): no normalisation precedes
    the derivation of [Pressure]. *)
Lemma stage_order_not_as_specified :
  notebook.stage_order fixtures.pipeline <> notebook.specified_order.
Proof.
  vm_compute. discriminate.
Qed.

(** C6, amended.  The pipeline consists of the steps [pressure],
    [satisfaction], [impute], [pressure_ratio], [diet_clean],
    [sleep_clean], [drop_cols], [encode], that is of the stages: derive
    the base features, impute, derive the ratio, normalise the diet and
    sleep text, drop the superseded columns, encode; [transform] runs
    them in this order, each on the output of the one before, and the
    imputation step comes before the ratio step. *)
Theorem pipeline_stage_order :
  forall (sentinel : Q) (diet_table sleep_table : list (string * string))
         (other : string),
    let P := notebook.preprocessor sentinel diet_table sleep_table other in
    map fst P
    = [ "pressure"; "satisfaction"; "impute"; "pressure_ratio";
        "diet_clean"; "sleep_clean"; "drop_cols"; "encode" ] /\
    notebook.stage_order P
    = [ notebook.DeriveBase; notebook.Impute; notebook.DeriveRatio;
        notebook.Normalize; notebook.DropSuperseded; notebook.Encode ] /\
    (exists i j,
        notebook.position "impute" P = Some i /\
        notebook.position "pressure_ratio" P = Some j /\ i < j) /\
    (forall (X : DataFrame) (st : sklearn.store),
        sklearn.Pipeline_transform P (sklearn.Frame X) st
        = (match
              X1 <- preprocess.assign_pressure X ;;
              X2 <- preprocess.assign_satisfaction X1 ;;
              X3 <- preprocess.GroupImputer_transform
                      notebook.impute_cols (sklearn.impute_ st) X2 ;;
              X4 <- preprocess.add_pressure_ratio sentinel X3 ;;
              X5 <- preprocess.replace_diet_habits diet_table other X4 ;;
              X6 <- preprocess.replace_sleep_duration sleep_table other X5 ;;
              X7 <- pd.drop X6 notebook.drop_cols ;;
              match sklearn.encode_ st with
              | None => Raise NotFittedError
              | Some enc =>
                  sklearn.ColumnTransformer_transform
                    sklearn.hu_ignore notebook.categorical_cols enc X7
              end
            with
            | Ok m => Ok (sklearn.Matrix m)
            | Raise e => Raise e
            end, st)).
Proof.
  intros sentinel diet_table sleep_table other P.
  split; [reflexivity |]. split; [reflexivity |]. split.
  - exists 2, 3. repeat split. lia.
  - intros X st. apply Pipeline_transform_preprocessor.
Qed.

(** ** Conversion to [float64] *)

Section Float64.

Lemma round_half_even_exact (a b : Z) :
  (0 < b)%Z -> np.round_half_even (a * b) b = a.
Proof.
  intros Hb. unfold np.round_half_even.
  rewrite Z.mod_mul, Z.div_mul by lia.
  destruct b; (lia || reflexivity).
Qed.

Lemma Qred_lowest (q : Q) :
  Z.gcd (Qnum q) (Zpos (Qden q)) = 1%Z -> Qred q = q.
Proof.
  destruct q as [n d]. unfold Qred. cbn [Qnum Qden]. intros Hg.
  pose proof (Z.ggcd_gcd n (Zpos d)) as Hgg.
  pose proof (Z.ggcd_correct_divisors n (Zpos d)) as Hd.
  destruct (Z.ggcd n (Zpos d)) as [g [aa bb]]. cbn [fst snd] in *.
  rewrite Hg in Hgg. subst g. destruct Hd as [Ha Hb].
  replace aa with n by lia. replace bb with (Zpos d) by lia. reflexivity.
Qed.

Lemma float64_same (q : Q) : np.is_float64 q = true -> np.float64 q = q.
Proof.
  unfold np.is_float64. destruct q as [z d]. cbn [Qnum Qden].
  intros H. apply andb_prop in H as [H Hz]. apply andb_prop in H as [H Hj].
  apply andb_prop in H as [Hg Hd].
  apply Z.eqb_eq in Hg, Hd. apply Z.leb_le in Hz, Hj.
  set (j := Z.log2 (Zpos d)) in *.
  assert (Hj0 : (0 <= j)%Z) by apply Z.log2_nonneg.
  unfold np.float64. cbn [Qnum Qden].
  destruct (Z.eqb_spec (Z.abs z) 0) as [E | E].
  - assert (z = 0%Z) by lia. subst z. rewrite Z.gcd_0_l in Hg.
    simpl in Hg. now injection Hg as ->.
  - set (n := Z.abs z) in *.
    assert (Hn : (0 < n)%Z) by lia.
    pose proof (Z.log2_spec n Hn) as [Hlo Hhi].
    pose proof (Z.log2_nonneg n) as H0.
    assert (Hle : (Z.log2 n <= 53)%Z).
    { pose proof (Z.log2_le_mono _ _ Hz) as Hm.
      now rewrite Z.log2_pow2 in Hm by lia. }
    assert (Hsgn : (Z.sgn z * n)%Z = z) by (unfold n; now destruct z).
    assert (He : np.last_place n (Zpos d)
                 = Z.max (Z.log2 n - j - 52) (-1074)).
    { unfold np.last_place. fold j.
      replace (np.scale_num n (Z.log2 n - j) <? np.scale_den (Zpos d) (Z.log2 n - j))%Z
        with false; [reflexivity |].
      symmetry. apply Z.ltb_ge. unfold np.scale_num, np.scale_den. rewrite Hd.
      destruct (Z_le_gt_dec 0 (Z.log2 n - j)).
      - rewrite (Z.max_l 0 (- (Z.log2 n - j))) by lia.
        rewrite (Z.max_r 0 (Z.log2 n - j)) by lia.
        rewrite <- Z.pow_add_r by lia.
        replace (j + (Z.log2 n - j))%Z with (Z.log2 n) by lia. lia.
      - rewrite (Z.max_r 0 (- (Z.log2 n - j))) by lia.
        rewrite (Z.max_l 0 (Z.log2 n - j)) by lia.
        rewrite Z.pow_0_r, Z.mul_1_r.
        replace j with (Z.log2 n + - (Z.log2 n - j))%Z at 1 by lia.
        rewrite Z.pow_add_r by lia.
        apply Z.mul_le_mono_nonneg_r; [apply Z.pow_nonneg; lia | lia]. }
    rewrite He.
    destruct (Z_le_gt_dec (Z.log2 n) 52) as [Hs | Hb].
    + set (k := Z.max (Z.log2 n - j - 52) (-1074)).
      assert (Hk : (k <= - j)%Z) by lia.
      unfold np.scale_num, np.scale_den.
      rewrite (Z.max_r 0 (- k)) by lia. rewrite (Z.max_l 0 k) by lia.
      rewrite Z.pow_0_r, !Z.mul_1_r.
      replace (- k)%Z with ((- k - j) + j)%Z at 1 by lia.
      rewrite Z.pow_add_r by lia. rewrite Hd, Z.mul_assoc.
      rewrite round_half_even_exact by (apply Z.pow_pos_nonneg; lia).
      rewrite <- (Qred_lowest (z # d)) by exact Hg.
      apply Qred_complete. unfold Qeq. cbn [Qnum Qden].
      rewrite Z2Pos.id by (apply Z.pow_pos_nonneg; lia).
      rewrite Hd, Z.mul_assoc, Hsgn, <- Z.mul_assoc, <- Z.pow_add_r by lia.
      replace (- k - j + j)%Z with (- k)%Z by lia. reflexivity.
    + assert (H53 : Z.log2 n = 53%Z) by lia.
      rewrite H53 in Hlo.
      assert (H1 : n = (2 ^ 53)%Z) by lia.
      assert (Hd1 : Zpos d = 1%Z).
      { destruct (Z.eq_dec j 0) as [-> | Hj1]; [exact Hd |].
        exfalso.
        assert (Hdiv : (2 | Z.gcd z (Zpos d))%Z).
        { apply Z.gcd_greatest.
          - apply Z.divide_abs_r. fold n. rewrite H1.
            exists (2 ^ 52)%Z. reflexivity.
          - rewrite Hd. exists (2 ^ (j - 1))%Z.
            replace j with (Z.succ (j - 1)) at 1 by lia.
            rewrite Z.pow_succ_r by lia. ring. }
        rewrite Hg in Hdiv. destruct Hdiv as [x Hx]. lia. }
      assert (j = 0%Z) by (unfold j; rewrite Hd1; reflexivity).
      rewrite H53, H. change (Z.max (53 - 0 - 52) (-1074)) with 1%Z.
      rewrite H1, Hd1.
      assert (Hm : np.round_half_even (np.scale_num (2 ^ 53) 1) (np.scale_den 1 1)
                   = (2 ^ 52)%Z) by (vm_compute; reflexivity).
      rewrite Hm. change (Z.max 0 1) with 1%Z. change (Z.max 0 (-1)) with 0%Z.
      change (Z.to_pos (2 ^ 0)) with 1%positive.
      replace (Z.sgn z * 2 ^ 52 * 2 ^ 1)%Z with z.
      * replace d with 1%positive by (injection Hd1 as ->; reflexivity).
        apply Qred_lowest. simpl. apply Z.gcd_1_r.
      * rewrite <- Z.mul_assoc. change (2 ^ 52 * 2 ^ 1)%Z with (2 ^ 53)%Z.
        rewrite <- H1. now rewrite Hsgn.
Qed.

Lemma astype_exact (s : Series) :
  np.exact s = true -> map np.astype_float64 s = s.
Proof.
  unfold np.exact. induction s as [| c t IH]; [reflexivity |].
  simpl. intros H. apply andb_prop in H as [Hc Ht].
  rewrite (IH Ht). destruct c as [q | x |]; simpl; try reflexivity.
  now rewrite (float64_same q Hc).
Qed.

Lemma stacked_cases (rest : list Series) :
  np.stacked rest = rest \/
  np.stacked rest = map (map np.astype_float64) rest.
Proof. unfold np.stacked. destruct (forallb np.numeric rest); auto. Qed.

Lemma stacked_length (rest : list Series) :
  length (np.stacked rest) = length rest.
Proof.
  destruct (stacked_cases rest) as [E | E]; rewrite E;
    [reflexivity | apply length_map].
Qed.

Lemma hstack_length (blocks rest : list Series) :
  length (np.hstack blocks rest) = length blocks + length rest.
Proof. unfold np.hstack. now rewrite length_app, stacked_length. Qed.

End Float64.

(** ** One-hot encoding *)

Section Encoding.

Import sklearn notebook.

Lemma one_hot_length (cats : list cell) (s : Series) :
  length (one_hot cats s) = length cats.
Proof. unfold one_hot. apply length_map. Qed.

Lemma transform_column_ignore (cats : list cell) (s : Series) :
  accepts cats s = true ->
  OneHotEncoder_transform_column hu_ignore cats s = Ok (one_hot cats s).
Proof.
  unfold OneHotEncoder_transform_column, accepts.
  destruct s as [| v vs]; [discriminate |].
  destruct (existsb is_text cats && np.numeric (v :: vs));
    [discriminate |].
  now destruct (unknown_values cats (v :: vs)).
Qed.

Lemma transform_column_ok (hu : handle_unknown) (cats : list cell)
      (s : Series) (block : list Series) :
  OneHotEncoder_transform_column hu cats s = Ok block ->
  block = one_hot cats s.
Proof.
  unfold OneHotEncoder_transform_column.
  destruct s as [| v vs]; [discriminate |].
  destruct (existsb is_text cats && np.numeric (v :: vs));
    [discriminate |].
  destruct hu, (unknown_values cats (v :: vs)); intros H;
    try discriminate; now injection H.
Qed.

Lemma transform_column_accepts (hu : handle_unknown) (cats : list cell)
      (s : Series) (block : list Series) :
  OneHotEncoder_transform_column hu cats s = Ok block ->
  accepts cats s = true.
Proof.
  unfold OneHotEncoder_transform_column, accepts.
  destruct s as [| v vs]; [discriminate |].
  now destruct (existsb is_text cats && np.numeric (v :: vs)).
Qed.

Lemma transform_column_refused (hu : handle_unknown) (cats : list cell)
      (s : Series) :
  accepts cats s = false ->
  exists e, OneHotEncoder_transform_column hu cats s = Raise e.
Proof.
  unfold OneHotEncoder_transform_column, accepts.
  destruct s as [| v vs]; [now eexists |].
  destruct (existsb is_text cats && np.numeric (v :: vs));
    [now eexists | discriminate].
Qed.

Lemma encodable_tail (c : string) (cs : list string) (k : list cell)
      (ks : list (list cell)) (X : DataFrame) :
  encodable (c :: cs) (k :: ks) X -> encodable cs ks X.
Proof.
  intros H c' k' s Hin. apply H. now right.
Qed.



Lemma encode_all_length (repr_num : Q -> string) (hu : handle_unknown)
      (cols : list string) (cats : list (list cell)) (X : DataFrame)
      (blocks : list Series) :
  encode_all hu cols cats X = Ok blocks ->
  length blocks
  = length (OneHotEncoder_feature_names repr_num cols cats).
Proof.
  unfold OneHotEncoder_feature_names.
  revert cats blocks. induction cols as [| c cs IH]; intros cats blocks H.
  - simpl in H. now injection H as <-.
  - destruct cats as [| k ks]; [simpl in H; now injection H as <- |].
    simpl in H. destruct (pd.getitem X c) as [s |]; [| discriminate].
    simpl in H.
    destruct (OneHotEncoder_transform_column hu k s) as [block |] eqn:Eb;
      [| discriminate].
    simpl in H.
    destruct (encode_all hu cs ks X) as [rest |] eqn:Er; [| discriminate].
    simpl in H. injection H as <-.
    apply transform_column_ok in Eb. subst block.
    simpl. rewrite !length_app, one_hot_length, length_map.
    now rewrite (IH ks rest Er).
Qed.

Lemma passthrough_length (cols : list string) (X : DataFrame)
      (rest : list Series) :
  passthrough cols X = Ok rest -> length rest = length cols.
Proof.
  revert rest. induction cols as [| c cs IH]; intros rest H.
  - simpl in H. now injection H as <-.
  - simpl in H. destruct (pd.getitem X c) as [s |]; [| discriminate].
    simpl in H. destruct (passthrough cs X) as [r |]; [| discriminate].
    simpl in H. injection H as <-. simpl. now rewrite (IH r eq_refl).
Qed.

Lemma encode_all_present (cols : list string) (cats : list (list cell))
      (X : DataFrame) :
  (forall c, In c cols -> pd.has_column c X = true) ->
  encodable cols cats X ->
  exists blocks, encode_all hu_ignore cols cats X = Ok blocks.
Proof.
  revert cats. induction cols as [| c cs IH]; intros cats Hall Henc.
  - now exists [].
  - destruct cats as [| k ks]; [now exists [] |].
    destruct (proj1 (has_column_getitem c X) (Hall c (or_introl eq_refl)))
      as [s Hs].
    destruct (IH ks (fun c' H => Hall c' (or_intror H))
                 (encodable_tail _ _ _ _ _ Henc)) as [rest Hr].
    exists (one_hot k s ++ rest). cbn [encode_all].
    rewrite Hs. cbn [bind].
    rewrite transform_column_ignore
      by (apply (Henc c k s); [now left | exact Hs]).
    cbn [bind]. now rewrite Hr.
Qed.

Lemma encode_all_encodable (hu : handle_unknown) (cols : list string)
      (cats : list (list cell)) (X : DataFrame) (blocks : list Series) :
  encode_all hu cols cats X = Ok blocks -> encodable cols cats X.
Proof.
  revert cats blocks. induction cols as [| c cs IH]; intros cats blocks H.
  - intros c' k' s []. 
  - destruct cats as [| k ks]; [intros c' k' s [] |].
    simpl in H. destruct (pd.getitem X c) as [s0 |] eqn:E0; [| discriminate].
    cbn [bind] in H.
    destruct (OneHotEncoder_transform_column hu k s0) as [block |] eqn:Eb;
      [| discriminate].
    cbn [bind] in H.
    destruct (encode_all hu cs ks X) as [rest |] eqn:Er; [| discriminate].
    intros c' k' s [Heq | Hin] Hs.
    + injection Heq as <- <-. assert (s = s0) by congruence. subst s.
      exact (transform_column_accepts _ _ _ _ Eb).
    + exact (IH ks rest Er c' k' s Hin Hs).
Qed.

Lemma passthrough_present (cols : list string) (X : DataFrame) :
  (forall c, In c cols -> pd.has_column c X = true) ->
  exists rest, passthrough cols X = Ok rest.
Proof.
  induction cols as [| c cs IH]; intros Hall.
  - now exists [].
  - destruct (proj1 (has_column_getitem c X) (Hall c (or_introl eq_refl)))
      as [s Hs].
    destruct (IH (fun c' H => Hall c' (or_intror H))) as [rest Hr].
    exists (s :: rest). simpl. rewrite Hs. simpl. now rewrite Hr.
Qed.

Lemma encode_all_block (hu : handle_unknown) (cols : list string)
      (cats : list (list cell)) (X : DataFrame) (blocks : list Series)
      (j : nat) (c : string) (ks : list cell) (s : Series) (p : nat) :
  encode_all hu cols cats X = Ok blocks ->
  nth_error cols j = Some c -> nth_error cats j = Some ks ->
  pd.getitem X c = Ok s -> p < length ks ->
  nth_error blocks (block_offset cats j + p) = nth_error (one_hot ks s) p.
Proof.
  revert cats blocks j.
  induction cols as [| c0 cs IH]; intros cats blocks j H Hc Hk Hs Hp.
  - destruct j; discriminate.
  - destruct cats as [| k0 ks0]; [destruct j; discriminate |].
    simpl in H. destruct (pd.getitem X c0) as [s0 |] eqn:E0;
      [| discriminate].
    simpl in H.
    destruct (OneHotEncoder_transform_column hu k0 s0) as [block |] eqn:Eb;
      [| discriminate].
    simpl in H.
    destruct (encode_all hu cs ks0 X) as [rest |] eqn:Er; [| discriminate].
    simpl in H. injection H as <-.
    apply transform_column_ok in Eb. subst block.
    destruct j as [| j].
    + simpl in Hc, Hk. injection Hc as ->. injection Hk as ->.
      assert (s0 = s) by congruence. subst s0.
      unfold block_offset. simpl.
      apply nth_error_app1. now rewrite one_hot_length.
    + simpl in Hc, Hk.
      unfold block_offset. simpl. rewrite length_app.
      fold (block_offset ks0 j).
      rewrite <- (one_hot_length k0 s0), <- Nat.add_assoc.
      rewrite nth_error_app2 by lia.
      replace (length (one_hot k0 s0) + (block_offset ks0 j + p)
               - length (one_hot k0 s0))
        with (block_offset ks0 j + p) by lia.
      now apply (IH ks0 rest j).
Qed.

Lemma transform_width (repr_num : Q -> string) (hu : handle_unknown)
      (enc : ColumnTransformer_state) (X : DataFrame) (m : list Series) :
  ColumnTransformer_transform hu categorical_cols enc X = Ok m ->
  length m = length (feature_schema repr_num enc).
Proof.
  unfold ColumnTransformer_transform, feature_schema, cat_features.
  destruct (pd.first_absent _ X); [discriminate |].
  destruct (encode_all hu categorical_cols (categories_ enc) X)
    as [blocks |] eqn:Eb; [| discriminate].
  simpl.
  destruct (passthrough (remainder_ enc) X) as [rest |] eqn:Er;
    [| discriminate].
  simpl. intros H. injection H as <-.
  rewrite hstack_length, length_app.
  rewrite (encode_all_length repr_num _ _ _ _ _ Eb).
  now rewrite (passthrough_length _ _ _ Er).
Qed.

End Encoding.




(** ** The feature schema *)

Section Schema.

Import sklearn notebook.

Variable sentinel : Q.
Variable diet_table sleep_table : list (string * string).
Variable other : string.
Variable repr_num : Q -> string.

Let P : Pipeline := preprocessor sentinel diet_table sleep_table other.

Lemma columns_combine (names : list string) (m : list Series) :
  length m = length names -> pd.columns (combine names m) = names.
Proof.
  unfold pd.columns. revert m.
  induction names as [| a t IH]; intros m H; [reflexivity |].
  destruct m as [| x xs]; [discriminate |].
  simpl. f_equal. apply IH. simpl in H. lia.
Qed.

Lemma DataFrame_of_columns (d : data) (names : list string)
      (F : DataFrame) :
  DataFrame_of d names = Ok F -> pd.columns F = names.
Proof.
  unfold DataFrame_of. destruct d as [X | m]; [discriminate |].
  destruct (Nat.eqb (length m) (length names)) eqn:E; [| discriminate].
  intros H. injection H as <-.
  apply columns_combine. now apply Nat.eqb_eq.
Qed.

Lemma Pipeline_transform_matrix (X : DataFrame) (st st' : store)
      (d : data) :
  Pipeline_transform P (Frame X) st = (Ok d, st') ->
  exists enc m,
    encode_ st = Some enc /\ d = Matrix m /\
    length m = length (feature_schema repr_num enc) /\ st' = st.
Proof.
  unfold P. rewrite Pipeline_transform_preprocessor.
  destruct (transform_stages sentinel diet_table sleep_table other st X)
    as [m |] eqn:E; [| discriminate].
  intros H. injection H as <- <-.
  unfold transform_stages in E.
  repeat match type of E with
         | bind ?r _ = _ =>
             destruct r; cbn [bind] in E; [| discriminate]
         end.
  destruct (encode_ st) as [enc |]; [| discriminate].
  exists enc, m. repeat split.
  exact (transform_width repr_num _ enc _ _ E).
Qed.

Lemma transform_cell_columns (k : kernel) (X_train X_val : DataFrame)
      (st0 st : store) (out : outputs) :
  transform_cell sentinel diet_table sleep_table other repr_num
    k X_train X_val st0 = (Ok out, st) ->
  pd.columns (final_train out) = features out /\
  pd.columns (final_val out) = features out /\
  pd.columns (final_test out) = features out.
Proof.
  unfold transform_cell, mbind, lift, get, raise, ret. fold P.
  destruct (Pipeline_fit P (Frame X_train) st0) as [[u | e] s1];
    [| discriminate].
  destruct (Pipeline_transform P (Frame X_train) s1) as [[a | e] s2];
    [| discriminate].
  destruct (Pipeline_transform P (Frame X_val) s2) as [[b | e] s3];
    [| discriminate].
  destruct (deref k "test") as [test |]; [| discriminate].
  destruct (Pipeline_transform P (Frame test) s3) as [[c | e] s4];
    [| discriminate].
  destruct (encode_ s4) as [enc |]; [| discriminate].
  destruct (deref k "train") as [train |]; [| discriminate].
  destruct (DataFrame_of a (all_features repr_num enc (pd.columns train)))
    as [ft |] eqn:Ea; [| discriminate].
  destruct (DataFrame_of b (all_features repr_num enc (pd.columns train)))
    as [fv |] eqn:Eb; [| discriminate].
  destruct (DataFrame_of c (all_features repr_num enc (pd.columns train)))
    as [fte |] eqn:Ec; [| discriminate].
  intros H. injection H as <- <-. simpl.
  rewrite (DataFrame_of_columns _ _ _ Ea), (DataFrame_of_columns _ _ _ Eb),
    (DataFrame_of_columns _ _ _ Ec).
  repeat split.
Qed.

End Schema.

(** ** The label *)

Section Label.

Import sklearn notebook.

Variable sentinel : Q.
Variable diet_table sleep_table : list (string * string).
Variable other : string.
Variable repr_num : Q -> string.

Lemma columns_without (c : string) (X : DataFrame) :
  ~ In c (pd.columns (filter (fun p => negb (String.eqb (fst p) c)) X)).
Proof.
  unfold pd.columns. intros Hin. apply in_map_iff in Hin as [p [Hp Hf]].
  apply filter_In in Hf as [_ Hf]. subst c.
  now rewrite String.eqb_refl in Hf.
Qed.

Lemma columns_take_rows (idx : list nat) (X : DataFrame) :
  pd.columns (pd.take_rows idx X) = pd.columns X.
Proof.
  unfold pd.columns, pd.take_rows. rewrite map_map. reflexivity.
Qed.

Lemma split_cell_loaded (train test : DataFrame) (train_idx val_idx : list nat) :
  split_cell train_idx val_idx (loaded train test)
  = match pd.getitem train "Depression" with
    | Ok y =>
        Ok ({| heap := [without_label train; test];
               globals := [("X", 0); ("train", 0); ("test", 1)] |},
            (y, (pd.take_rows train_idx (without_label train),
                 pd.take_rows val_idx (without_label train))))
    | Raise e => Raise e
    end.
Proof.
  unfold split_cell, pop_in_place, assign_name, deref, address, loaded,
    pd.pop, without_label.
  simpl. destruct (pd.getitem train "Depression"); reflexivity.
Qed.

Lemma feature_name_prefix (cols : list string) (cats : list (list cell))
      (name : string) :
  In name (OneHotEncoder_feature_names repr_num cols cats) ->
  exists c r, In c cols /\ name = (c ++ "_" ++ r)%string.
Proof.
  unfold OneHotEncoder_feature_names. intros Hin.
  apply in_flat_map in Hin as [[c ks] [Hck Hin]].
  apply in_map_iff in Hin as [k [<- _]].
  exists c, (repr repr_num k). split; [| reflexivity].
  now apply in_combine_l in Hck.
Qed.

Lemma label_not_in_all_features (enc : ColumnTransformer_state)
      (X : DataFrame) :
  ~ In "Depression" (all_features repr_num enc (pd.columns (without_label X))).
Proof.
  unfold all_features, cat_features. intros Hin.
  apply in_app_or in Hin as [Hin | Hin].
  - apply feature_name_prefix in Hin as [c [r [Hc Heq]]].
    unfold categorical_cols in Hc. simpl in Hc.
    repeat (destruct Hc as [<- | Hc]; [simpl in Heq; discriminate Heq |]).
    exact Hc.
  - apply in_app_or in Hin as [Hin | Hin].
    + apply filter_In in Hin as [Hin _].
      exact (columns_without "Depression" X Hin).
    + simpl in Hin.
      destruct Hin as [H | [H | [H | []]]]; discriminate H.
Qed.

Lemma transform_cell_features (k : kernel) (X_train X_val : DataFrame)
      (st0 st : store) (out : outputs) :
  transform_cell sentinel diet_table sleep_table other repr_num
    k X_train X_val st0 = (Ok out, st) ->
  exists enc train,
    deref k "train" = Ok train /\
    features out = all_features repr_num enc (pd.columns train).
Proof.
  unfold transform_cell, mbind, lift, get, raise, ret.
  destruct (Pipeline_fit _ (Frame X_train) st0) as [[u | e] s1];
    [| discriminate].
  destruct (Pipeline_transform _ (Frame X_train) s1) as [[a | e] s2];
    [| discriminate].
  destruct (Pipeline_transform _ (Frame X_val) s2) as [[b | e] s3];
    [| discriminate].
  destruct (deref k "test") as [test |]; [| discriminate].
  destruct (Pipeline_transform _ (Frame test) s3) as [[c | e] s4];
    [| discriminate].
  destruct (encode_ s4) as [enc |]; [| discriminate].
  destruct (deref k "train") as [train |]; [| discriminate].
  destruct (DataFrame_of a _) as [ft |]; [| discriminate].
  destruct (DataFrame_of b _) as [fv |]; [| discriminate].
  destruct (DataFrame_of c _) as [fte |]; [| discriminate].
  intros H. injection H as <- <-. now exists enc, train.
Qed.

End Label.

(** C10.  The cell [X = train; y = X.pop("Depression")] takes the label
    column out of the frame object that [train] and [X] both name, so
    the frames the pipeline is fitted on and applied to have no
    [Depression] column; [all_features], and with it the columns of the
    three final frames, never contains [Depression]; and two training
    files that differ in the label column only give the same outputs
    for the same split. *)
Theorem label_never_a_feature :
  forall (sentinel : Q) (diet_table sleep_table : list (string * string))
         (other : string) (repr_num : Q -> string)
         (train test : DataFrame) (train_idx val_idx : list nat),
    (forall k y X_train X_val,
        notebook.split_cell train_idx val_idx (notebook.loaded train test)
        = Ok (k, (y, (X_train, X_val))) ->
        pd.getitem train "Depression" = Ok y /\
        notebook.deref k "train" = Ok (notebook.without_label train) /\
        ~ In "Depression" (pd.columns X_train) /\
        ~ In "Depression" (pd.columns X_val)) /\
    (forall out,
        notebook.run sentinel diet_table sleep_table other repr_num
          train test train_idx val_idx = Ok out ->
        ~ In "Depression" (notebook.features out) /\
        ~ In "Depression" (pd.columns (notebook.final_train out)) /\
        ~ In "Depression" (pd.columns (notebook.final_val out)) /\
        ~ In "Depression" (pd.columns (notebook.final_test out))) /\
    (forall train',
        notebook.without_label train' = notebook.without_label train ->
        pd.has_column "Depression" train = true ->
        pd.has_column "Depression" train' = true ->
        notebook.run sentinel diet_table sleep_table other repr_num
          train' test train_idx val_idx
        = notebook.run sentinel diet_table sleep_table other repr_num
            train test train_idx val_idx).
Proof.
  intros sentinel diet_table sleep_table other repr_num
         train test train_idx val_idx.
  split; [| split].
  - intros k y X_train X_val. rewrite split_cell_loaded.
    destruct (pd.getitem train "Depression") as [y0 |]; [| discriminate].
    intros H. injection H as <- <- <- <-.
    split; [reflexivity |]. split; [reflexivity |].
    rewrite !columns_take_rows.
    split; apply columns_without.
  - intros out. unfold notebook.run. rewrite split_cell_loaded.
    destruct (pd.getitem train "Depression") as [y |]; [| discriminate].
    cbn [bind fst snd].
    destruct (notebook.transform_cell _ _ _ _ _ _ _ _ _) as [r st] eqn:E.
    simpl. intros ->.
    destruct (transform_cell_features _ _ _ _ _ _ _ _ _ _ _ E)
      as [enc [tr [Htr Hf]]].
    destruct (transform_cell_columns _ _ _ _ _ _ _ _ _ _ _ E)
      as [H1 [H2 H3]].
    rewrite H1, H2, H3.
    assert (Hno : ~ In "Depression" (notebook.features out)).
    { rewrite Hf. change (Ok (notebook.without_label train) = Ok tr) in Htr.
      injection Htr as <-. apply label_not_in_all_features. }
    tauto.
  - intros train' Hsame Hl Hl'. unfold notebook.run.
    rewrite !split_cell_loaded.
    apply has_column_getitem in Hl as [y Hy].
    apply has_column_getitem in Hl' as [y' Hy'].
    rewrite Hy, Hy'. cbn [bind fst snd]. now rewrite Hsame.
Qed.

Lemma label_never_a_feature_witness :
  exists out,
    notebook.run 0%Q fixtures.diet_table fixtures.sleep_table "Other"
      fixtures.repr_num fixtures.train_csv fixtures.X_val [0; 2; 3] [1]
    = Ok out /\
    ~ In "Depression" (notebook.features out) /\
    ~ In "Depression" (pd.columns (notebook.final_train out)) /\
    ~ In "Depression" (pd.columns (notebook.final_val out)) /\
    ~ In "Depression" (pd.columns (notebook.final_test out)).
Proof.
  eexists. split; [vm_compute; reflexivity |].
  apply (proj1 (proj2 (label_never_a_feature
                         0%Q fixtures.diet_table fixtures.sleep_table "Other"
                         fixtures.repr_num fixtures.train_csv fixtures.X_val
                         [0; 2; 3] [1]))).
  vm_compute. reflexivity.
Defined.

(** ** Fit, then transform the same data *)

Section Median.

Import preprocess.

Lemma insert_sorted_length (x : Q) (l : list Q) :
  length (pd.insert_sorted x l) = S (length l).
Proof.
  induction l as [| y t IH]; [reflexivity |].
  simpl. destruct (Qle_bool x y); simpl; [reflexivity | now rewrite IH].
Qed.

Lemma sort_values_length (l : list Q) :
  length (pd.sort_values l) = length l.
Proof.
  induction l as [| x t IH]; [reflexivity |].
  simpl. now rewrite insert_sorted_length, IH.
Qed.

Lemma insert_sorted_perm (x : Q) (l : list Q) :
  Permutation (x :: l) (pd.insert_sorted x l).
Proof.
  induction l as [| y t IH]; simpl; [apply Permutation_refl |].
  destruct (Qle_bool x y); [apply Permutation_refl |].
  apply perm_trans with (y :: x :: t); [apply perm_swap |].
  now apply perm_skip.
Qed.

Lemma sort_values_perm (l : list Q) : Permutation l (pd.sort_values l).
Proof.
  induction l as [| x t IH]; simpl; [apply perm_nil |].
  apply perm_trans with (x :: pd.sort_values t);
    [now apply perm_skip | apply insert_sorted_perm].
Qed.

Lemma insert_sorted_sorted (x : Q) (l : list Q) :
  StronglySorted Qle l -> StronglySorted Qle (pd.insert_sorted x l).
Proof.
  induction l as [| y t IH]; intros Hs; simpl.
  - constructor; constructor.
  - inversion Hs as [| ? ? Ht Hy]; subst.
    destruct (Qle_bool x y) eqn:E.
    + apply Qle_bool_iff in E. constructor; [exact Hs |].
      constructor; [exact E |].
      eapply Forall_impl; [| exact Hy].
      intros z Hz. now apply Qle_trans with y.
    + assert (Hyx : (y <= x)%Q).
      { apply Qlt_le_weak. apply Qnot_le_lt. intros Hle.
        apply Qle_bool_iff in Hle. congruence. }
      constructor; [now apply IH |].
      apply (Permutation_Forall (insert_sorted_perm x t)).
      now constructor.
Qed.

Lemma sort_values_sorted (l : list Q) :
  StronglySorted Qle (pd.sort_values l).
Proof.
  induction l as [| x t IH]; simpl; [constructor |].
  now apply insert_sorted_sorted.
Qed.

Lemma some_inj {A} (a b : A) : Some a = Some b -> a = b.
Proof. congruence. Qed.

Lemma sorted_around (l1 l2 : list Q) (x : Q) :
  StronglySorted Qle (l1 ++ x :: l2) ->
  Forall (fun y => (y <= x)%Q) l1 /\ Forall (fun y => (x <= y)%Q) l2.
Proof.
  induction l1 as [| a t IH]; simpl; intros H;
    inversion H as [| ? ? Ht Ha]; subst.
  - split; [constructor | exact Ha].
  - destruct (IH Ht) as [Hlo Hhi]. split; [| exact Hhi].
    constructor; [| exact Hlo].
    rewrite Forall_forall in Ha. apply Ha. apply in_elt.
Qed.

(** The value [pd.median] returns splits the list into a lower and an
    upper half: as many values at most [m] as values at least [m], or
    one more of the latter. *)
Lemma median_splits (l : list Q) (m : Q) :
  pd.median l = Some m ->
  exists lo hi,
    Permutation l (lo ++ hi) /\
    Forall (fun x => (x <= m)%Q) lo /\
    Forall (fun x => (m <= x)%Q) hi /\
    (length hi = length lo \/ length hi = S (length lo)).
Proof.
  unfold pd.median.
  pose proof (sort_values_perm l) as Hperm.
  pose proof (sort_values_sorted l) as Hsorted.
  remember (pd.sort_values l) as s eqn:Es. clear Es. cbv zeta.
  destruct (length s) as [| n] eqn:En; [discriminate |].
  destruct (Nat.even (S n)) eqn:Ev; intros H; apply some_inj in H;
    subst m.
  - apply Nat.even_spec in Ev as [k Hk].
    assert (Hdiv : S n / 2 = k)
      by (rewrite Hk, Nat.mul_comm; apply Nat.div_mul; lia).
    rewrite Hdiv.
    assert (Hlt : k - 1 < length s) by lia.
    destruct (nth_split s 0%Q Hlt) as [l1 [l2 [Hs Hl1]]].
    remember (nth (k - 1) s 0%Q) as a eqn:Ea. clear Ea.
    assert (Hl2 : length l2 = k).
    { apply (f_equal (@length Q)) in Hs.
      rewrite length_app in Hs. simpl in Hs. lia. }
    destruct l2 as [| b l2']; [cbn [length] in Hl2; lia |].
    assert (Hb : nth k s 0%Q = b).
    { rewrite Hs, app_nth2 by lia.
      replace (k - length l1) with 1 by lia. reflexivity. }
    rewrite Hb.
    pose proof Hsorted as Hs1. rewrite Hs in Hs1.
    destruct (sorted_around l1 (b :: l2') a Hs1) as [Hlo Hab].
    pose proof Hsorted as Hs2.
    rewrite Hs in Hs2.
    change (l1 ++ a :: b :: l2') with (l1 ++ [a] ++ b :: l2') in Hs2.
    rewrite app_assoc in Hs2.
    destruct (sorted_around (l1 ++ [a]) l2' b Hs2) as [_ Hhi].
    pose proof (Forall_inv Hab) as Hab'. cbv beta in Hab'.
    assert (Hm1 : (a <= Qred ((a + b) / 2))%Q)
      by (rewrite Qred_correct; unfold Qdiv;
          change (/ 2)%Q with (1 # 2)%Q; lra).
    assert (Hm2 : (Qred ((a + b) / 2) <= b)%Q)
      by (rewrite Qred_correct; unfold Qdiv;
          change (/ 2)%Q with (1 # 2)%Q; lra).
    exists (l1 ++ [a]), (b :: l2'). split; [| split; [| split]].
    + rewrite <- app_assoc. cbn [app]. rewrite <- Hs. exact Hperm.
    + apply Forall_app. split.
      * eapply Forall_impl; [| exact Hlo].
        intros x Hx. now apply Qle_trans with a.
      * constructor; [exact Hm1 | constructor].
    + constructor; [exact Hm2 |].
      eapply Forall_impl; [| exact Hhi].
      intros x Hx. now apply Qle_trans with b.
    + left. rewrite length_app. cbn [length] in *. lia.
  - assert (Hodd : Nat.odd (S n) = true)
      by (rewrite <- Nat.negb_even, Ev; reflexivity).
    apply Nat.odd_spec in Hodd as [k Hk].
    assert (Hdiv : S n / 2 = k).
    { rewrite Hk, Nat.add_comm, Nat.mul_comm.
      rewrite Nat.div_add by lia. reflexivity. }
    rewrite Hdiv.
    assert (Hlt : k < length s) by lia.
    destruct (nth_split s 0%Q Hlt) as [l1 [l2 [Hs Hl1]]].
    remember (nth k s 0%Q) as x eqn:Ex. clear Ex.
    pose proof Hsorted as Hs1. rewrite Hs in Hs1.
    destruct (sorted_around l1 l2 x Hs1) as [Hlo Hhi].
    exists l1, (x :: l2). split; [| split; [| split]].
    + rewrite <- Hs. exact Hperm.
    + exact Hlo.
    + constructor; [apply Qle_refl | exact Hhi].
    + right. apply (f_equal (@length Q)) in Hs.
      rewrite length_app in Hs. simpl in Hs. simpl. lia.
Qed.

Example median_odd :
  pd.median [5; 1; 3]%Q = Some 3%Q.
Proof. reflexivity. Qed.

Example median_even :
  pd.median [4; 1; 3; 2]%Q = Some (5 # 2)%Q.
Proof. reflexivity. Qed.

Example median_empty : pd.median [] = None.
Proof. reflexivity. Qed.

Lemma median_some (l : list Q) :
  l <> [] -> exists m, pd.median l = Some m.
Proof.
  intros Hne. unfold pd.median. rewrite sort_values_length.
  destruct l as [| x t]; [congruence |].
  cbv zeta. cbn [length].
  destruct (Nat.even (S (length t))); eexists; reflexivity.
Qed.

Lemma median_none (l : list Q) : pd.median l = None -> l = [].
Proof.
  intros H. destruct l as [| x t]; [reflexivity |].
  destruct (median_some (x :: t)) as [m Hm]; congruence.
Qed.

Lemma numeric_values_number (s : Series) :
  existsb is_number s = true -> numeric_values s <> [].
Proof.
  induction s as [| v vs IH]; [discriminate |].
  simpl. destruct v; simpl; try discriminate; exact IH.
Qed.

Lemma fill_series_no_missing (st : GroupStatistic) (c : string)
      (keys vals : Series) :
  (forall g, is_missing (fill_value st c g) = false) ->
  notebook.no_missing (fill_series st c keys vals) = true.
Proof.
  intros Hfill. unfold notebook.no_missing. revert keys.
  induction vals as [| v vs IH]; intros keys; [reflexivity |].
  simpl. rewrite IH.
  destruct (is_missing v) eqn:E; [rewrite Hfill | rewrite E]; reflexivity.
Qed.

Lemma fill_value_number (st : GroupStatistic) (c : string) (m : Q) :
  fallback_median st c = Some m ->
  forall g, is_missing (fill_value st c g) = false.
Proof.
  intros Hf g. unfold fill_value. rewrite Hf.
  now destruct (group_median st g c).
Qed.

End Median.

Section Plumbing.

Import sklearn notebook.

Lemma assign_unified_getitem (target a w : string) (X X' : DataFrame) :
  preprocess.assign_unified target a w X = Ok X' ->
  forall c, c <> target -> pd.getitem X' c = pd.getitem X c.
Proof.
  unfold preprocess.assign_unified.
  destruct (pd.getitem X status_col); [| discriminate]. cbn [bind].
  destruct (pd.getitem X a); [| discriminate]. cbn [bind].
  destruct (pd.getitem X w); [| discriminate]. cbn [bind].
  intros H c Hc. injection H as <-. now apply getitem_setitem_other.
Qed.

Lemma add_pressure_ratio_getitem (sentinel : Q) (X X' : DataFrame) :
  preprocess.add_pressure_ratio sentinel X = Ok X' ->
  forall c, c <> "Pressure_Satisfaction_Ratio" ->
            pd.getitem X' c = pd.getitem X c.
Proof.
  unfold preprocess.add_pressure_ratio.
  destruct (pd.getitem X "Pressure"); [| discriminate]. cbn [bind].
  destruct (pd.getitem X "Satisfaction"); [| discriminate]. cbn [bind].
  intros H c Hc. injection H as <-. now apply getitem_setitem_other.
Qed.

Lemma normalize_column_getitem (other : string)
      (table : list (string * string)) (col : string) (X X' : DataFrame) :
  preprocess.normalize_column other table col X = Ok X' ->
  forall c, c <> col -> pd.getitem X' c = pd.getitem X c.
Proof.
  unfold preprocess.normalize_column.
  destruct (pd.getitem X col); [| discriminate]. cbn [bind].
  intros H c Hc. injection H as <-. now apply getitem_setitem_other.
Qed.

Lemma learn_all_present (cols : list string) (X : DataFrame)
      (cats : list (list cell)) :
  learn_all cols X = Ok cats ->
  forall c, In c cols -> pd.has_column c X = true.
Proof.
  revert cats. induction cols as [| c0 cs IH]; intros cats H c Hin.
  - destruct Hin.
  - simpl in H. destruct (pd.getitem X c0) as [s |] eqn:E; [| discriminate].
    destruct (learn_categories s); [| discriminate]. cbn [bind] in H.
    destruct (learn_all cs X) as [rest |] eqn:Er; [| discriminate].
    destruct Hin as [<- | Hin].
    + apply has_column_getitem. now exists s.
    + exact (IH rest eq_refl c Hin).
Qed.

Lemma ColumnTransformer_fit_ok (cols : list string) (X : DataFrame)
      (enc : ColumnTransformer_state) :
  ColumnTransformer_fit cols X = Ok enc ->
  exists cats,
    learn_all cols X = Ok cats /\
    enc = {| feature_names_in_ := pd.columns X;
             categories_ := cats;
             remainder_ :=
               filter (fun c => negb (mem_str c cols)) (pd.columns X) |}.
Proof.
  unfold ColumnTransformer_fit.
  destruct (pd.first_absent cols X); [discriminate |].
  destruct (learn_all cols X) as [cats |]; [| discriminate].
  cbn [bind]. intros H. injection H as <-. now exists cats.
Qed.

Lemma ColumnTransformer_fit_learned (cols : list string) (X : DataFrame)
      (cats : list (list cell)) :
  learn_all cols X = Ok cats ->
  ColumnTransformer_fit cols X
  = Ok {| feature_names_in_ := pd.columns X;
          categories_ := cats;
          remainder_ :=
            filter (fun c => negb (mem_str c cols)) (pd.columns X) |}.
Proof.
  intros El. unfold ColumnTransformer_fit.
  rewrite (proj2 (first_absent_none cols X)
             (learn_all_present cols X cats El)).
  now rewrite El.
Qed.

Lemma In_unique (v : cell) (s : Series) :
  In v (preprocess.unique s) -> In v s.
Proof.
  induction s as [| x t IH]; simpl; [auto |].
  intros [-> | Hin]; [now left |].
  apply filter_In in Hin as [Hin _]. right. now apply IH.
Qed.

Lemma sort_strings_nil (l : list string) : sort_strings l = [] -> l = [].
Proof.
  destruct l as [| x t]; [reflexivity |]. simpl.
  destruct (sort_strings t) as [| y u]; simpl; [discriminate |].
  destruct (String.leb x y); discriminate.
Qed.

Lemma existsb_text_strings (l : list string) :
  existsb is_text (map Str l) = true -> l <> [].
Proof. destruct l; [discriminate | discriminate]. Qed.

Lemma existsb_text_numbers (l : list Q) :
  existsb is_text (map Num l) = false.
Proof. induction l as [| x t IH]; [reflexivity | exact IH]. Qed.

(** A vocabulary holds text only when the column it was learned from
    does, and a column a vocabulary was learned from has a row. *)
Lemma learn_categories_accepts (s : Series) (ks : list cell) :
  learn_categories s = Ok ks -> accepts ks s = true.
Proof.
  unfold learn_categories, accepts.
  destruct s as [| v vs]; [discriminate |].
  set (col := v :: vs). set (u := preprocess.unique col).
  intros H.
  destruct (existsb is_text ks) eqn:Et; [| reflexivity].
  assert (Hs : strings_of u <> []).
  { destruct (strings_of u) as [| x xs] eqn:Es; [| discriminate].
    exfalso. cbv beta iota in H. injection H as <-.
    change (sort_strings []) with (@nil string) in Et.
    cbn [map app] in Et.
    rewrite existsb_app, existsb_text_numbers in Et.
    match type of Et with
    | context [if ?b then _ else _] => destruct b
    end; simpl in Et; discriminate Et. }
  assert (Hx : existsb is_text col = true).
  { destruct (strings_of u) as [| x xs] eqn:Es; [congruence |].
    assert (Hin : In x (strings_of u)) by (rewrite Es; now left).
    unfold strings_of in Hin. apply in_flat_map in Hin as [c [Hc Hxc]].
    destruct c as [q | t |]; simpl in Hxc; try contradiction.
    apply existsb_exists. exists (Str t). split; [| reflexivity].
    now apply In_unique. }
  unfold np.numeric. rewrite Hx. reflexivity.
Qed.

Lemma learn_all_encodable (cols : list string) (X : DataFrame)
      (cats : list (list cell)) :
  learn_all cols X = Ok cats -> encodable cols cats X.
Proof.
  revert cats. induction cols as [| c0 cs IH]; intros cats H.
  - intros c k s [].
  - simpl in H. destruct (pd.getitem X c0) as [s0 |] eqn:E; [| discriminate].
    destruct (learn_categories s0) as [k0 |] eqn:Ek; [| discriminate].
    cbn [bind] in H.
    destruct (learn_all cs X) as [rest |] eqn:Er; [| discriminate].
    cbn [bind] in H. injection H as <-.
    intros c k s [Heq | Hin] Hs.
    + injection Heq as <- <-. assert (s = s0) by congruence. subst s.
      exact (learn_categories_accepts s0 k0 Ek).
    + exact (IH rest eq_refl c k s Hin Hs).
Qed.

Lemma fit_columns_present (cols : list string) (X : DataFrame)
      (enc : ColumnTransformer_state) :
  ColumnTransformer_fit cols X = Ok enc ->
  remainder_ enc = filter (fun c => negb (mem_str c cols)) (pd.columns X) /\
  pd.first_absent (cols ++ remainder_ enc) X = None.
Proof.
  intros Hfit.
  destruct (ColumnTransformer_fit_ok cols X enc Hfit) as (cats & El & ->).
  simpl.
  split; [reflexivity |].
  apply first_absent_none. intros c Hc.
  apply in_app_or in Hc as [Hc | Hc].
  - exact (learn_all_present cols X cats El c Hc).
  - apply filter_In in Hc as [Hc _].
    unfold pd.has_column. now apply mem_str_true.
Qed.

Lemma fit_encodable (cols : list string) (X : DataFrame)
      (enc : ColumnTransformer_state) :
  ColumnTransformer_fit cols X = Ok enc ->
  encodable cols (categories_ enc) X.
Proof.
  intros Hfit.
  destruct (ColumnTransformer_fit_ok cols X enc Hfit) as (cats & El & ->).
  exact (learn_all_encodable cols X cats El).
Qed.

Lemma transform_present (cols : list string) (enc : ColumnTransformer_state)
      (X : DataFrame) :
  pd.first_absent (cols ++ remainder_ enc) X = None ->
  encodable cols (categories_ enc) X ->
  exists blocks rest,
    encode_all hu_ignore cols (categories_ enc) X = Ok blocks /\
    passthrough (remainder_ enc) X = Ok rest /\
    ColumnTransformer_transform hu_ignore cols enc X
    = Ok (np.hstack blocks rest).
Proof.
  intros Habs Henc.
  pose proof (proj1 (first_absent_none _ X) Habs) as Hall.
  destruct (encode_all_present cols (categories_ enc) X) as [blocks Hb].
  { intros c Hc. apply Hall. apply in_or_app. now left. }
  { exact Henc. }
  destruct (passthrough_present (remainder_ enc) X) as [rest Hr].
  { intros c Hc. apply Hall. apply in_or_app. now right. }
  exists blocks, rest. repeat split; try assumption.
  unfold ColumnTransformer_transform. rewrite Habs, Hb. cbn [bind].
  now rewrite Hr.
Qed.

Lemma lookup_combine_notin {V} (c : string) (names : list string)
      (m : list V) :
  ~ In c names -> preprocess.lookup c (combine names m) = None.
Proof.
  revert m. induction names as [| a t IH]; intros m Hn; [reflexivity |].
  destruct m as [| x xs]; [reflexivity |]. simpl.
  destruct (String.eqb a c) eqn:E.
  - apply String.eqb_eq in E. subst a. exfalso. apply Hn. now left.
  - apply IH. intros Hc. apply Hn. now right.
Qed.

Lemma lookup_combine_app {V} (c : string) (a b : list string)
      (x y : list V) :
  length a = length x ->
  preprocess.lookup c (combine (a ++ b) (x ++ y))
  = match preprocess.lookup c (combine a x) with
    | Some v => Some v
    | None => preprocess.lookup c (combine b y)
    end.
Proof.
  revert x. induction a as [| n t IH]; intros x Hlen.
  - destruct x; [reflexivity | discriminate].
  - destruct x as [| v vs]; [discriminate |]. simpl.
    destruct (String.eqb n c); [reflexivity |].
    apply IH. simpl in Hlen. lia.
Qed.

Lemma passthrough_lookup (cols : list string) (X : DataFrame)
      (rest : list Series) (c : string) :
  passthrough cols X = Ok rest -> In c cols ->
  exists s,
    pd.getitem X c = Ok s /\
    preprocess.lookup c (combine cols rest) = Some s.
Proof.
  revert rest. induction cols as [| c0 cs IH]; intros rest H Hin.
  - destruct Hin.
  - simpl in H. destruct (pd.getitem X c0) as [s0 |] eqn:E0;
      [| discriminate].
    cbn [bind] in H.
    destruct (passthrough cs X) as [r |] eqn:Er; [| discriminate].
    cbn [bind] in H. injection H as <-. simpl.
    destruct (String.eqb c0 c) eqn:Ec.
    + apply String.eqb_eq in Ec. subst c0. now exists s0.
    + destruct Hin as [-> | Hin];
        [rewrite String.eqb_refl in Ec; discriminate |].
      exact (IH r eq_refl Hin).
Qed.

Lemma lookup_combine_map {V W} (f : V -> W) (c : string)
      (names : list string) (m : list V) :
  preprocess.lookup c (combine names (map f m))
  = option_map f (preprocess.lookup c (combine names m)).
Proof.
  revert m. induction names as [| a t IH]; intros m; [reflexivity |].
  destruct m as [| x xs]; [reflexivity |]. simpl.
  destruct (String.eqb a c); [reflexivity | apply IH].
Qed.

(** A remainder column in the stacked matrix: the column itself, or
    the column converted to [float64]. *)
Lemma stacked_lookup (cols : list string) (rest : list Series)
      (c : string) (s : Series) :
  preprocess.lookup c (combine cols rest) = Some s ->
  exists s',
    preprocess.lookup c (combine cols (np.stacked rest)) = Some s' /\
    (s' = s \/ s' = map np.astype_float64 s).
Proof.
  intros H. destruct (stacked_cases rest) as [E | E]; rewrite E.
  - exists s. auto.
  - exists (map np.astype_float64 s). split; [| now right].
    exact (eq_trans (lookup_combine_map (map np.astype_float64) c cols rest)
                    (f_equal (option_map (map np.astype_float64)) H)).
Qed.

Lemma no_missing_astype (s : Series) :
  no_missing (map np.astype_float64 s) = no_missing s.
Proof.
  unfold no_missing. induction s as [| v vs IH]; [reflexivity |].
  simpl. rewrite IH. now destruct v.
Qed.

Lemma impute_col_facts (repr_num : Q -> string) (c : string) :
  In c impute_cols ->
  c <> "Pressure_Satisfaction_Ratio" /\ c <> "Dietary Habits" /\
  c <> "Sleep Duration" /\ ~ In c drop_cols /\
  mem_str c categorical_cols = false /\
  forall cats,
    ~ In c (OneHotEncoder_feature_names repr_num categorical_cols cats).
Proof.
  intros Hin.
  assert (Hpre : forall cats,
             ~ In c (OneHotEncoder_feature_names
                       repr_num categorical_cols cats)).
  { intros cats Hc.
    apply (feature_name_prefix repr_num) in Hc as [cc [r [Hcc Heq]]].
    unfold categorical_cols in Hcc. simpl in Hcc, Hin.
    destruct Hin as [<- | [<- | [<- | []]]];
      repeat (destruct Hcc as [<- | Hcc];
              [simpl in Heq; discriminate Heq |]);
      exact Hcc. }
  simpl in Hin.
  destruct Hin as [<- | [<- | [<- | []]]];
    (repeat split;
     [ discriminate | discriminate | discriminate
     | apply mem_str_false; reflexivity | exact Hpre ]).
Qed.

End Plumbing.

(** A training set with no financial-stress score at all: the pipeline
    is fitted on it and applied to it, and the [Financial Stress]
    column of the output still has missing values, there being no
    median to fill them with. *)
Lemma no_score_stays_missing :
  exists st enc m s,
    sklearn.Pipeline_fit fixtures.pipeline
      (sklearn.Frame fixtures.X_no_score) sklearn.unfitted = (Ok tt, st) /\
    sklearn.encode_ st = Some enc /\
    sklearn.Pipeline_transform fixtures.pipeline
      (sklearn.Frame fixtures.X_no_score) st = (Ok (sklearn.Matrix m), st) /\
    notebook.output_column
      (notebook.feature_schema fixtures.repr_num enc) m "Financial Stress"
    = Some s /\
    notebook.no_missing s = false.
Proof.
  do 4 eexists.
  split; [vm_compute; reflexivity |].
  split; [vm_compute; reflexivity |].
  split; [vm_compute; reflexivity |].
  split; vm_compute; reflexivity.
Qed.

(** C2, amended.  When [fit] succeeds on a training set in which each
    of [Pressure], [Satisfaction] and [Financial Stress] holds at least
    one number once the base features are derived, [transform] on the
    same data succeeds, and in its output the columns [Pressure],
    [Satisfaction] and [Financial Stress] are present and have no
    missing value. *)
Theorem fit_then_transform_no_missing :
  forall (sentinel : Q) (diet_table sleep_table : list (string * string))
         (other : string) (repr_num : Q -> string)
         (X : DataFrame) (st0 st : sklearn.store),
    let P := notebook.preprocessor sentinel diet_table sleep_table other in
    sklearn.Pipeline_fit P (sklearn.Frame X) st0 = (Ok tt, st) ->
    notebook.imputable X = true ->
    exists enc m,
      sklearn.encode_ st = Some enc /\
      sklearn.Pipeline_transform P (sklearn.Frame X) st
      = (Ok (sklearn.Matrix m), st) /\
      forall c,
        In c notebook.impute_cols ->
        exists s,
          notebook.output_column (notebook.feature_schema repr_num enc) m c
          = Some s /\
          notebook.no_missing s = true.
Proof.
  intros sentinel diet_table sleep_table other repr_num X st0 st P Hfit Himp.
  apply Pipeline_fit_preprocessor in Hfit.
  unfold notebook.fit_stages in Hfit.
  destruct (preprocess.assign_pressure X) as [X1 |] eqn:E1;
    cbn [bind] in Hfit; [| discriminate].
  destruct (preprocess.assign_satisfaction X1) as [X2 |] eqn:E2;
    cbn [bind] in Hfit; [| discriminate].
  destruct (preprocess.GroupImputer_fit notebook.impute_cols X2)
    as [stat |] eqn:E3; cbn [bind] in Hfit; [| discriminate].
  destruct (preprocess.GroupImputer_transform
              notebook.impute_cols (Some stat) X2)
    as [X3 |] eqn:E4; cbn [bind] in Hfit; [| discriminate].
  destruct (preprocess.add_pressure_ratio sentinel X3) as [X4 |] eqn:E5;
    cbn [bind] in Hfit; [| discriminate].
  destruct (preprocess.replace_diet_habits diet_table other X4)
    as [X5 |] eqn:E6; cbn [bind] in Hfit; [| discriminate].
  destruct (preprocess.replace_sleep_duration sleep_table other X5)
    as [X6 |] eqn:E7; cbn [bind] in Hfit; [| discriminate].
  destruct (pd.drop X6 notebook.drop_cols) as [X7 |] eqn:E8;
    cbn [bind] in Hfit; [| discriminate].
  destruct (sklearn.ColumnTransformer_fit notebook.categorical_cols X7)
    as [enc |] eqn:E9; cbn [bind] in Hfit; [| discriminate].
  injection Hfit as <-.
  destruct (fit_columns_present _ _ _ E9) as [Hrem Habs].
  destruct (transform_present _ enc X7 Habs (fit_encodable _ _ _ E9))
    as [blocks [rest [Hb [Hr Ht]]]].
  exists enc, (np.hstack blocks rest). split; [reflexivity |]. split.
  - unfold P. rewrite Pipeline_transform_preprocessor.
    unfold notebook.transform_stages. cbn [sklearn.impute_ sklearn.encode_].
    rewrite E1; cbn [bind]. rewrite E2; cbn [bind]. rewrite E4; cbn [bind].
    rewrite E5; cbn [bind]. rewrite E6; cbn [bind]. rewrite E7; cbn [bind].
    rewrite E8; cbn [bind]. now rewrite Ht.
  - intros c Hc.
    destruct (impute_col_facts repr_num c Hc)
      as [Hratio [Hdiet [Hsleep [Hdrop [Hcat Hnames]]]]].
    (* the column as the imputer leaves it *)
    unfold notebook.imputable, notebook.base_features in Himp.
    rewrite E1 in Himp. cbn [bind] in Himp. rewrite E2 in Himp.
    rewrite forallb_forall in Himp. specialize (Himp c Hc).
    unfold notebook.has_number in Himp.
    destruct (pd.getitem X2 c) as [s2 |] eqn:Es2; [| discriminate].
    unfold preprocess.GroupImputer_transform in E4.
    destruct (pd.getitem X2 status_col) as [keys |] eqn:Ek;
      [| discriminate].
    cbn [bind] in E4.
    pose proof (impute_columns_in stat keys _ X2 X3 c s2
                  impute_cols_NoDup Hc Es2 E4) as H3.
    (* it reaches the encoder untouched *)
    assert (H7 : pd.getitem X7 c
                 = Ok (preprocess.fill_series stat c keys s2)).
    { rewrite (getitem_drop _ _ _ c E8 Hdrop).
      rewrite (normalize_column_getitem _ _ _ _ _ E7 c Hsleep).
      rewrite (normalize_column_getitem _ _ _ _ _ E6 c Hdiet).
      now rewrite (add_pressure_ratio_getitem _ _ _ E5 c Hratio). }
    (* and is passed through under its own name *)
    assert (Hin : In c (sklearn.remainder_ enc)).
    { rewrite Hrem. apply filter_In. split.
      - apply mem_str_true. apply has_column_getitem. eauto.
      - now rewrite Hcat. }
    destruct (passthrough_lookup _ _ _ c Hr Hin) as [s [Hs Hl]].
    destruct (stacked_lookup _ _ c s Hl) as (s' & Hl' & Hcase).
    exists s'. split.
    + unfold notebook.output_column, notebook.feature_schema,
        notebook.cat_features, np.hstack.
      rewrite lookup_combine_app
        by (symmetry; exact (encode_all_length repr_num _ _ _ _ _ Hb)).
      rewrite (lookup_combine_notin c _ blocks (Hnames _)).
      exact Hl'.
    + assert (Hfull : notebook.no_missing s = true).
      { assert (s = preprocess.fill_series stat c keys s2) by congruence.
        subst s. apply fill_series_no_missing.
        destruct (median_some (preprocess.numeric_values s2)
                    (numeric_values_number s2 Himp)) as [m Hm].
        apply (fill_value_number stat c m).
        now rewrite (fit_fallback_median _ X2 stat s2 c E3 Hc Es2). }
      destruct Hcase as [-> | ->]; [exact Hfull |].
      now rewrite no_missing_astype.
Qed.

Lemma fit_then_transform_no_missing_witness :
  exists st enc m,
    sklearn.Pipeline_fit fixtures.pipeline
      (sklearn.Frame fixtures.X_train) sklearn.unfitted = (Ok tt, st) /\
    sklearn.encode_ st = Some enc /\
    sklearn.Pipeline_transform fixtures.pipeline
      (sklearn.Frame fixtures.X_train) st = (Ok (sklearn.Matrix m), st) /\
    forall c,
      In c notebook.impute_cols ->
      exists s,
        notebook.output_column
          (notebook.feature_schema fixtures.repr_num enc) m c = Some s /\
        notebook.no_missing s = true.
Proof.
  eexists.
  edestruct (fun st Hfit =>
               fit_then_transform_no_missing
                 0%Q fixtures.diet_table fixtures.sleep_table "Other"
                 fixtures.repr_num fixtures.X_train sklearn.unfitted st
                 Hfit (eq_refl : notebook.imputable fixtures.X_train = true))
    as [enc [m [He [Ht Hc]]]];
    [ vm_compute; reflexivity | ].
  exists enc, m. split; [vm_compute; reflexivity |].
  split; [exact He |]. split; [exact Ht | exact Hc].
Defined.

(** * Further properties of the notebook *)

(** ** Which columns a frame has after each step *)

Section Columns.

Import sklearn notebook.

Lemma has_column_is_ok (c : string) (X : DataFrame) :
  pd.has_column c X = is_ok (pd.getitem X c).
Proof.
  destruct (pd.has_column c X) eqn:E.
  - apply has_column_getitem in E as [s ->]. reflexivity.
  - now rewrite (getitem_raises c X E).
Qed.

Lemma has_column_setitem_other (X : DataFrame) (c c' : string) (s : Series) :
  c <> c' -> pd.has_column c (pd.setitem X c' s) = pd.has_column c X.
Proof.
  intros Hne. rewrite !has_column_is_ok.
  now rewrite getitem_setitem_other.
Qed.

Lemma has_column_app (c : string) (X Y : DataFrame) :
  pd.has_column c (X ++ Y) = pd.has_column c X || pd.has_column c Y.
Proof.
  unfold pd.has_column, pd.columns, mem_str.
  now rewrite map_app, existsb_app.
Qed.

Lemma columns_setitem (X : DataFrame) (c : string) (s : Series) :
  pd.columns (pd.setitem X c s)
  = pd.columns X ++ (if pd.has_column c X then [] else [c]).
Proof.
  unfold pd.has_column, pd.columns, mem_str.
  induction X as [| [n t] rest IH]; simpl; [reflexivity |].
  rewrite (String.eqb_sym c n). destruct (String.eqb n c); simpl.
  - now rewrite app_nil_r.
  - now rewrite IH.
Qed.

Lemma setitem_absent (X : DataFrame) (c : string) (s : Series) :
  pd.has_column c X = false -> pd.setitem X c s = X ++ [(c, s)].
Proof.
  unfold pd.has_column, pd.columns, mem_str.
  induction X as [| [n t] rest IH]; simpl; [reflexivity |].
  rewrite (String.eqb_sym c n). destruct (String.eqb n c); simpl.
  - discriminate.
  - intros H. now rewrite IH.
Qed.

Lemma columns_filter (keep : string -> bool) (X : DataFrame) :
  pd.columns (filter (fun p => keep (fst p)) X) = filter keep (pd.columns X).
Proof.
  unfold pd.columns. induction X as [| [n t] rest IH]; simpl; [reflexivity |].
  destruct (keep n); simpl; now rewrite IH.
Qed.

Lemma columns_drop (X X' : DataFrame) (labels : list string) :
  pd.drop X labels = Ok X' ->
  pd.columns X' = filter (fun c => negb (mem_str c labels)) (pd.columns X).
Proof.
  unfold pd.drop. destruct (pd.first_absent labels X); [discriminate |].
  intros H. injection H as <-.
  apply (columns_filter (fun c => negb (mem_str c labels))).
Qed.

Lemma columns_assign_unified (target a w : string) (X X' : DataFrame) :
  preprocess.assign_unified target a w X = Ok X' ->
  pd.columns X'
  = pd.columns X ++ (if pd.has_column target X then [] else [target]).
Proof.
  unfold preprocess.assign_unified.
  destruct (pd.getitem X status_col); [| discriminate]. cbn [bind].
  destruct (pd.getitem X a); [| discriminate]. cbn [bind].
  destruct (pd.getitem X w); [| discriminate]. cbn [bind].
  intros H. injection H as <-. apply columns_setitem.
Qed.

Lemma columns_add_pressure_ratio (sentinel : Q) (X X' : DataFrame) :
  preprocess.add_pressure_ratio sentinel X = Ok X' ->
  pd.columns X'
  = pd.columns X
      ++ (if pd.has_column "Pressure_Satisfaction_Ratio" X then []
          else ["Pressure_Satisfaction_Ratio"]).
Proof.
  unfold preprocess.add_pressure_ratio.
  destruct (pd.getitem X "Pressure"); [| discriminate]. cbn [bind].
  destruct (pd.getitem X "Satisfaction"); [| discriminate]. cbn [bind].
  intros H. injection H as <-. apply columns_setitem.
Qed.

Lemma columns_normalize_column (other : string)
      (table : list (string * string)) (col : string) (X X' : DataFrame) :
  preprocess.normalize_column other table col X = Ok X' ->
  pd.columns X' = pd.columns X.
Proof.
  unfold preprocess.normalize_column.
  destruct (pd.getitem X col) as [s |] eqn:E; [| discriminate]. cbn [bind].
  intros H. injection H as <-. rewrite columns_setitem.
  assert (pd.has_column col X = true) as ->
      by (apply has_column_getitem; eauto).
  apply app_nil_r.
Qed.

Lemma columns_impute_columns (st : preprocess.GroupStatistic)
      (keys : Series) (cols : list string) (X X' : DataFrame) :
  preprocess.impute_columns st keys cols X = Ok X' ->
  pd.columns X' = pd.columns X.
Proof.
  revert X. induction cols as [| c cs IH]; intros X H.
  - simpl in H. now injection H as <-.
  - simpl in H. destruct (pd.getitem X c) as [s |] eqn:E; [| discriminate].
    cbn [bind] in H. rewrite (IH _ H), columns_setitem.
    assert (pd.has_column c X = true) as ->
        by (apply has_column_getitem; eauto).
    apply app_nil_r.
Qed.

Lemma columns_GroupImputer_transform (cols : list string)
      (fitted : option preprocess.GroupStatistic) (X X' : DataFrame) :
  preprocess.GroupImputer_transform cols fitted X = Ok X' ->
  pd.columns X' = pd.columns X.
Proof.
  unfold preprocess.GroupImputer_transform.
  destruct fitted as [st |]; [| discriminate].
  destruct (pd.getitem X status_col) as [keys |]; [| discriminate].
  cbn [bind]. apply columns_impute_columns.
Qed.

End Columns.

(** ** The stages of a successful fit or transform *)

Section Traces.

Import sklearn notebook.

Variable sentinel : Q.
Variable diet_table sleep_table : list (string * string).
Variable other : string.
Variable repr_num : Q -> string.

Let P : Pipeline := preprocessor sentinel diet_table sleep_table other.

Lemma fit_stages_inv (X : DataFrame) (st : store) :
  fit_stages sentinel diet_table sleep_table other X = Ok st ->
  exists X1 X2 stat X3 X4 X5 X6 X7 enc,
    preprocess.assign_pressure X = Ok X1 /\
    preprocess.assign_satisfaction X1 = Ok X2 /\
    preprocess.GroupImputer_fit impute_cols X2 = Ok stat /\
    preprocess.GroupImputer_transform impute_cols (Some stat) X2 = Ok X3 /\
    preprocess.add_pressure_ratio sentinel X3 = Ok X4 /\
    preprocess.replace_diet_habits diet_table other X4 = Ok X5 /\
    preprocess.replace_sleep_duration sleep_table other X5 = Ok X6 /\
    pd.drop X6 drop_cols = Ok X7 /\
    ColumnTransformer_fit categorical_cols X7 = Ok enc /\
    st = {| impute_ := Some stat; encode_ := Some enc |}.
Proof.
  unfold fit_stages. intros H.
  destruct (preprocess.assign_pressure X) as [X1 |] eqn:E1;
    cbn [bind] in H; [| discriminate].
  destruct (preprocess.assign_satisfaction X1) as [X2 |] eqn:E2;
    cbn [bind] in H; [| discriminate].
  destruct (preprocess.GroupImputer_fit impute_cols X2)
    as [stat |] eqn:E3; cbn [bind] in H; [| discriminate].
  destruct (preprocess.GroupImputer_transform impute_cols (Some stat) X2)
    as [X3 |] eqn:E4; cbn [bind] in H; [| discriminate].
  destruct (preprocess.add_pressure_ratio sentinel X3) as [X4 |] eqn:E5;
    cbn [bind] in H; [| discriminate].
  destruct (preprocess.replace_diet_habits diet_table other X4)
    as [X5 |] eqn:E6; cbn [bind] in H; [| discriminate].
  destruct (preprocess.replace_sleep_duration sleep_table other X5)
    as [X6 |] eqn:E7; cbn [bind] in H; [| discriminate].
  destruct (pd.drop X6 drop_cols) as [X7 |] eqn:E8;
    cbn [bind] in H; [| discriminate].
  destruct (ColumnTransformer_fit categorical_cols X7)
    as [enc |] eqn:E9; cbn [bind] in H; [| discriminate].
  injection H as <-.
  exists X1, X2, stat, X3, X4, X5, X6, X7, enc. repeat split; assumption.
Qed.

Lemma transform_stages_inv (st : store) (X : DataFrame) (m : list Series) :
  transform_stages sentinel diet_table sleep_table other st X = Ok m ->
  exists X1 X2 X3 X4 X5 X6 X7 enc,
    preprocess.assign_pressure X = Ok X1 /\
    preprocess.assign_satisfaction X1 = Ok X2 /\
    preprocess.GroupImputer_transform impute_cols (impute_ st) X2 = Ok X3 /\
    preprocess.add_pressure_ratio sentinel X3 = Ok X4 /\
    preprocess.replace_diet_habits diet_table other X4 = Ok X5 /\
    preprocess.replace_sleep_duration sleep_table other X5 = Ok X6 /\
    pd.drop X6 drop_cols = Ok X7 /\
    encode_ st = Some enc /\
    ColumnTransformer_transform hu_ignore categorical_cols enc X7 = Ok m.
Proof.
  unfold transform_stages. intros H.
  destruct (preprocess.assign_pressure X) as [X1 |] eqn:E1;
    cbn [bind] in H; [| discriminate].
  destruct (preprocess.assign_satisfaction X1) as [X2 |] eqn:E2;
    cbn [bind] in H; [| discriminate].
  destruct (preprocess.GroupImputer_transform impute_cols (impute_ st) X2)
    as [X3 |] eqn:E4; cbn [bind] in H; [| discriminate].
  destruct (preprocess.add_pressure_ratio sentinel X3) as [X4 |] eqn:E5;
    cbn [bind] in H; [| discriminate].
  destruct (preprocess.replace_diet_habits diet_table other X4)
    as [X5 |] eqn:E6; cbn [bind] in H; [| discriminate].
  destruct (preprocess.replace_sleep_duration sleep_table other X5)
    as [X6 |] eqn:E7; cbn [bind] in H; [| discriminate].
  destruct (pd.drop X6 drop_cols) as [X7 |] eqn:E8;
    cbn [bind] in H; [| discriminate].
  destruct (encode_ st) as [enc |] eqn:E9; [| discriminate].
  exists X1, X2, X3, X4, X5, X6, X7, enc. repeat split; assumption.
Qed.

Lemma Pipeline_transform_ok (X : DataFrame) (st st' : store) (d : data) :
  Pipeline_transform P (Frame X) st = (Ok d, st') ->
  exists m,
    d = Matrix m /\ st' = st /\
    transform_stages sentinel diet_table sleep_table other st X = Ok m.
Proof.
  unfold P. rewrite Pipeline_transform_preprocessor.
  destruct (transform_stages sentinel diet_table sleep_table other st X)
    as [m |]; [| discriminate].
  intros H. injection H as <- <-. now exists m.
Qed.

Lemma has_column_columns (c : string) (X X' : DataFrame) :
  pd.columns X' = pd.columns X -> pd.has_column c X' = pd.has_column c X.
Proof. unfold pd.has_column. now intros ->. Qed.

(** The columns of the frame that reaches the [drop_cols] step: those
    of the input, then the engineered columns the input did not have. *)
Lemma columns_before_drop (fitted : option preprocess.GroupStatistic)
      (X X1 X2 X3 X4 X5 X6 : DataFrame) :
  preprocess.assign_pressure X = Ok X1 ->
  preprocess.assign_satisfaction X1 = Ok X2 ->
  preprocess.GroupImputer_transform impute_cols fitted X2 = Ok X3 ->
  preprocess.add_pressure_ratio sentinel X3 = Ok X4 ->
  preprocess.replace_diet_habits diet_table other X4 = Ok X5 ->
  preprocess.replace_sleep_duration sleep_table other X5 = Ok X6 ->
  pd.columns X6
  = pd.columns X
      ++ filter (fun e => negb (pd.has_column e X)) engineered_cols.
Proof.
  intros E1 E2 E3 E4 E5 E6.
  rewrite (columns_normalize_column _ _ _ _ _ E6).
  rewrite (columns_normalize_column _ _ _ _ _ E5).
  rewrite (columns_add_pressure_ratio _ _ _ E4).
  rewrite (has_column_columns _ _ _ (columns_GroupImputer_transform _ _ _ _ E3)).
  rewrite (columns_GroupImputer_transform _ _ _ _ E3).
  pose proof (columns_assign_unified _ _ _ _ _ E2) as C2.
  pose proof (columns_assign_unified _ _ _ _ _ E1) as C1.
  assert (H2 : pd.has_column "Pressure_Satisfaction_Ratio" X2
               = pd.has_column "Pressure_Satisfaction_Ratio" X).
  { unfold pd.has_column at 1. rewrite C2, C1.
    unfold mem_str. rewrite !existsb_app.
    destruct (pd.has_column "Pressure" X),
             (pd.has_column "Satisfaction" X1);
      simpl; now rewrite ?orb_false_r. }
  assert (H1 : pd.has_column "Satisfaction" X1
               = pd.has_column "Satisfaction" X).
  { unfold pd.has_column at 1. rewrite C1.
    unfold mem_str. rewrite !existsb_app.
    destruct (pd.has_column "Pressure" X); simpl;
      now rewrite ?orb_false_r. }
  rewrite H2, C2, H1, C1. rewrite <- !app_assoc. f_equal.
  unfold engineered_cols. simpl.
  destruct (pd.has_column "Pressure" X), (pd.has_column "Satisfaction" X),
    (pd.has_column "Pressure_Satisfaction_Ratio" X); reflexivity.
Qed.

Lemma filter_filter {A} (f g : A -> bool) (l : list A) :
  filter f (filter g l) = filter (fun x => g x && f x) l.
Proof.
  induction l as [| x t IH]; [reflexivity |].
  simpl. destruct (g x); simpl; [destruct (f x) |]; now rewrite IH.
Qed.

(** The schema of the encoder a successful fit leaves: indicator
    names, the kept input columns, the newly engineered columns. *)
Lemma fitted_schema (X : DataFrame) (st : store)
      (enc : ColumnTransformer_state) :
  fit_stages sentinel diet_table sleep_table other X = Ok st ->
  encode_ st = Some enc ->
  feature_schema repr_num enc
  = cat_features repr_num enc
      ++ filter (fun col => negb (mem_str col drop_cols)
                            && negb (mem_str col categorical_cols))
                (pd.columns X)
      ++ filter (fun e => negb (pd.has_column e X)) engineered_cols.
Proof.
  intros Hfit Henc.
  destruct (fit_stages_inv X st Hfit)
    as (X1 & X2 & stat & X3 & X4 & X5 & X6 & X7 & enc' &
        E1 & E2 & E3 & E4 & E5 & E6 & E7 & E8 & E9 & ->).
  simpl in Henc. injection Henc as ->.
  destruct (fit_columns_present _ _ _ E9) as [Hrem _].
  unfold feature_schema. f_equal. rewrite Hrem.
  rewrite (columns_drop _ _ _ E8).
  rewrite (columns_before_drop _ _ _ _ _ _ _ _ E1 E2 E4 E5 E6 E7).
  rewrite filter_filter, filter_app. f_equal.
  unfold engineered_cols. simpl.
  destruct (pd.has_column "Pressure" X), (pd.has_column "Satisfaction" X),
    (pd.has_column "Pressure_Satisfaction_Ratio" X); reflexivity.
Qed.

End Traces.

(** ** The names given to the output columns *)

Section Naming.

Import sklearn notebook.

Variable sentinel : Q.
Variable diet_table sleep_table : list (string * string).
Variable other : string.
Variable repr_num : Q -> string.

Let P : Pipeline := preprocessor sentinel diet_table sleep_table other.

Lemma transform_cell_inv (k : kernel) (X_train X_val : DataFrame)
      (st0 st : store) (out : outputs) :
  transform_cell sentinel diet_table sleep_table other repr_num
    k X_train X_val st0 = (Ok out, st) ->
  exists enc train test a b c,
    Pipeline_fit P (Frame X_train) st0 = (Ok tt, st) /\
    encode_ st = Some enc /\
    Pipeline_transform P (Frame X_train) st = (Ok a, st) /\
    Pipeline_transform P (Frame X_val) st = (Ok b, st) /\
    deref k "test" = Ok test /\
    Pipeline_transform P (Frame test) st = (Ok c, st) /\
    deref k "train" = Ok train /\
    features out = all_features repr_num enc (pd.columns train) /\
    DataFrame_of a (features out) = Ok (final_train out) /\
    DataFrame_of b (features out) = Ok (final_val out) /\
    DataFrame_of c (features out) = Ok (final_test out).
Proof.
  unfold transform_cell, mbind, lift, get, raise, ret. fold P.
  destruct (Pipeline_fit P (Frame X_train) st0) as [[[] | e] s1] eqn:Ef;
    [| discriminate].
  pose proof (Pipeline_transform_store P (Frame X_train) s1) as S2.
  destruct (Pipeline_transform P (Frame X_train) s1) as [[a | e] s2] eqn:Ea;
    [| discriminate].
  simpl in S2. subst s2.
  pose proof (Pipeline_transform_store P (Frame X_val) s1) as S3.
  destruct (Pipeline_transform P (Frame X_val) s1) as [[b | e] s3] eqn:Eb;
    [| discriminate].
  simpl in S3. subst s3.
  destruct (deref k "test") as [test |] eqn:Et; [| discriminate].
  pose proof (Pipeline_transform_store P (Frame test) s1) as S4.
  destruct (Pipeline_transform P (Frame test) s1) as [[c | e] s4] eqn:Ec;
    [| discriminate].
  simpl in S4. subst s4.
  destruct (encode_ s1) as [enc |] eqn:Ee; [| discriminate].
  destruct (deref k "train") as [train |] eqn:Etr; [| discriminate].
  destruct (DataFrame_of a (all_features repr_num enc (pd.columns train)))
    as [ft |] eqn:Fa; [| discriminate].
  destruct (DataFrame_of b (all_features repr_num enc (pd.columns train)))
    as [fv |] eqn:Fb; [| discriminate].
  destruct (DataFrame_of c (all_features repr_num enc (pd.columns train)))
    as [fte |] eqn:Fc; [| discriminate].
  intros H. injection H as <- <-. simpl.
  exists enc, train, test, a, b, c. repeat split; assumption.
Qed.

Lemma run_inv (train test : DataFrame) (train_idx val_idx : list nat)
      (out : outputs) :
  run sentinel diet_table sleep_table other repr_num
    train test train_idx val_idx = Ok out ->
  exists y st,
    pd.getitem train "Depression" = Ok y /\
    transform_cell sentinel diet_table sleep_table other repr_num
      {| heap := [without_label train; test];
         globals := [("X", 0); ("train", 0); ("test", 1)] |}
      (pd.take_rows train_idx (without_label train))
      (pd.take_rows val_idx (without_label train)) unfitted
    = (Ok out, st).
Proof.
  unfold run. rewrite split_cell_loaded.
  destruct (pd.getitem train "Depression") as [y |]; [| discriminate].
  cbn [bind fst snd].
  destruct (transform_cell _ _ _ _ _ _ _ _ _) as [r st] eqn:E.
  simpl. intros ->. now exists y, st.
Qed.

Lemma DataFrame_of_ok (d : data) (names : list string) (F : DataFrame) :
  DataFrame_of d names = Ok F ->
  exists m, d = Matrix m /\ length m = length names /\ F = combine names m.
Proof.
  unfold DataFrame_of. destruct d as [X | m]; [discriminate |].
  destruct (Nat.eqb (length m) (length names)) eqn:E; [| discriminate].
  intros H. injection H as <-. exists m.
  apply Nat.eqb_eq in E. auto.
Qed.

Lemma engineered_all_new (X : DataFrame) :
  length (filter (fun e => negb (pd.has_column e X)) engineered_cols)
  = length engineered_cols ->
  filter (fun e => negb (pd.has_column e X)) engineered_cols
  = engineered_cols /\
  forall e, In e engineered_cols -> pd.has_column e X = false.
Proof.
  unfold engineered_cols. simpl.
  destruct (pd.has_column "Pressure" X) eqn:E1,
           (pd.has_column "Satisfaction" X) eqn:E2,
           (pd.has_column "Pressure_Satisfaction_Ratio" X) eqn:E3;
    simpl; intros H; try discriminate H.
  split; [reflexivity |].
  intros e [<- | [<- | [<- | []]]]; assumption.
Qed.

Lemma has_column_without_label (c : string) (X : DataFrame) :
  c <> "Depression" ->
  pd.has_column c (without_label X) = pd.has_column c X.
Proof.
  intros Hne. rewrite !has_column_is_ok. unfold without_label.
  rewrite (getitem_filter (fun n => negb (String.eqb n "Depression")));
    [reflexivity |].
  apply String.eqb_neq in Hne. now rewrite Hne.
Qed.

End Naming.

(** X1.  Whenever the notebook gets as far as naming its output, the
    names are right: [all_features], computed from [train.columns] and
    three literal names, is exactly the list of columns the fitted
    encoder puts out, in the encoder's order, and the training file had
    no column called [Pressure], [Satisfaction] or
    [Pressure_Satisfaction_Ratio].  (With such a column the name list is
    longer than the matrix is wide and [pd.DataFrame] raises.) *)
Theorem all_features_is_the_schema :
  forall (sentinel : Q) (diet_table sleep_table : list (string * string))
         (other : string) (repr_num : Q -> string)
         (train test : DataFrame) (train_idx val_idx : list nat)
         (out : notebook.outputs),
    notebook.run sentinel diet_table sleep_table other repr_num
      train test train_idx val_idx = Ok out ->
    exists st enc,
      sklearn.Pipeline_fit
        (notebook.preprocessor sentinel diet_table sleep_table other)
        (sklearn.Frame
           (pd.take_rows train_idx (notebook.without_label train)))
        sklearn.unfitted = (Ok tt, st) /\
      sklearn.encode_ st = Some enc /\
      notebook.features out = notebook.feature_schema repr_num enc /\
      forall e, In e notebook.engineered_cols -> pd.has_column e train = false.
Proof.
  intros sentinel diet_table sleep_table other repr_num
         train test train_idx val_idx out Hrun.
  destruct (run_inv _ _ _ _ _ _ _ _ _ _ Hrun) as (y & st & Hy & Hcell).
  destruct (transform_cell_inv _ _ _ _ _ _ _ _ _ _ _ Hcell)
    as (enc & tr & te & a & b & c &
        Hfit & Henc & Ha & _ & _ & _ & Htr & Hf & Fa & _ & _).
  change (Ok (notebook.without_label train) = Ok tr) in Htr.
  injection Htr as <-.
  exists st, enc. split; [exact Hfit |]. split; [exact Henc |].
  pose proof (Pipeline_fit_preprocessor _ _ _ _ _ _ _ Hfit) as Hst.
  pose proof (fitted_schema sentinel diet_table sleep_table other repr_num
                _ _ enc Hst Henc) as Hschema.
  rewrite columns_take_rows in Hschema.
  destruct (DataFrame_of_ok _ _ _ Fa) as (m & -> & Hlen & _).
  destruct (Pipeline_transform_matrix sentinel diet_table sleep_table other
              repr_num _ _ _ _ Ha) as (enc' & m' & He' & Hm' & Hw & _).
  injection Hm' as <-.
  assert (enc' = enc) by congruence. subst enc'.
  rewrite Hf in Hlen. unfold notebook.all_features in Hlen.
  rewrite Hw, Hschema, !length_app in Hlen.
  destruct (engineered_all_new
              (pd.take_rows train_idx (notebook.without_label train)))
    as [Hnew Hnone].
  { change (length notebook.engineered_cols) with 3.
    cbn [length] in Hlen. lia. }
  split.
  - rewrite Hf, Hschema, Hnew. reflexivity.
  - intros e He. specialize (Hnone e He).
    unfold pd.has_column in Hnone. rewrite columns_take_rows in Hnone.
    fold (pd.has_column e (notebook.without_label train)) in Hnone.
    rewrite has_column_without_label in Hnone; [exact Hnone |].
    unfold notebook.engineered_cols in He. simpl in He.
    destruct He as [<- | [<- | [<- | []]]]; discriminate.
Qed.

Lemma all_features_is_the_schema_witness :
  exists out st enc,
    notebook.run 0%Q fixtures.diet_table fixtures.sleep_table "Other"
      fixtures.repr_num fixtures.train_csv fixtures.X_val [0; 2; 3] [1]
    = Ok out /\
    sklearn.Pipeline_fit fixtures.pipeline
      (sklearn.Frame
         (pd.take_rows [0; 2; 3] (notebook.without_label fixtures.train_csv)))
      sklearn.unfitted = (Ok tt, st) /\
    sklearn.encode_ st = Some enc /\
    notebook.features out = notebook.feature_schema fixtures.repr_num enc.
Proof.
  eexists.
  edestruct (fun out Hrun =>
               all_features_is_the_schema
                 0%Q fixtures.diet_table fixtures.sleep_table "Other"
                 fixtures.repr_num fixtures.train_csv fixtures.X_val
                 [0; 2; 3] [1] out Hrun)
    as (st & enc & Hfit & Henc & Hf & _);
    [ vm_compute; reflexivity | ].
  exists st, enc. split; [vm_compute; reflexivity |].
  split; [exact Hfit |]. split; [exact Henc | exact Hf].
Defined.

(** ** Fitting again, and fitting and applying at once *)

Section Refit.

Import sklearn notebook.

Variable sentinel : Q.
Variable diet_table sleep_table : list (string * string).
Variable other : string.

Let P : Pipeline := preprocessor sentinel diet_table sleep_table other.

Ltac red_store := cbv beta iota zeta delta [impute_ encode_].

Ltac open_pipeline :=
  unfold P, preprocessor, categorical_transformer;
  unfold Pipeline_fit_transform, Pipeline_fit, Pipeline_transform,
    estimator_fit_transform, estimator_fit, estimator_transform,
    mbind, lift, ret, get, put, raise, as_frame;
  red_store.

(** What [fit] returns and the store it leaves, stage by stage. *)
Lemma Pipeline_fit_cases (X : DataFrame) (st0 : store) :
  match fit_stages sentinel diet_table sleep_table other X with
  | Ok st1 => Pipeline_fit P (Frame X) st0 = (Ok tt, st1)
  | Raise e =>
      exists st1, Pipeline_fit P (Frame X) st0 = (Raise e, st1)
  end.
Proof.
  unfold fit_stages. open_pipeline.
  destruct (preprocess.assign_pressure X) as [X1 |]; cbn [bind]; red_store;
    [| eexists; reflexivity].
  destruct (preprocess.assign_satisfaction X1) as [X2 |]; cbn [bind];
    red_store; [| eexists; reflexivity].
  destruct (preprocess.GroupImputer_fit impute_cols X2) as [stat |];
    cbn [bind]; red_store; [| eexists; reflexivity].
  destruct (preprocess.GroupImputer_transform impute_cols (Some stat) X2)
    as [X3 |]; cbn [bind]; red_store; [| eexists; reflexivity].
  destruct (preprocess.add_pressure_ratio sentinel X3) as [X4 |];
    cbn [bind]; red_store; [| eexists; reflexivity].
  destruct (preprocess.replace_diet_habits diet_table other X4) as [X5 |];
    cbn [bind]; red_store; [| eexists; reflexivity].
  destruct (preprocess.replace_sleep_duration sleep_table other X5)
    as [X6 |]; cbn [bind]; red_store; [| eexists; reflexivity].
  destruct (pd.drop X6 drop_cols) as [X7 |]; cbn [bind]; red_store;
    [| eexists; reflexivity].
  destruct (ColumnTransformer_fit categorical_cols X7) as [enc |];
    cbn [bind]; red_store; [reflexivity | eexists; reflexivity].
Qed.

Lemma Pipeline_fit_transform_eq (X : DataFrame) (st0 : store) :
  Pipeline_fit_transform P (Frame X) st0
  = mbind (Pipeline_fit P (Frame X))
          (fun _ => Pipeline_transform P (Frame X)) st0.
Proof.
  open_pipeline.
  destruct (preprocess.assign_pressure X) as [X1 |] eqn:E1; red_store;
    [| reflexivity].
  destruct (preprocess.assign_satisfaction X1) as [X2 |] eqn:E2; red_store;
    [| reflexivity].
  destruct (preprocess.GroupImputer_fit impute_cols X2) as [stat |] eqn:E3;
    red_store; [| reflexivity].
  destruct (preprocess.GroupImputer_transform impute_cols (Some stat) X2)
    as [X3 |] eqn:E4; red_store; [| reflexivity].
  destruct (preprocess.add_pressure_ratio sentinel X3) as [X4 |] eqn:E5;
    red_store; [| reflexivity].
  destruct (preprocess.replace_diet_habits diet_table other X4)
    as [X5 |] eqn:E6; red_store; [| reflexivity].
  destruct (preprocess.replace_sleep_duration sleep_table other X5)
    as [X6 |] eqn:E7; red_store; [| reflexivity].
  destruct (pd.drop X6 drop_cols) as [X7 |] eqn:E8; red_store;
    [| reflexivity].
  destruct (ColumnTransformer_fit categorical_cols X7) as [enc |] eqn:E9;
    red_store; [| reflexivity].
  rewrite ?E4; red_store. rewrite ?E5; red_store. rewrite ?E6; red_store.
  rewrite ?E7; red_store. rewrite ?E8; red_store.
  reflexivity.
Qed.

End Refit.

(** X2.  For [preprocessor], [fit_transform(X)] is [fit(X)] followed by
    [transform(X)]: the same result, the same exception when one is
    raised, the same store afterwards.  So the matrix the validation
    cell computes with [pipe_with_ratio.fit_transform(X_train)] is the
    matrix [preprocessor.transform(X_train)] gave after
    [preprocessor.fit(X_train)], whatever the store held in between. *)
Theorem fit_transform_is_fit_then_transform :
  forall (sentinel : Q) (diet_table sleep_table : list (string * string))
         (other : string) (X : DataFrame) (st0 : sklearn.store),
    let P := notebook.preprocessor sentinel diet_table sleep_table other in
    sklearn.Pipeline_fit_transform
      (notebook.pipe_with_ratio sentinel diet_table sleep_table other)
      (sklearn.Frame X) st0
    = sklearn.mbind (sklearn.Pipeline_fit P (sklearn.Frame X))
        (fun _ => sklearn.Pipeline_transform P (sklearn.Frame X)) st0 /\
    forall st0' st1,
      sklearn.Pipeline_fit P (sklearn.Frame X) st0' = (Ok tt, st1) ->
      sklearn.Pipeline_fit_transform
        (notebook.pipe_with_ratio sentinel diet_table sleep_table other)
        (sklearn.Frame X) st0
      = sklearn.Pipeline_transform P (sklearn.Frame X) st1.
Proof.
  intros sentinel diet_table sleep_table other X st0 P.
  unfold notebook.pipe_with_ratio. fold P. split.
  - apply Pipeline_fit_transform_eq.
  - intros st0' st1 Hfit.
    apply Pipeline_fit_preprocessor in Hfit.
    unfold P. rewrite Pipeline_fit_transform_eq. unfold sklearn.mbind.
    pose proof (Pipeline_fit_cases sentinel diet_table sleep_table other
                  X st0) as Hc.
    rewrite Hfit in Hc. now rewrite Hc.
Qed.

Lemma fit_transform_is_fit_then_transform_witness :
  exists st1,
    sklearn.Pipeline_fit fixtures.pipeline (sklearn.Frame fixtures.X_train)
      sklearn.unfitted = (Ok tt, st1) /\
    sklearn.Pipeline_fit_transform
      (notebook.pipe_with_ratio 0%Q fixtures.diet_table fixtures.sleep_table
         "Other")
      (sklearn.Frame fixtures.X_train) st1
    = sklearn.Pipeline_transform fixtures.pipeline
        (sklearn.Frame fixtures.X_train) st1.
Proof.
  eexists. split; [vm_compute; reflexivity |].
  apply (proj2 (fit_transform_is_fit_then_transform
                  0%Q fixtures.diet_table fixtures.sleep_table "Other"
                  fixtures.X_train _) sklearn.unfitted).
  vm_compute. reflexivity.
Defined.

(** X3.  What [preprocessor.fit] returns does not depend on what was
    learned before: from any two stores it raises the same exception or
    succeeds alike, and when it succeeds it leaves the same store, with
    nothing of the earlier statistics or vocabularies in it. *)
Theorem fit_replaces_learned_state :
  forall (sentinel : Q) (diet_table sleep_table : list (string * string))
         (other : string) (X : DataFrame) (st0 st0' : sklearn.store),
    let P := notebook.preprocessor sentinel diet_table sleep_table other in
    fst (sklearn.Pipeline_fit P (sklearn.Frame X) st0)
    = fst (sklearn.Pipeline_fit P (sklearn.Frame X) st0') /\
    (forall st1,
        sklearn.Pipeline_fit P (sklearn.Frame X) st0 = (Ok tt, st1) ->
        sklearn.Pipeline_fit P (sklearn.Frame X) st0' = (Ok tt, st1)).
Proof.
  intros sentinel diet_table sleep_table other X st0 st0' P.
  pose proof (Pipeline_fit_cases sentinel diet_table sleep_table other
                X st0) as H0.
  pose proof (Pipeline_fit_cases sentinel diet_table sleep_table other
                X st0') as H0'.
  fold P in H0, H0'.
  destruct (notebook.fit_stages sentinel diet_table sleep_table other X)
    as [s | err].
  - rewrite H0, H0'. split; [reflexivity |].
    intros st1 H. now injection H as <-.
  - destruct H0 as (s0 & H0). destruct H0' as (s0' & H0').
    rewrite H0, H0'. split; [reflexivity |].
    intros st1 H. discriminate H.
Qed.

Lemma fit_replaces_learned_state_witness :
  exists st1,
    sklearn.Pipeline_fit fixtures.pipeline (sklearn.Frame fixtures.X_train)
      sklearn.unfitted = (Ok tt, st1) /\
    sklearn.Pipeline_fit fixtures.pipeline (sklearn.Frame fixtures.X_train)
      {| sklearn.impute_ := Some fixtures.engineered_stat;
         sklearn.encode_ := Some fixtures.encoder |} = (Ok tt, st1).
Proof.
  eexists. split; [vm_compute; reflexivity |].
  apply (proj2 (fit_replaces_learned_state
                  0%Q fixtures.diet_table fixtures.sleep_table "Other"
                  fixtures.X_train sklearn.unfitted _)).
  vm_compute. reflexivity.
Defined.

(** ** A frame with one more last column *)

Section Appended.

Import sklearn notebook.

Variable r : string.
Variable s : Series.

Lemma getitem_app_other (X : DataFrame) (c : string) :
  c <> r -> pd.getitem (X ++ [(r, s)]) c = pd.getitem X c.
Proof.
  intros Hne. induction X as [| [n t] rest IH]; simpl.
  - assert (String.eqb r c = false) as ->
        by (apply String.eqb_neq; congruence).
    reflexivity.
  - destruct (String.eqb n c); [reflexivity | exact IH].
Qed.

Lemma getitem_app_new (X : DataFrame) :
  pd.has_column r X = false -> pd.getitem (X ++ [(r, s)]) r = Ok s.
Proof.
  intros H. rewrite <- (setitem_absent X r s H).
  apply getitem_setitem_same.
Qed.

Lemma has_column_app_other (X : DataFrame) (c : string) :
  c <> r -> pd.has_column c (X ++ [(r, s)]) = pd.has_column c X.
Proof.
  intros Hne. rewrite !has_column_is_ok. now rewrite getitem_app_other.
Qed.

Lemma setitem_app (X Y : DataFrame) (c : string) (t : Series) :
  pd.has_column c X = true ->
  pd.setitem (X ++ Y) c t = pd.setitem X c t ++ Y.
Proof.
  unfold pd.has_column, pd.columns, mem_str.
  induction X as [| [n u] rest IH]; simpl; [discriminate |].
  rewrite (String.eqb_sym c n). destruct (String.eqb n c); simpl.
  - reflexivity.
  - intros H. now rewrite IH.
Qed.

Lemma normalize_column_app (other : string) (table : list (string * string))
      (col : string) (X : DataFrame) :
  col <> r ->
  preprocess.normalize_column other table col (X ++ [(r, s)])
  = X' <- preprocess.normalize_column other table col X ;;
    Ok (X' ++ [(r, s)]).
Proof.
  intros Hne. unfold preprocess.normalize_column.
  rewrite (getitem_app_other X col Hne).
  destruct (pd.getitem X col) as [sc |] eqn:E; cbn [bind]; [| reflexivity].
  rewrite setitem_app; [reflexivity |].
  apply has_column_getitem. eauto.
Qed.

Lemma first_absent_app_frame (labels : list string) (X : DataFrame) :
  ~ In r labels ->
  pd.first_absent labels (X ++ [(r, s)]) = pd.first_absent labels X.
Proof.
  induction labels as [| l ls IH]; intros Hn; [reflexivity |].
  simpl. rewrite has_column_app_other.
  - rewrite IH; [reflexivity |]. intros H. apply Hn. now right.
  - intros ->. apply Hn. now left.
Qed.

Lemma drop_app (labels : list string) (X : DataFrame) :
  ~ In r labels ->
  pd.drop (X ++ [(r, s)]) labels
  = X' <- pd.drop X labels ;; Ok (X' ++ [(r, s)]).
Proof.
  intros Hn. unfold pd.drop. rewrite (first_absent_app_frame labels X Hn).
  destruct (pd.first_absent labels X); cbn [bind]; [reflexivity |].
  rewrite filter_app. simpl.
  apply mem_str_false in Hn. now rewrite Hn.
Qed.

Lemma learn_all_app (cols : list string) (X : DataFrame) :
  ~ In r cols -> learn_all cols (X ++ [(r, s)]) = learn_all cols X.
Proof.
  induction cols as [| c cs IH]; intros Hn; [reflexivity |].
  simpl. rewrite getitem_app_other by (intros ->; apply Hn; now left).
  rewrite IH; [reflexivity |]. intros H. apply Hn. now right.
Qed.

Lemma encode_all_app (hu : handle_unknown) (cols : list string)
      (cats : list (list cell)) (X : DataFrame) :
  ~ In r cols ->
  encode_all hu cols cats (X ++ [(r, s)]) = encode_all hu cols cats X.
Proof.
  revert cats. induction cols as [| c cs IH]; intros cats Hn;
    [reflexivity |].
  destruct cats as [| k ks]; [reflexivity |].
  simpl. rewrite getitem_app_other by (intros ->; apply Hn; now left).
  rewrite IH; [reflexivity |]. intros H. apply Hn. now right.
Qed.

Lemma passthrough_app_frame (names : list string) (X : DataFrame) :
  ~ In r names ->
  passthrough names (X ++ [(r, s)]) = passthrough names X.
Proof.
  induction names as [| c cs IH]; intros Hn; [reflexivity |].
  simpl. rewrite getitem_app_other by (intros ->; apply Hn; now left).
  rewrite IH; [reflexivity |]. intros H. apply Hn. now right.
Qed.

Lemma passthrough_app_names (a b : list string) (X : DataFrame) :
  passthrough (a ++ b) X
  = ra <- passthrough a X ;; rb <- passthrough b X ;; Ok (ra ++ rb).
Proof.
  induction a as [| c cs IH]; simpl.
  - destruct (passthrough b X); reflexivity.
  - destruct (pd.getitem X c); cbn [bind]; [| reflexivity].
    rewrite IH. destruct (passthrough cs X); cbn [bind]; [| reflexivity].
    destruct (passthrough b X); reflexivity.
Qed.

Lemma first_absent_app_labels (a b : list string) (X : DataFrame) :
  pd.first_absent (a ++ b) X
  = match pd.first_absent a X with
    | Some l => Some l
    | None => pd.first_absent b X
    end.
Proof.
  induction a as [| l ls IH]; simpl; [reflexivity |].
  destruct (pd.has_column l X); [exact IH | reflexivity].
Qed.

(** Fitting the encoder on the longer frame: the same vocabularies, one
    more remainder column. *)
Lemma ColumnTransformer_fit_app (cols : list string) (X : DataFrame) :
  ~ In r cols ->
  ColumnTransformer_fit cols (X ++ [(r, s)])
  = enc <- ColumnTransformer_fit cols X ;;
    Ok {| feature_names_in_ := feature_names_in_ enc ++ [r];
          categories_ := categories_ enc;
          remainder_ := remainder_ enc ++ [r] |}.
Proof.
  intros Hn. unfold ColumnTransformer_fit.
  rewrite (first_absent_app_frame cols X Hn), (learn_all_app cols X Hn).
  destruct (pd.first_absent cols X); [reflexivity |].
  destruct (learn_all cols X) as [cats |]; cbn [bind]; [| reflexivity].
  unfold pd.columns. rewrite map_app, filter_app. simpl.
  apply mem_str_false in Hn. now rewrite Hn.
Qed.

Lemma stacked_app_numeric (rest : list Series) :
  np.numeric s = true ->
  exists f : Series -> Series,
    np.stacked (rest ++ [s]) = np.stacked rest ++ [f s].
Proof.
  intros Hs. unfold np.stacked. rewrite forallb_app. simpl. rewrite Hs.
  rewrite !andb_true_r.
  destruct (forallb np.numeric rest).
  - exists (map np.astype_float64). now rewrite map_app.
  - now exists (fun x => x).
Qed.

(** Applying the encoder fitted on the longer frame to the longer
    frame, the new column being numeric: the matrix of the shorter
    one, and the new column last, converted as the others are. *)
Lemma ColumnTransformer_transform_app (hu : handle_unknown)
      (cols : list string) (enc : ColumnTransformer_state) (X : DataFrame) :
  ~ In r cols -> ~ In r (remainder_ enc) -> pd.has_column r X = false ->
  np.numeric s = true ->
  exists f : Series -> Series,
    ColumnTransformer_transform hu cols
      {| feature_names_in_ := feature_names_in_ enc ++ [r];
         categories_ := categories_ enc;
         remainder_ := remainder_ enc ++ [r] |}
      (X ++ [(r, s)])
    = m <- ColumnTransformer_transform hu cols enc X ;; Ok (m ++ [f s]).
Proof.
  intros Hc Hr Hx Hs. unfold ColumnTransformer_transform. simpl.
  rewrite app_assoc, first_absent_app_labels.
  rewrite first_absent_app_frame
    by (intros H; apply in_app_or in H; tauto).
  destruct (pd.first_absent (cols ++ remainder_ enc) X); cbn [bind];
    [now exists (fun x => x) |].
  simpl. rewrite has_column_app, Hx. simpl.
  assert (pd.has_column r [(r, s)] = true) as ->
      by (unfold pd.has_column, pd.columns, mem_str; simpl;
          now rewrite String.eqb_refl).
  rewrite (encode_all_app hu cols (categories_ enc) X Hc).
  destruct (encode_all hu cols (categories_ enc) X) as [blocks |];
    cbn [bind]; [| now exists (fun x => x)].
  rewrite passthrough_app_names, (passthrough_app_frame _ X Hr).
  destruct (passthrough (remainder_ enc) X) as [rest |]; cbn [bind];
    [| now exists (fun x => x)].
  simpl. rewrite (getitem_app_new X Hx). cbn [bind].
  destruct (stacked_app_numeric rest Hs) as [f Hf].
  exists f. unfold np.hstack. now rewrite Hf, app_assoc.
Qed.

End Appended.

(** ** The validation cell: the pipeline with and without the ratio *)

Section Baseline.

Import sklearn notebook.

Variable sentinel : Q.
Variable diet_table sleep_table : list (string * string).
Variable other : string.

Let P : Pipeline := preprocessor sentinel diet_table sleep_table other.
Let B : Pipeline := pipe_baseline sentinel diet_table sleep_table other.

Ltac red_store := cbv beta iota zeta delta [impute_ encode_].

Lemma pipe_baseline_steps :
  B = [ ("pressure", FunctionTransformer preprocess.assign_pressure);
        ("satisfaction", FunctionTransformer preprocess.assign_satisfaction);
        ("impute", GroupImputer impute_cols);
        ("diet_clean",
          FunctionTransformer
            (preprocess.replace_diet_habits diet_table other));
        ("sleep_clean",
          FunctionTransformer
            (preprocess.replace_sleep_duration sleep_table other));
        ("drop_cols", FunctionTransformer (fun X => pd.drop X drop_cols));
        ("encode", categorical_transformer) ].
Proof. reflexivity. Qed.

Ltac open_steps :=
  unfold categorical_transformer;
  unfold Pipeline_fit_transform, Pipeline_transform,
    estimator_fit_transform, estimator_fit, estimator_transform,
    mbind, lift, ret, get, put, raise, as_frame;
  red_store.

(** [fit_transform] in terms of its stages, for both pipelines. *)
Lemma Pipeline_fit_transform_stages (ratio : bool) (X : DataFrame)
      (st0 : store) :
  match fit_transform_stages sentinel diet_table sleep_table other ratio X
  with
  | Ok sm =>
      Pipeline_fit_transform (if ratio then P else B) (Frame X) st0
      = (Ok (Matrix (snd sm)), fst sm)
  | Raise e =>
      fst (Pipeline_fit_transform (if ratio then P else B) (Frame X) st0)
      = Raise e
  end.
Proof.
  unfold fit_transform_stages.
  destruct ratio; [unfold P, preprocessor | rewrite pipe_baseline_steps];
    open_steps.
  - destruct (preprocess.assign_pressure X) as [X1 |]; cbn [bind];
      red_store; [| reflexivity].
    destruct (preprocess.assign_satisfaction X1) as [X2 |]; cbn [bind];
      red_store; [| reflexivity].
    destruct (preprocess.GroupImputer_fit impute_cols X2) as [stat |];
      cbn [bind]; red_store; [| reflexivity].
    destruct (preprocess.GroupImputer_transform impute_cols (Some stat) X2)
      as [X3 |]; cbn [bind]; red_store; [| reflexivity].
    destruct (preprocess.add_pressure_ratio sentinel X3) as [X4 |];
      cbn [bind]; red_store; [| reflexivity].
    destruct (preprocess.replace_diet_habits diet_table other X4)
      as [X5 |]; cbn [bind]; red_store; [| reflexivity].
    destruct (preprocess.replace_sleep_duration sleep_table other X5)
      as [X6 |]; cbn [bind]; red_store; [| reflexivity].
    destruct (pd.drop X6 drop_cols) as [X7 |]; cbn [bind]; red_store;
      [| reflexivity].
    destruct (ColumnTransformer_fit categorical_cols X7) as [enc |];
      cbn [bind]; red_store; [| reflexivity].
    destruct (ColumnTransformer_transform hu_ignore categorical_cols enc X7);
      reflexivity.
  - destruct (preprocess.assign_pressure X) as [X1 |]; cbn [bind];
      red_store; [| reflexivity].
    destruct (preprocess.assign_satisfaction X1) as [X2 |]; cbn [bind];
      red_store; [| reflexivity].
    destruct (preprocess.GroupImputer_fit impute_cols X2) as [stat |];
      cbn [bind]; red_store; [| reflexivity].
    destruct (preprocess.GroupImputer_transform impute_cols (Some stat) X2)
      as [X3 |]; cbn [bind]; red_store; [| reflexivity].
    destruct (preprocess.replace_diet_habits diet_table other X3)
      as [X5 |]; cbn [bind]; red_store; [| reflexivity].
    destruct (preprocess.replace_sleep_duration sleep_table other X5)
      as [X6 |]; cbn [bind]; red_store; [| reflexivity].
    destruct (pd.drop X6 drop_cols) as [X7 |]; cbn [bind]; red_store;
      [| reflexivity].
    destruct (ColumnTransformer_fit categorical_cols X7) as [enc |];
      cbn [bind]; red_store; [| reflexivity].
    destruct (ColumnTransformer_transform hu_ignore categorical_cols enc X7);
      reflexivity.
Qed.

Lemma Pipeline_transform_baseline (X : DataFrame) (st : store) :
  Pipeline_transform B (Frame X) st
  = (match baseline_transform_stages diet_table sleep_table other st X with
     | Ok m => Ok (Matrix m)
     | Raise e => Raise e
     end, st).
Proof.
  rewrite pipe_baseline_steps. unfold baseline_transform_stages.
  unfold categorical_transformer.
  unfold Pipeline_transform, estimator_transform, mbind, lift, ret, get,
    raise, as_frame.
  cbv beta iota zeta.
  destruct (preprocess.assign_pressure X) as [X1 |]; cbn [bind];
    cbv beta iota zeta; [| reflexivity].
  destruct (preprocess.assign_satisfaction X1) as [X2 |]; cbn [bind];
    cbv beta iota zeta; [| reflexivity].
  destruct (preprocess.GroupImputer_transform impute_cols (impute_ st) X2)
    as [X3 |]; cbn [bind]; cbv beta iota zeta; [| reflexivity].
  destruct (preprocess.replace_diet_habits diet_table other X3) as [X5 |];
    cbn [bind]; cbv beta iota zeta; [| reflexivity].
  destruct (preprocess.replace_sleep_duration sleep_table other X5)
    as [X6 |]; cbn [bind]; cbv beta iota zeta; [| reflexivity].
  destruct (pd.drop X6 drop_cols) as [X7 |]; cbn [bind];
    cbv beta iota zeta; [| reflexivity].
  destruct (encode_ st) as [enc |]; [| reflexivity].
  destruct (ColumnTransformer_transform hu_ignore categorical_cols enc X7);
    reflexivity.
Qed.

Lemma assign_unified_ok (target a w : string) (X X' : DataFrame) :
  preprocess.assign_unified target a w X = Ok X' ->
  exists t, X' = pd.setitem X target t.
Proof.
  unfold preprocess.assign_unified.
  destruct (pd.getitem X status_col) as [k |]; [| discriminate].
  cbn [bind].
  destruct (pd.getitem X a) as [sa |]; [| discriminate]. cbn [bind].
  destruct (pd.getitem X w) as [sw |]; [| discriminate]. cbn [bind].
  intros H. injection H as <-. eauto.
Qed.

(** After the base features and the imputation the frame has the two
    unified columns, and otherwise the columns it had. *)
Lemma columns_after_imputation
      (fitted : option preprocess.GroupStatistic) (X X1 X2 X3 : DataFrame) :
  preprocess.assign_pressure X = Ok X1 ->
  preprocess.assign_satisfaction X1 = Ok X2 ->
  preprocess.GroupImputer_transform impute_cols fitted X2 = Ok X3 ->
  pd.has_column "Pressure" X3 = true /\
  pd.has_column "Satisfaction" X3 = true /\
  forall c, c <> "Pressure" -> c <> "Satisfaction" ->
            pd.has_column c X3 = pd.has_column c X.
Proof.
  intros E1 E2 E3.
  destruct (assign_unified_ok _ _ _ _ _ E1) as [t1 ->].
  destruct (assign_unified_ok _ _ _ _ _ E2) as [t2 ->].
  pose proof (columns_GroupImputer_transform _ _ _ _ E3) as C3.
  split; [| split].
  - rewrite (has_column_columns "Pressure" _ _ C3).
    rewrite has_column_setitem_other by discriminate.
    apply has_column_getitem. exists t1. apply getitem_setitem_same.
  - rewrite (has_column_columns "Satisfaction" _ _ C3).
    apply has_column_getitem. exists t2. apply getitem_setitem_same.
  - intros c Hp Hs. rewrite (has_column_columns c _ _ C3).
    now rewrite !has_column_setitem_other.
Qed.

End Baseline.

Section WithAndWithoutRatio.

Import sklearn notebook.

Variable sentinel : Q.
Variable diet_table sleep_table : list (string * string).
Variable other : string.

Lemma ratio_not_dropped : ~ In ratio_name drop_cols.
Proof.
  unfold drop_cols, ratio_name. simpl.
  intros H. repeat (destruct H as [H | H]; [discriminate H |]). exact H.
Qed.

Lemma ratio_not_categorical : ~ In ratio_name categorical_cols.
Proof.
  unfold categorical_cols, ratio_name. simpl.
  intros H. repeat (destruct H as [H | H]; [discriminate H |]). exact H.
Qed.

Lemma not_has_column_not_in (c : string) (X : DataFrame) :
  pd.has_column c X = false -> ~ In c (pd.columns X).
Proof. unfold pd.has_column. apply mem_str_false. Qed.

(** The two pipelines of the validation cell, fitted and applied to one
    frame without a ratio column: they fail alike, or the full pipeline
    returns the matrix of the baseline with one more last column, and
    leaves the same medians and vocabularies, the encoder having one
    more remainder column. *)
Lemma stages_with_and_without_ratio (X : DataFrame) :
  pd.has_column ratio_name X = false ->
  result_rel
    (fun b f =>
       impute_ (fst f) = impute_ (fst b) /\
       (exists encb,
           encode_ (fst b) = Some encb /\
           ~ In ratio_name (remainder_ encb) /\
           encode_ (fst f)
           = Some {| feature_names_in_ := feature_names_in_ encb ++ [ratio_name];
                     categories_ := categories_ encb;
                     remainder_ := remainder_ encb ++ [ratio_name] |}) /\
       exists r, snd f = snd b ++ [r])
    (fit_transform_stages sentinel diet_table sleep_table other false X)
    (fit_transform_stages sentinel diet_table sleep_table other true X).
Proof.
  intros HX. unfold result_rel, fit_transform_stages.
  destruct (preprocess.assign_pressure X) as [X1 |] eqn:E1; cbn [bind];
    [| reflexivity].
  destruct (preprocess.assign_satisfaction X1) as [X2 |] eqn:E2; cbn [bind];
    [| reflexivity].
  destruct (preprocess.GroupImputer_fit impute_cols X2) as [stat |] eqn:E3;
    cbn [bind]; [| reflexivity].
  destruct (preprocess.GroupImputer_transform impute_cols (Some stat) X2)
    as [X3 |] eqn:E4; cbn [bind]; [| reflexivity].
  destruct (columns_after_imputation _ _ _ _ _ E1 E2 E4)
    as (Hp & Hs & Hoth).
  assert (H3 : pd.has_column ratio_name X3 = false)
    by (rewrite Hoth; [exact HX | discriminate | discriminate]).
  apply has_column_getitem in Hp as [p Hp].
  apply has_column_getitem in Hs as [s Hs].
  unfold preprocess.add_pressure_ratio. rewrite Hp, Hs. cbn [bind].
  fold ratio_name. rewrite (setitem_absent X3 ratio_name _ H3).
  set (rs := preprocess.ratio_series sentinel p s).
  unfold preprocess.replace_diet_habits, preprocess.replace_sleep_duration.
  rewrite normalize_column_app by discriminate.
  destruct (preprocess.normalize_column other diet_table "Dietary Habits" X3)
    as [Y5 |] eqn:E5; cbn [bind]; [| reflexivity].
  rewrite normalize_column_app by discriminate.
  destruct (preprocess.normalize_column other sleep_table "Sleep Duration" Y5)
    as [Y6 |] eqn:E6; cbn [bind]; [| reflexivity].
  rewrite (drop_app ratio_name rs drop_cols Y6 ratio_not_dropped).
  destruct (pd.drop Y6 drop_cols) as [Y7 |] eqn:E7; cbn [bind];
    [| reflexivity].
  rewrite (ColumnTransformer_fit_app ratio_name rs categorical_cols Y7
             ratio_not_categorical).
  destruct (ColumnTransformer_fit categorical_cols Y7) as [encb |] eqn:E8;
    cbn [bind]; [| reflexivity].
  assert (H7 : ~ In ratio_name (pd.columns Y7)).
  { rewrite (columns_drop _ _ _ E7).
    rewrite (columns_normalize_column _ _ _ _ _ E6).
    rewrite (columns_normalize_column _ _ _ _ _ E5).
    intros H. apply filter_In in H as [H _].
    exact (not_has_column_not_in _ _ H3 H). }
  assert (Hrem : ~ In ratio_name (remainder_ encb)).
  { destruct (fit_columns_present _ _ _ E8) as [-> _].
    intros H. apply filter_In in H as [H _]. exact (H7 H). }
  destruct (ColumnTransformer_transform_app ratio_name rs hu_ignore
              categorical_cols encb Y7 ratio_not_categorical Hrem
              (proj2 (mem_str_false _ _) H7)
              (ratio_series_numeric sentinel p s)) as [f Hf].
  rewrite Hf.
  destruct (ColumnTransformer_transform hu_ignore categorical_cols encb Y7)
    as [mb |]; cbn [bind]; [| reflexivity].
  simpl. split; [reflexivity |]. split.
  - exists encb. auto.
  - now exists (f rs).
Qed.

End WithAndWithoutRatio.

(** ** Frames that agree on the columns that are read *)

Section Agreement.

Import sklearn notebook.

Variable S : string -> Prop.

Lemma result_rel_bind {A B} (R : A -> A -> Prop) (R2 : B -> B -> Prop)
      (r r' : result A) (k k' : A -> result B) :
  result_rel R r r' ->
  (forall a a', R a a' -> result_rel R2 (k a) (k' a')) ->
  result_rel R2 (bind r k) (bind r' k').
Proof.
  destruct r as [a | e], r' as [a' | e']; simpl; intros H Hk;
    try contradiction; auto.
Qed.

Lemma result_rel_eq {A} (r r' : result A) :
  result_rel eq r r' -> r = r'.
Proof.
  destruct r, r'; simpl; intros H; try contradiction; now subst.
Qed.

Lemma agree_setitem (X X' : DataFrame) (c : string) (s : Series) :
  agree S X X' -> agree S (pd.setitem X c s) (pd.setitem X' c s).
Proof.
  intros H c0 Hc0. destruct (String.eqb c0 c) eqn:E.
  - apply String.eqb_eq in E. subst c0.
    now rewrite !getitem_setitem_same.
  - apply String.eqb_neq in E.
    rewrite !getitem_setitem_other by exact E. now apply H.
Qed.

Lemma agree_setitem_left (X : DataFrame) (c : string) (s : Series) :
  ~ S c -> agree S (pd.setitem X c s) X.
Proof.
  intros Hn c0 Hc0. apply getitem_setitem_other. intros ->. contradiction.
Qed.

Lemma agree_trans (X Y Z : DataFrame) :
  agree S X Y -> agree S Y Z -> agree S X Z.
Proof. intros H1 H2 c Hc. rewrite (H1 c Hc). now apply H2. Qed.

Lemma agree_has_column (X X' : DataFrame) (c : string) :
  agree S X X' -> S c -> pd.has_column c X = pd.has_column c X'.
Proof. intros H Hc. rewrite !has_column_is_ok. now rewrite (H c Hc). Qed.

Lemma agree_first_absent (labels : list string) (X X' : DataFrame) :
  agree S X X' -> (forall l, In l labels -> S l) ->
  pd.first_absent labels X = pd.first_absent labels X'.
Proof.
  intros H. induction labels as [| l ls IH]; intros Hall; [reflexivity |].
  simpl. rewrite (agree_has_column X X' l H (Hall l (or_introl eq_refl))).
  rewrite IH; [reflexivity |]. intros l' Hl'. apply Hall. now right.
Qed.

Lemma getitem_filter_out (keep : string -> bool) (X : DataFrame)
      (c : string) :
  keep c = false ->
  pd.getitem (filter (fun p => keep (fst p)) X) c = Raise (KeyError c).
Proof.
  intros Hk. apply getitem_raises. unfold pd.has_column.
  rewrite columns_filter. apply mem_str_false.
  intros H. apply filter_In in H as [_ H]. congruence.
Qed.

Lemma agree_drop (labels : list string) (X X' : DataFrame) :
  agree S X X' -> (forall l, In l labels -> S l) ->
  result_rel (agree S) (pd.drop X labels) (pd.drop X' labels).
Proof.
  intros H Hall. unfold pd.drop.
  rewrite (agree_first_absent labels X X' H Hall).
  destruct (pd.first_absent labels X'); simpl; [reflexivity |].
  intros c Hc. destruct (mem_str c labels) eqn:E.
  - rewrite !(getitem_filter_out (fun n => negb (mem_str n labels)))
      by now rewrite E.
    reflexivity.
  - rewrite !(getitem_filter (fun n => negb (mem_str n labels)))
      by now rewrite E.
    now apply H.
Qed.

Lemma agree_normalize_column (other : string)
      (table : list (string * string)) (col : string) (X X' : DataFrame) :
  agree S X X' -> S col ->
  result_rel (agree S)
    (preprocess.normalize_column other table col X)
    (preprocess.normalize_column other table col X').
Proof.
  intros H Hc. unfold preprocess.normalize_column. rewrite (H col Hc).
  destruct (pd.getitem X' col); simpl; [| reflexivity].
  now apply agree_setitem.
Qed.

Lemma agree_assign_unified (target a w : string) (X X' : DataFrame) :
  agree S X X' -> S status_col -> S a -> S w ->
  result_rel (agree S)
    (preprocess.assign_unified target a w X)
    (preprocess.assign_unified target a w X').
Proof.
  intros H Hs Ha Hw. unfold preprocess.assign_unified.
  rewrite (H _ Hs), (H _ Ha), (H _ Hw).
  destruct (pd.getitem X' status_col); simpl; [| reflexivity].
  destruct (pd.getitem X' a); simpl; [| reflexivity].
  destruct (pd.getitem X' w); simpl; [| reflexivity].
  now apply agree_setitem.
Qed.

Lemma agree_add_pressure_ratio (sentinel : Q) (X X' : DataFrame) :
  agree S X X' -> S "Pressure" -> S "Satisfaction" ->
  result_rel (agree S)
    (preprocess.add_pressure_ratio sentinel X)
    (preprocess.add_pressure_ratio sentinel X').
Proof.
  intros H Hp Hs. unfold preprocess.add_pressure_ratio.
  rewrite (H _ Hp), (H _ Hs).
  destruct (pd.getitem X' "Pressure"); simpl; [| reflexivity].
  destruct (pd.getitem X' "Satisfaction"); simpl; [| reflexivity].
  now apply agree_setitem.
Qed.

Lemma agree_impute_columns (st : preprocess.GroupStatistic) (keys : Series)
      (cols : list string) (X X' : DataFrame) :
  agree S X X' -> (forall c, In c cols -> S c) ->
  result_rel (agree S)
    (preprocess.impute_columns st keys cols X)
    (preprocess.impute_columns st keys cols X').
Proof.
  revert X X'. induction cols as [| c cs IH]; intros X X' H Hall.
  - exact H.
  - simpl. rewrite (H c (Hall c (or_introl eq_refl))).
    destruct (pd.getitem X' c) as [s |]; simpl; [| reflexivity].
    apply IH; [now apply agree_setitem |].
    intros c' Hc'. apply Hall. now right.
Qed.

Lemma agree_GroupImputer_transform (cols : list string)
      (fitted : option preprocess.GroupStatistic) (X X' : DataFrame) :
  agree S X X' -> S status_col -> (forall c, In c cols -> S c) ->
  result_rel (agree S)
    (preprocess.GroupImputer_transform cols fitted X)
    (preprocess.GroupImputer_transform cols fitted X').
Proof.
  intros H Hs Hall. unfold preprocess.GroupImputer_transform.
  destruct fitted as [st |]; [| reflexivity].
  rewrite (H _ Hs).
  destruct (pd.getitem X' status_col) as [keys |]; simpl; [| reflexivity].
  now apply agree_impute_columns.
Qed.

Lemma agree_encode_all (hu : handle_unknown) (cols : list string)
      (cats : list (list cell)) (X X' : DataFrame) :
  agree S X X' -> (forall c, In c cols -> S c) ->
  encode_all hu cols cats X = encode_all hu cols cats X'.
Proof.
  intros H. revert cats. induction cols as [| c cs IH]; intros cats Hall;
    [reflexivity |].
  destruct cats as [| k ks]; [reflexivity |].
  simpl. rewrite (H c (Hall c (or_introl eq_refl))).
  rewrite (IH ks); [reflexivity |]. intros c' Hc'. apply Hall. now right.
Qed.

Lemma agree_passthrough (cols : list string) (X X' : DataFrame) :
  agree S X X' -> (forall c, In c cols -> S c) ->
  passthrough cols X = passthrough cols X'.
Proof.
  intros H. induction cols as [| c cs IH]; intros Hall; [reflexivity |].
  simpl. rewrite (H c (Hall c (or_introl eq_refl))).
  rewrite IH; [reflexivity |]. intros c' Hc'. apply Hall. now right.
Qed.

Lemma agree_ColumnTransformer_transform (hu : handle_unknown)
      (cols : list string) (enc : ColumnTransformer_state)
      (X X' : DataFrame) :
  agree S X X' -> (forall c, In c (cols ++ remainder_ enc) -> S c) ->
  ColumnTransformer_transform hu cols enc X
  = ColumnTransformer_transform hu cols enc X'.
Proof.
  intros H Hall. unfold ColumnTransformer_transform.
  rewrite (agree_first_absent _ X X' H Hall).
  rewrite (agree_encode_all hu cols (categories_ enc) X X' H)
    by (intros c Hc; apply Hall; apply in_or_app; now left).
  rewrite (agree_passthrough (remainder_ enc) X X' H)
    by (intros c Hc; apply Hall; apply in_or_app; now right).
  reflexivity.
Qed.

(** The steps from the text normalisers to the encoder give the same
    result on two frames that agree on what these steps read. *)
Lemma agree_tail (diet_table sleep_table : list (string * string))
      (other : string) (encoder : option ColumnTransformer_state)
      (X X' : DataFrame) :
  agree S X X' ->
  S "Dietary Habits" -> S "Sleep Duration" ->
  (forall l, In l drop_cols -> S l) ->
  (forall enc c, encoder = Some enc ->
                 In c (categorical_cols ++ remainder_ enc) -> S c) ->
  (X5 <- preprocess.replace_diet_habits diet_table other X ;;
   X6 <- preprocess.replace_sleep_duration sleep_table other X5 ;;
   X7 <- pd.drop X6 drop_cols ;;
   match encoder with
   | None => Raise NotFittedError
   | Some enc => ColumnTransformer_transform hu_ignore categorical_cols enc X7
   end)
  = (X5 <- preprocess.replace_diet_habits diet_table other X' ;;
     X6 <- preprocess.replace_sleep_duration sleep_table other X5 ;;
     X7 <- pd.drop X6 drop_cols ;;
     match encoder with
     | None => Raise NotFittedError
     | Some enc =>
         ColumnTransformer_transform hu_ignore categorical_cols enc X7
     end).
Proof.
  intros H Hd Hs Hdrop Henc. apply result_rel_eq.
  apply (result_rel_bind (agree S));
    [now apply agree_normalize_column |].
  intros Y5 Y5' H5.
  apply (result_rel_bind (agree S));
    [now apply agree_normalize_column |].
  intros Y6 Y6' H6.
  apply (result_rel_bind (agree S)); [now apply agree_drop |].
  intros Y7 Y7' H7.
  destruct encoder as [enc |]; [| reflexivity].
  rewrite (agree_ColumnTransformer_transform hu_ignore categorical_cols enc
             Y7 Y7' H7 (fun c Hc => Henc enc c eq_refl Hc)).
  destruct (ColumnTransformer_transform hu_ignore categorical_cols enc Y7');
    reflexivity.
Qed.

End Agreement.

Section ValidationCell.

Import sklearn notebook.

Variable sentinel : Q.
Variable diet_table sleep_table : list (string * string).
Variable other : string.

Let P : Pipeline := preprocessor sentinel diet_table sleep_table other.
Let B : Pipeline := pipe_baseline sentinel diet_table sleep_table other.

Lemma fit_transform_stages_fit (X : DataFrame) (sm : store * list Series) :
  fit_transform_stages sentinel diet_table sleep_table other true X = Ok sm ->
  fit_stages sentinel diet_table sleep_table other X = Ok (fst sm).
Proof.
  unfold fit_transform_stages, fit_stages.
  destruct (preprocess.assign_pressure X) as [X1 |]; cbn [bind];
    [| discriminate].
  destruct (preprocess.assign_satisfaction X1) as [X2 |]; cbn [bind];
    [| discriminate].
  destruct (preprocess.GroupImputer_fit impute_cols X2) as [stat |];
    cbn [bind]; [| discriminate].
  destruct (preprocess.GroupImputer_transform impute_cols (Some stat) X2)
    as [X3 |]; cbn [bind]; [| discriminate].
  destruct (preprocess.add_pressure_ratio sentinel X3) as [X4 |];
    cbn [bind]; [| discriminate].
  destruct (preprocess.replace_diet_habits diet_table other X4) as [X5 |];
    cbn [bind]; [| discriminate].
  destruct (preprocess.replace_sleep_duration sleep_table other X5)
    as [X6 |]; cbn [bind]; [| discriminate].
  destruct (pd.drop X6 drop_cols) as [X7 |]; cbn [bind]; [| discriminate].
  destruct (ColumnTransformer_fit categorical_cols X7) as [enc |];
    cbn [bind]; [| discriminate].
  destruct (ColumnTransformer_transform hu_ignore categorical_cols enc X7);
    cbn [bind]; [| discriminate].
  intros H. now injection H as <-.
Qed.

Lemma fit_transform_ok (ratio : bool) (X : DataFrame) (st0 st : store)
      (d : data) :
  Pipeline_fit_transform (if ratio then P else B) (Frame X) st0 = (Ok d, st)
  ->
  exists m,
    fit_transform_stages sentinel diet_table sleep_table other ratio X
    = Ok (st, m) /\ d = Matrix m.
Proof.
  intros H.
  pose proof (Pipeline_fit_transform_stages sentinel diet_table sleep_table
                other ratio X st0) as Hs.
  fold P B in Hs.
  destruct (fit_transform_stages sentinel diet_table sleep_table other
              ratio X) as [[s m] |].
  - rewrite H in Hs. injection Hs as -> ->. now exists m.
  - rewrite H in Hs. discriminate Hs.
Qed.

(** The encoder the baseline leaves knows no ratio column. *)
Lemma baseline_encoder (X : DataFrame) (st0 sb : store) (d : data) :
  pd.has_column ratio_name X = false ->
  Pipeline_fit_transform B (Frame X) st0 = (Ok d, sb) ->
  exists encb,
    encode_ sb = Some encb /\ ~ In ratio_name (remainder_ encb).
Proof.
  intros HX H.
  destruct (fit_transform_ok false X st0 sb d H) as (mb & Hb & _).
  pose proof (stages_with_and_without_ratio sentinel diet_table sleep_table
                other X HX) as Hrel.
  rewrite Hb in Hrel. unfold result_rel in Hrel.
  destruct (fit_transform_stages sentinel diet_table sleep_table other
              true X) as [[sf mf] |]; [| contradiction].
  destruct Hrel as (_ & (encb & He & Hn & _) & _).
  exists encb. auto.
Qed.

End ValidationCell.

(** X4.  The validation cell compares like with like: on a training
    frame that has no ratio column, [pipe_baseline.fit_transform] and
    [pipe_with_ratio.fit_transform] raise the same exception or both
    succeed, and then the matrix with the ratio is the baseline matrix
    with exactly one more column, the last one.  When the cell is done,
    the shared imputer and encoder are fitted exactly as
    [preprocessor.fit] on that frame leaves them. *)
Theorem validation_cell_adds_one_column :
  forall (sentinel : Q) (diet_table sleep_table : list (string * string))
         (other : string) (X : DataFrame) (st0 : sklearn.store),
    pd.has_column notebook.ratio_name X = false ->
    (forall st0',
        notebook.result_rel
          (fun b f =>
             exists mb r,
               b = sklearn.Matrix mb /\ f = sklearn.Matrix (mb ++ [r]))
          (fst (sklearn.Pipeline_fit_transform
                  (notebook.pipe_baseline sentinel diet_table sleep_table
                     other) (sklearn.Frame X) st0))
          (fst (sklearn.Pipeline_fit_transform
                  (notebook.pipe_with_ratio sentinel diet_table sleep_table
                     other) (sklearn.Frame X) st0'))) /\
    (forall baseline with_ratio st,
        notebook.validation_cell sentinel diet_table sleep_table other X st0
        = (Ok (baseline, with_ratio), st) ->
        (exists mb r,
            baseline = sklearn.Matrix mb /\
            with_ratio = sklearn.Matrix (mb ++ [r])) /\
        forall st0',
          sklearn.Pipeline_fit
            (notebook.preprocessor sentinel diet_table sleep_table other)
            (sklearn.Frame X) st0' = (Ok tt, st)).
Proof.
  intros sentinel diet_table sleep_table other X st0 HX.
  pose proof (stages_with_and_without_ratio sentinel diet_table sleep_table
                other X HX) as Hrel.
  split.
  - intros st0'. unfold notebook.pipe_with_ratio.
    pose proof (Pipeline_fit_transform_stages sentinel diet_table sleep_table
                  other false X st0) as Hb.
    pose proof (Pipeline_fit_transform_stages sentinel diet_table sleep_table
                  other true X st0') as Hf.
    cbv iota in Hb, Hf. unfold notebook.result_rel in *.
    destruct (notebook.fit_transform_stages sentinel diet_table sleep_table
                other false X) as [[sb mb] |];
      destruct (notebook.fit_transform_stages sentinel diet_table
                  sleep_table other true X) as [[sf mf] |];
      try contradiction.
    + rewrite Hb, Hf. simpl. destruct Hrel as (_ & _ & r & Hr).
      simpl in Hr. subst mf. now exists mb, r.
    + rewrite Hb, Hf. exact Hrel.
  - intros baseline with_ratio st Hcell.
    unfold notebook.validation_cell, sklearn.mbind, sklearn.ret in Hcell.
    destruct (sklearn.Pipeline_fit_transform
                (notebook.pipe_baseline sentinel diet_table sleep_table other)
                (sklearn.Frame X) st0) as [[b | e] sb] eqn:Eb;
      [| discriminate].
    destruct (sklearn.Pipeline_fit_transform
                (notebook.pipe_with_ratio sentinel diet_table sleep_table
                   other) (sklearn.Frame X) sb) as [[f | e] sf] eqn:Ef;
      [| discriminate].
    injection Hcell as <- <- <-.
    destruct (fit_transform_ok sentinel diet_table sleep_table other
                false X st0 sb b Eb) as (mb & Hb & ->).
    destruct (fit_transform_ok sentinel diet_table sleep_table other
                true X sb sf f Ef) as (mf & Hf & ->).
    rewrite Hb, Hf in Hrel. simpl in Hrel.
    destruct Hrel as (_ & _ & r & ->). split; [now exists mb, r |].
    intros st0'.
    pose proof (fit_transform_stages_fit sentinel diet_table sleep_table
                  other X _ Hf) as Hfit.
    pose proof (Pipeline_fit_cases sentinel diet_table sleep_table other
                  X st0') as Hc.
    rewrite Hfit in Hc. exact Hc.
Qed.

Lemma validation_cell_adds_one_column_witness :
  exists baseline with_ratio st mb r,
    notebook.validation_cell 0%Q fixtures.diet_table fixtures.sleep_table
      "Other" fixtures.X_train sklearn.unfitted
    = (Ok (baseline, with_ratio), st) /\
    baseline = sklearn.Matrix mb /\
    with_ratio = sklearn.Matrix (mb ++ [r]).
Proof.
  do 3 eexists.
  edestruct (fun b w st H =>
               proj1 (proj2 (validation_cell_adds_one_column
                               0%Q fixtures.diet_table fixtures.sleep_table
                               "Other" fixtures.X_train sklearn.unfitted
                               (eq_refl : pd.has_column notebook.ratio_name
                                            fixtures.X_train = false))
                        b w st H))
    as (mb & r & Hb & Hw);
    [ vm_compute; reflexivity | ].
  exists mb, r. split; [vm_compute; reflexivity |].
  split; [exact Hb | exact Hw].
Defined.

(** X5.  The two pipelines share their step objects.  Once
    [pipe_baseline] has been fitted (on a frame without a ratio column),
    [preprocessor.transform] computes what [pipe_baseline.transform]
    computes, on every frame: the ratio column it derives is not in the
    encoder's remainder any more and is left out of the matrix, until
    [preprocessor] is fitted again. *)
Theorem baseline_fit_changes_preprocessor :
  forall (sentinel : Q) (diet_table sleep_table : list (string * string))
         (other : string) (X : DataFrame) (st0 sb : sklearn.store)
         (d : sklearn.data),
    pd.has_column notebook.ratio_name X = false ->
    sklearn.Pipeline_fit_transform
      (notebook.pipe_baseline sentinel diet_table sleep_table other)
      (sklearn.Frame X) st0 = (Ok d, sb) ->
    forall X',
      sklearn.Pipeline_transform
        (notebook.preprocessor sentinel diet_table sleep_table other)
        (sklearn.Frame X') sb
      = sklearn.Pipeline_transform
          (notebook.pipe_baseline sentinel diet_table sleep_table other)
          (sklearn.Frame X') sb.
Proof.
  intros sentinel diet_table sleep_table other X st0 sb d HX Hfit X'.
  destruct (baseline_encoder sentinel diet_table sleep_table other
              X st0 sb d HX Hfit) as (encb & Henc & Hrem).
  rewrite Pipeline_transform_preprocessor, Pipeline_transform_baseline.
  f_equal.
  assert (Heq : notebook.transform_stages sentinel diet_table sleep_table
                  other sb X'
                = notebook.baseline_transform_stages diet_table sleep_table
                    other sb X'); [| now rewrite Heq].
  unfold notebook.transform_stages, notebook.baseline_transform_stages.
  destruct (preprocess.assign_pressure X') as [X1 |] eqn:E1; cbn [bind];
    [| reflexivity].
  destruct (preprocess.assign_satisfaction X1) as [X2 |] eqn:E2; cbn [bind];
    [| reflexivity].
  destruct (preprocess.GroupImputer_transform notebook.impute_cols
              (sklearn.impute_ sb) X2) as [X3 |] eqn:E3; cbn [bind];
    [| reflexivity].
  destruct (columns_after_imputation _ _ _ _ _ E1 E2 E3) as (Hp & Hs & _).
  apply has_column_getitem in Hp as [p Hp].
  apply has_column_getitem in Hs as [s Hs].
  unfold preprocess.add_pressure_ratio. rewrite Hp, Hs. cbn [bind].
  apply (agree_tail (fun c => c <> notebook.ratio_name)).
  - apply agree_setitem_left. intros H. now apply H.
  - discriminate.
  - discriminate.
  - intros l Hl ->. exact (ratio_not_dropped Hl).
  - intros enc c He Hc ->. rewrite Henc in He. injection He as <-.
    apply in_app_or in Hc as [Hc | Hc];
      [exact (ratio_not_categorical Hc) | exact (Hrem Hc)].
Qed.

Lemma baseline_fit_changes_preprocessor_witness :
  exists d sb,
    sklearn.Pipeline_fit_transform
      (notebook.pipe_baseline 0%Q fixtures.diet_table fixtures.sleep_table
         "Other")
      (sklearn.Frame fixtures.X_train) sklearn.unfitted = (Ok d, sb) /\
    sklearn.Pipeline_transform fixtures.pipeline
      (sklearn.Frame fixtures.X_val) sb
    = sklearn.Pipeline_transform
        (notebook.pipe_baseline 0%Q fixtures.diet_table fixtures.sleep_table
           "Other")
        (sklearn.Frame fixtures.X_val) sb.
Proof.
  do 2 eexists. split; [vm_compute; reflexivity |].
  eapply (baseline_fit_changes_preprocessor
            0%Q fixtures.diet_table fixtures.sleep_table "Other"
            fixtures.X_train sklearn.unfitted);
    [reflexivity | vm_compute; reflexivity].
Defined.

(** ** Columns are found by name *)

Section ByName.

Import sklearn notebook.

Variable sentinel : Q.
Variable diet_table sleep_table : list (string * string).
Variable other : string.

Lemma result_rel_of_eq {A} (r r' : result A) :
  r = r' -> result_rel eq r r'.
Proof. intros <-. destruct r; reflexivity. Qed.

Lemma transform_stages_agree (st : store) (enc : ColumnTransformer_state)
      (X X' : DataFrame) :
  encode_ st = Some enc ->
  agree (fun c => In c (reads enc)) X X' ->
  transform_stages sentinel diet_table sleep_table other st X
  = transform_stages sentinel diet_table sleep_table other st X'.
Proof.
  intros Henc H. set (S := fun c => In c (reads enc)) in *.
  assert (Hsrc : forall c, In c source_cols -> S c)
    by (intros c Hc; unfold S, reads; apply in_or_app; now left).
  assert (Heng : forall c, In c engineered_cols -> S c)
    by (intros c Hc; unfold S, reads; apply in_or_app; right;
        apply in_or_app; now left).
  assert (Hdrop : forall c, In c drop_cols -> S c)
    by (intros c Hc; unfold S, reads; apply in_or_app; right;
        apply in_or_app; right; apply in_or_app; now left).
  assert (Hrest : forall c, In c (categorical_cols ++ remainder_ enc) -> S c)
    by (intros c Hc; unfold S, reads; apply in_or_app; right;
        apply in_or_app; right; apply in_or_app; now right).
  unfold transform_stages. apply result_rel_eq.
  apply (result_rel_bind (agree S)).
  { apply agree_assign_unified; [exact H | | |]; apply Hsrc; simpl; tauto. }
  intros X1 X1' H1.
  apply (result_rel_bind (agree S)).
  { apply agree_assign_unified; [exact H1 | | |]; apply Hsrc; simpl; tauto. }
  intros X2 X2' H2.
  apply (result_rel_bind (agree S)).
  { apply agree_GroupImputer_transform; [exact H2 | |].
    - apply Hsrc; simpl; tauto.
    - intros c [<- | [<- | [<- | []]]];
        [apply Heng | apply Heng | apply Hsrc]; simpl; tauto. }
  intros X3 X3' H3.
  apply (result_rel_bind (agree S)).
  { apply agree_add_pressure_ratio; [exact H3 | |]; apply Heng; simpl; tauto. }
  intros X4 X4' H4.
  apply result_rel_of_eq.
  apply (agree_tail S diet_table sleep_table other (encode_ st) X4 X4' H4).
  - apply Hsrc; simpl; tauto.
  - apply Hsrc; simpl; tauto.
  - exact Hdrop.
  - intros enc' c He Hc. rewrite Henc in He. injection He as <-.
    now apply Hrest.
Qed.

End ByName.

(** X6.  [preprocessor.transform] finds its columns by name.  Two
    frames that hold the same series under every name it looks up (the
    source columns of the helper steps, the engineered columns, the
    columns of [drop_cols] and [categorical_cols], the remainder columns
    of the fitted encoder) give the same result: a frame may list its
    columns in another order than the training frame, or carry columns
    the training frame did not have, such as a label. *)
Theorem transform_finds_columns_by_name :
  forall (sentinel : Q) (diet_table sleep_table : list (string * string))
         (other : string) (st : sklearn.store)
         (enc : sklearn.ColumnTransformer_state) (X X' : DataFrame),
    sklearn.encode_ st = Some enc ->
    (forall c, In c (notebook.reads enc) ->
               pd.getitem X c = pd.getitem X' c) ->
    sklearn.Pipeline_transform
      (notebook.preprocessor sentinel diet_table sleep_table other)
      (sklearn.Frame X) st
    = sklearn.Pipeline_transform
        (notebook.preprocessor sentinel diet_table sleep_table other)
        (sklearn.Frame X') st.
Proof.
  intros sentinel diet_table sleep_table other st enc X X' Henc H.
  rewrite !Pipeline_transform_preprocessor.
  now rewrite (transform_stages_agree sentinel diet_table sleep_table other
                 st enc X X' Henc H).
Qed.

Lemma transform_finds_columns_by_name_witness :
  exists st,
    sklearn.Pipeline_fit fixtures.pipeline (sklearn.Frame fixtures.X_train)
      sklearn.unfitted = (Ok tt, st) /\
    sklearn.Pipeline_transform fixtures.pipeline
      (sklearn.Frame fixtures.X_train) st
    = sklearn.Pipeline_transform fixtures.pipeline
        (sklearn.Frame (rev fixtures.train_csv)) st.
Proof.
  eexists. split; [vm_compute; reflexivity |].
  eapply (transform_finds_columns_by_name
            0%Q fixtures.diet_table fixtures.sleep_table "Other").
  - vm_compute. reflexivity.
  - intros c Hc. vm_compute in Hc.
    repeat (destruct Hc as [<- | Hc]; [vm_compute; reflexivity |]).
    destruct Hc.
Defined.

(** ** What never becomes a feature *)

Section Excluded.

Import sklearn notebook.

Variable repr_num : Q -> string.

Lemma excluded_not_indicator (cats : list (list cell)) (c : string) :
  In c (drop_cols ++ categorical_cols) ->
  ~ In c (OneHotEncoder_feature_names repr_num categorical_cols cats).
Proof.
  intros Hc Hin.
  apply (feature_name_prefix repr_num) in Hin as [cc [r [Hcc Heq]]].
  unfold drop_cols, categorical_cols in Hc, Hcc. simpl in Hc, Hcc.
  repeat (destruct Hc as [<- | Hc];
          [repeat (destruct Hcc as [<- | Hcc];
                   [simpl in Heq; discriminate Heq |]);
           exact Hcc |]).
  exact Hc.
Qed.

Lemma excluded_not_in_all_features (enc : ColumnTransformer_state)
      (columns : list string) (c : string) :
  In c (drop_cols ++ categorical_cols) ->
  ~ In c (all_features repr_num enc columns).
Proof.
  intros Hc Hin. unfold all_features, cat_features in Hin.
  apply in_app_or in Hin as [Hin | Hin];
    [exact (excluded_not_indicator _ c Hc Hin) |].
  apply in_app_or in Hin as [Hin | Hin].
  - apply filter_In in Hin as [_ Hk].
    apply in_app_or in Hc as [Hc | Hc]; apply mem_str_true in Hc;
      rewrite Hc in Hk; simpl in Hk;
      [discriminate Hk | now rewrite andb_false_r in Hk].
  - unfold drop_cols, categorical_cols in Hc. simpl in Hc, Hin.
    destruct Hin as [<- | [<- | [<- | []]]];
      repeat (destruct Hc as [Hc | Hc]; [discriminate Hc |]);
      exact Hc.
Qed.

End Excluded.

(** X7.  The identifiers and superseded columns of [drop_cols], and the
    raw text columns of [categorical_cols], are never features: when
    the notebook returns its final frames, none of these names is in
    [all_features] nor among the columns of a final frame. *)
Theorem dropped_and_encoded_columns_never_features :
  forall (sentinel : Q) (diet_table sleep_table : list (string * string))
         (other : string) (repr_num : Q -> string)
         (train test : DataFrame) (train_idx val_idx : list nat)
         (out : notebook.outputs) (c : string),
    notebook.run sentinel diet_table sleep_table other repr_num
      train test train_idx val_idx = Ok out ->
    In c (notebook.drop_cols ++ notebook.categorical_cols) ->
    ~ In c (notebook.features out) /\
    ~ In c (pd.columns (notebook.final_train out)) /\
    ~ In c (pd.columns (notebook.final_val out)) /\
    ~ In c (pd.columns (notebook.final_test out)).
Proof.
  intros sentinel diet_table sleep_table other repr_num
         train test train_idx val_idx out c Hrun Hc.
  destruct (run_inv _ _ _ _ _ _ _ _ _ _ Hrun) as (y & st & Hy & Hcell).
  destruct (transform_cell_inv _ _ _ _ _ _ _ _ _ _ _ Hcell)
    as (enc & tr & te & a & b & d &
        _ & _ & _ & _ & _ & _ & _ & Hf & Fa & Fb & Fd).
  rewrite (DataFrame_of_columns _ _ _ Fa).
  rewrite (DataFrame_of_columns _ _ _ Fb).
  rewrite (DataFrame_of_columns _ _ _ Fd).
  assert (Hno : ~ In c (notebook.features out))
    by (rewrite Hf; now apply excluded_not_in_all_features).
  tauto.
Qed.

Lemma dropped_and_encoded_columns_never_features_witness :
  exists out,
    notebook.run 0%Q fixtures.diet_table fixtures.sleep_table "Other"
      fixtures.repr_num fixtures.train_csv fixtures.X_val [0; 2; 3] [1]
    = Ok out /\
    ~ In "Name" (notebook.features out) /\
    ~ In "Name" (pd.columns (notebook.final_train out)) /\
    ~ In "Name" (pd.columns (notebook.final_val out)) /\
    ~ In "Name" (pd.columns (notebook.final_test out)).
Proof.
  eexists. split; [vm_compute; reflexivity |].
  apply (dropped_and_encoded_columns_never_features
           0%Q fixtures.diet_table fixtures.sleep_table "Other"
           fixtures.repr_num fixtures.train_csv fixtures.X_val
           [0; 2; 3] [1]).
  - vm_compute. reflexivity.
  - simpl. tauto.
Defined.

(** ** One indicator per known value *)

Section OneHot.

Import sklearn notebook.

Lemma hits_app (v : cell) (a b : list cell) :
  hits v (a ++ b) = hits v a + hits v b.
Proof. unfold hits. now rewrite filter_app, length_app. Qed.

Lemma hits_filter_same (v x : cell) (l : list cell) :
  cell_eqb v x = true ->
  hits v (filter (fun y => negb (cell_eqb y x)) l) = 0.
Proof.
  intros Hvx. unfold hits. induction l as [| y t IH]; [reflexivity |].
  simpl. destruct (cell_eqb y x) eqn:Eyx; simpl; [exact IH |].
  destruct (cell_eqb v y) eqn:Evy; [| exact IH].
  rewrite cell_eqb_sym in Evy.
  rewrite (cell_eqb_trans y v x Evy Hvx) in Eyx. discriminate.
Qed.

Lemma hits_filter_other (v x : cell) (l : list cell) :
  cell_eqb v x = false ->
  hits v (filter (fun y => negb (cell_eqb y x)) l) = hits v l.
Proof.
  intros Hvx. unfold hits. induction l as [| y t IH]; [reflexivity |].
  simpl. destruct (cell_eqb y x) eqn:Eyx; simpl.
  - destruct (cell_eqb v y) eqn:Evy; [| exact IH].
    rewrite (cell_eqb_trans v y x Evy Eyx) in Hvx. discriminate.
  - destruct (cell_eqb v y); simpl; now rewrite IH.
Qed.

Lemma hits_cons (v x : cell) (l : list cell) :
  hits v (x :: l) = (if cell_eqb v x then 1 else 0) + hits v l.
Proof. unfold hits. simpl. now destruct (cell_eqb v x). Qed.

(** A value matches one entry of the distinct values of a series it
    occurs in, and none otherwise. *)
Lemma hits_unique (v : cell) (l : Series) :
  hits v (preprocess.unique l) = if mem v l then 1 else 0.
Proof.
  induction l as [| x t IH]; [reflexivity |].
  change (preprocess.unique (x :: t))
    with (x :: filter (fun y => negb (cell_eqb y x)) (preprocess.unique t)).
  change (mem v (x :: t)) with (cell_eqb v x || mem v t).
  rewrite hits_cons.
  destruct (cell_eqb v x) eqn:E; simpl.
  - now rewrite (hits_filter_same v x _ E).
  - now rewrite (hits_filter_other v x _ E).
Qed.

Lemma count_perm {A} (f : A -> bool) (l l' : list A) :
  Permutation l l' -> length (filter f l) = length (filter f l').
Proof.
  induction 1 as [| x l l' _ IH | x y l | l l' l'' _ IH1 _ IH2]; simpl.
  - reflexivity.
  - destruct (f x); simpl; now rewrite IH.
  - destruct (f x), (f y); reflexivity.
  - now rewrite IH1.
Qed.

Lemma insert_string_perm (x : string) (l : list string) :
  Permutation (x :: l) (insert_string x l).
Proof.
  induction l as [| y t IH]; simpl; [apply Permutation_refl |].
  destruct (String.leb x y); [apply Permutation_refl |].
  apply perm_trans with (y :: x :: t); [apply perm_swap |].
  now apply perm_skip.
Qed.

Lemma sort_strings_perm (l : list string) : Permutation l (sort_strings l).
Proof.
  induction l as [| x t IH]; simpl; [apply perm_nil |].
  apply perm_trans with (x :: sort_strings t);
    [now apply perm_skip | apply insert_string_perm].
Qed.

Lemma hits_strings (v : cell) (l : list string) (u : list cell) :
  l = strings_of u ->
  hits v (map Str l)
  = match v with Str _ => hits v u | _ => 0 end.
Proof.
  intros ->. unfold hits, strings_of.
  destruct v as [q | t |]; induction u as [| y u IH]; try reflexivity;
    destruct y as [q' | s |]; simpl; try exact IH.
  destruct (String.eqb t s); simpl; [f_equal |]; exact IH.
Qed.

Lemma hits_numbers (v : cell) (l : list Q) (u : list cell) :
  l = preprocess.numeric_values u ->
  hits v (map Num l)
  = match v with Num _ => hits v u | _ => 0 end.
Proof.
  intros ->. unfold hits, preprocess.numeric_values.
  destruct v as [q | t |]; induction u as [| y u IH]; try reflexivity;
    destruct y as [q' | s |]; simpl; try exact IH.
  destruct (Qeq_bool q q'); simpl; [f_equal |]; exact IH.
Qed.

Lemma hits_map_perm {A} (inj : A -> cell) (v : cell) (l l' : list A) :
  Permutation l l' -> hits v (map inj l) = hits v (map inj l').
Proof.
  intros H. unfold hits. apply count_perm. now apply Permutation_map.
Qed.

Lemma mem_nan (u : list cell) : existsb is_missing u = mem NaN u.
Proof.
  unfold mem. induction u as [| y t IH]; [reflexivity |].
  simpl. rewrite IH. now destruct y.
Qed.

(** The vocabulary learned from a series has exactly one entry for
    each value of the series. *)
Lemma hits_learn_categories (s : Series) (ks : list cell) (v : cell) :
  learn_categories s = Ok ks -> hits v ks = if mem v s then 1 else 0.
Proof.
  unfold learn_categories.
  set (u := preprocess.unique s).
  assert (Hu : hits v u = if mem v s then 1 else 0)
    by apply hits_unique.
  assert (Hks : hits v (map Str (sort_strings (strings_of u))
                          ++ map Num (pd.sort_values
                                        (preprocess.numeric_values u))
                          ++ (if existsb is_missing u then [NaN] else []))
                = if mem v s then 1 else 0).
  { rewrite !hits_app.
    rewrite <- (hits_map_perm Str v _ _ (sort_strings_perm (strings_of u))).
    rewrite <- (hits_map_perm Num v _ _
                  (sort_values_perm (preprocess.numeric_values u))).
    rewrite (hits_strings v _ u eq_refl), (hits_numbers v _ u eq_refl).
    rewrite mem_nan. unfold u at 3. rewrite mem_unique.
    destruct v as [q | t |].
    - rewrite Hu. destruct (mem NaN s), (mem (Num q) s); reflexivity.
    - rewrite Hu. destruct (mem NaN s), (mem (Str t) s); reflexivity.
    - destruct (mem NaN s); reflexivity. }
  intros H. subst u. destruct s as [| x0 t0]; [discriminate H |].
  cbv beta iota zeta in H.
  destruct (strings_of (preprocess.unique (x0 :: t0))) as [| a l] eqn:Es;
    destruct (preprocess.numeric_values (preprocess.unique (x0 :: t0)))
      as [| b l'] eqn:En;
    try discriminate H; injection H as <-; exact Hks.
Qed.

Lemma indicator_row (ks : list cell) (s : Series) (i : nat) (v : cell) :
  nth_error s i = Some v ->
  map (fun col => nth i col NaN) (one_hot ks s)
  = map (fun k => indicator k v) ks.
Proof.
  intros Hi. unfold one_hot. rewrite map_map. apply map_ext. intros k.
  apply nth_error_nth. now rewrite nth_error_map, Hi.
Qed.

Lemma ones_in_row (ks : list cell) (v : cell) :
  length (filter (cell_eqb (Num 1%Q)) (map (fun k => indicator k v) ks))
  = hits v ks.
Proof.
  unfold hits, indicator. induction ks as [| k t IH]; [reflexivity |].
  simpl. destruct (cell_eqb v k); simpl; now rewrite IH.
Qed.

End OneHot.

Section OneHotMatrix.

Import sklearn notebook.

Lemma learn_all_nth (cols : list string) (X : DataFrame)
      (cats : list (list cell)) (j : nat) (c : string) (s : Series) :
  learn_all cols X = Ok cats ->
  nth_error cols j = Some c -> pd.getitem X c = Ok s ->
  exists ks, nth_error cats j = Some ks /\ learn_categories s = Ok ks.
Proof.
  revert cats j. induction cols as [| c0 cs IH]; intros cats j H Hc Hs.
  - destruct j; discriminate.
  - simpl in H. destruct (pd.getitem X c0) as [s0 |] eqn:E0;
      [| discriminate].
    destruct (learn_categories s0) as [k0 |] eqn:Ek; [| discriminate].
    cbn [bind] in H.
    destruct (learn_all cs X) as [rest |] eqn:Er; [| discriminate].
    cbn [bind] in H. injection H as <-.
    destruct j as [| j]; simpl in Hc |- *.
    + injection Hc as ->. exists k0. split; [reflexivity | congruence].
    + exact (IH rest j eq_refl Hc Hs).
Qed.

Lemma encode_all_split (hu : handle_unknown) (cols : list string)
      (cats : list (list cell)) (X : DataFrame) (blocks : list Series)
      (j : nat) (c : string) (ks : list cell) (s : Series) :
  encode_all hu cols cats X = Ok blocks ->
  nth_error cols j = Some c -> nth_error cats j = Some ks ->
  pd.getitem X c = Ok s ->
  exists pre post,
    blocks = pre ++ one_hot ks s ++ post /\
    length pre = block_offset cats j.
Proof.
  revert cats blocks j.
  induction cols as [| c0 cs IH]; intros cats blocks j H Hc Hk Hs.
  - destruct j; discriminate.
  - destruct cats as [| k0 ks0]; [destruct j; discriminate |].
    simpl in H. destruct (pd.getitem X c0) as [s0 |] eqn:E0;
      [| discriminate].
    cbn [bind] in H.
    destruct (OneHotEncoder_transform_column hu k0 s0) as [block |] eqn:Eb;
      [| discriminate].
    cbn [bind] in H.
    destruct (encode_all hu cs ks0 X) as [rest |] eqn:Er; [| discriminate].
    cbn [bind] in H. injection H as <-.
    apply transform_column_ok in Eb. subst block.
    destruct j as [| j]; simpl in Hc, Hk.
    + injection Hc as ->. injection Hk as ->.
      assert (s0 = s) by congruence. subst s0.
      exists [], rest. split; reflexivity.
    + destruct (IH ks0 rest j Er Hc Hk Hs) as (pre & post & -> & Hl).
      exists (one_hot k0 s0 ++ pre), post. split.
      * now rewrite <- app_assoc.
      * rewrite length_app, one_hot_length, Hl.
        unfold block_offset. simpl. now rewrite length_app.
Qed.

Lemma transform_ok_parts (hu : handle_unknown) (cols : list string)
      (enc : ColumnTransformer_state) (X : DataFrame) (m : list Series) :
  ColumnTransformer_transform hu cols enc X = Ok m ->
  exists blocks rest,
    encode_all hu cols (categories_ enc) X = Ok blocks /\
    passthrough (remainder_ enc) X = Ok rest /\
    m = blocks ++ np.stacked rest.
Proof.
  unfold ColumnTransformer_transform.
  destruct (pd.first_absent _ X); [discriminate |].
  destruct (encode_all hu cols (categories_ enc) X) as [blocks |];
    [| discriminate].
  cbn [bind].
  destruct (passthrough (remainder_ enc) X) as [rest |]; [| discriminate].
  cbn [bind]. intros H. injection H as <-. now exists blocks, rest.
Qed.

Lemma block_of (pre B post : list Series) (n : nat) :
  length B = n ->
  firstn n (skipn (length pre) (pre ++ B ++ post)) = B.
Proof.
  intros <-. rewrite skipn_app, skipn_all, Nat.sub_diag. simpl.
  rewrite firstn_app, firstn_all, Nat.sub_diag. simpl. apply app_nil_r.
Qed.

End OneHotMatrix.

(** X8.  The encoder is one-hot.  Take the encoder fitted on one frame
    and its output on any frame, an encoded column, and a row.  The
    indicator block of that column has one column per learned value;
    its entry in that row is [1] where the learned value is the row's
    value and [0] elsewhere; and the row has exactly one [1] in the
    block when its value occurs in that column of the fitting frame,
    none otherwise. *)
Theorem one_indicator_per_known_value :
  forall (X_fit X : DataFrame) (enc : sklearn.ColumnTransformer_state)
         (m : list Series) (j : nat) (c : string) (s_fit s : Series)
         (i : nat) (v : cell),
    sklearn.ColumnTransformer_fit notebook.categorical_cols X_fit = Ok enc ->
    sklearn.ColumnTransformer_transform
      sklearn.hu_ignore notebook.categorical_cols enc X = Ok m ->
    nth_error notebook.categorical_cols j = Some c ->
    pd.getitem X_fit c = Ok s_fit ->
    pd.getitem X c = Ok s ->
    nth_error s i = Some v ->
    exists ks block,
      nth_error (sklearn.categories_ enc) j = Some ks /\
      block = firstn (length ks)
                (skipn (notebook.block_offset (sklearn.categories_ enc) j) m)
      /\
      map (fun col => nth i col NaN) block
      = map (fun k => sklearn.indicator k v) ks /\
      length (filter (cell_eqb (Num 1%Q))
                (map (fun col => nth i col NaN) block))
      = (if mem v s_fit then 1 else 0).
Proof.
  intros X_fit X enc m j c s_fit s i v Hfit Ht Hc Hsf Hs Hi.
  destruct (ColumnTransformer_fit_ok _ _ _ Hfit) as (cats & El & ->).
  cbn [sklearn.categories_].
  destruct (learn_all_nth _ _ _ j c s_fit El Hc Hsf) as (ks & Hk & Hlearn).
  destruct (transform_ok_parts _ _ _ _ _ Ht) as (blocks & rest & Hb & _ & ->).
  cbn [sklearn.categories_] in Hb.
  destruct (encode_all_split _ _ _ _ _ j c ks s Hb Hc Hk Hs)
    as (pre & post & -> & Hpre).
  exists ks, (sklearn.one_hot ks s).
  split; [exact Hk |]. split.
  - rewrite <- Hpre, <- !app_assoc.
    symmetry. apply block_of. apply one_hot_length.
  - rewrite (indicator_row ks s i v Hi). split; [reflexivity |].
    rewrite ones_in_row. exact (hits_learn_categories s_fit ks v Hlearn).
Qed.

Lemma one_indicator_per_known_value_witness :
  exists enc m ks block,
    sklearn.ColumnTransformer_fit notebook.categorical_cols
      fixtures.unseen_gender = Ok enc /\
    sklearn.ColumnTransformer_transform
      sklearn.hu_ignore notebook.categorical_cols enc fixtures.unseen_gender
    = Ok m /\
    nth_error (sklearn.categories_ enc) 0 = Some ks /\
    block = firstn (length ks)
              (skipn (notebook.block_offset (sklearn.categories_ enc) 0) m) /\
    length (filter (cell_eqb (Num 1%Q))
              (map (fun col => nth 1 col NaN) block)) = 1.
Proof.
  do 2 eexists.
  edestruct (fun enc m Hfit Ht =>
               one_indicator_per_known_value
                 fixtures.unseen_gender fixtures.unseen_gender enc m
                 0 "Gender" [Str "Other"; Str "Male"] [Str "Other"; Str "Male"]
                 1 (Str "Male") Hfit Ht)
    as (ks & block & Hk & Hb & _ & Hone);
    [ vm_compute; reflexivity | vm_compute; reflexivity
    | reflexivity | reflexivity | reflexivity | reflexivity | ].
  exists ks, block.
  split; [vm_compute; reflexivity |]. split; [vm_compute; reflexivity |].
  split; [exact Hk |]. split; [exact Hb | exact Hone].
Defined.

(** ** Rows *)

Section Shape.

Import sklearn notebook.

Variable sentinel : Q.
Variable diet_table sleep_table : list (string * string).
Variable other : string.

Lemma rectangular_getitem (n : nat) (X : DataFrame) (c : string)
      (s : Series) :
  rectangular n X -> pd.getitem X c = Ok s -> length s = n.
Proof.
  unfold rectangular.
  induction X as [| [k t] rest IH]; simpl; intros H E; [discriminate |].
  destruct (String.eqb k c).
  - injection E as <-. exact (Forall_inv H).
  - exact (IH (Forall_inv_tail H) E).
Qed.

Lemma rectangular_setitem (n : nat) (X : DataFrame) (c : string)
      (s : Series) :
  rectangular n X -> length s = n -> rectangular n (pd.setitem X c s).
Proof.
  unfold rectangular. intros H Hs.
  induction X as [| [k t] rest IH]; simpl.
  - constructor; [exact Hs | constructor].
  - destruct (String.eqb k c).
    + constructor; [exact Hs | exact (Forall_inv_tail H)].
    + constructor; [exact (Forall_inv H) | exact (IH (Forall_inv_tail H))].
Qed.

Lemma rectangular_filter (f : string * Series -> bool) (n : nat)
      (X : DataFrame) :
  rectangular n X -> rectangular n (filter f X).
Proof.
  unfold rectangular. rewrite !Forall_forall.
  intros H p Hp. apply filter_In in Hp as [Hp _]. now apply H.
Qed.

Lemma rectangular_take_rows (idx : list nat) (X : DataFrame) :
  rectangular (length idx) (pd.take_rows idx X).
Proof.
  unfold rectangular, pd.take_rows. apply Forall_forall.
  intros p Hp. apply in_map_iff in Hp as [q [<- _]]. simpl.
  apply length_map.
Qed.

Lemma coalesce_length (status a w : Series) :
  length (preprocess.coalesce status a w) = length a.
Proof.
  revert status w. induction a as [| x xs IH]; intros status w;
    [reflexivity |].
  simpl. now rewrite IH.
Qed.

Lemma fill_series_length (st : preprocess.GroupStatistic) (c : string)
      (keys vals : Series) :
  length (preprocess.fill_series st c keys vals) = length vals.
Proof.
  revert keys. induction vals as [| v vs IH]; intros keys; [reflexivity |].
  simpl. now rewrite IH.
Qed.

Lemma rectangular_assign_unified (n : nat) (target a w : string)
      (X X' : DataFrame) :
  rectangular n X ->
  preprocess.assign_unified target a w X = Ok X' -> rectangular n X'.
Proof.
  unfold preprocess.assign_unified. intros HX.
  destruct (pd.getitem X status_col); [| discriminate]. cbn [bind].
  destruct (pd.getitem X a) as [sa |] eqn:Ea; [| discriminate]. cbn [bind].
  destruct (pd.getitem X w); [| discriminate]. cbn [bind].
  intros H. injection H as <-. apply rectangular_setitem; [exact HX |].
  rewrite coalesce_length. exact (rectangular_getitem n X a sa HX Ea).
Qed.

Lemma rectangular_impute_columns (n : nat) (st : preprocess.GroupStatistic)
      (keys : Series) (cols : list string) (X X' : DataFrame) :
  rectangular n X ->
  preprocess.impute_columns st keys cols X = Ok X' -> rectangular n X'.
Proof.
  revert X. induction cols as [| c cs IH]; intros X HX H.
  - simpl in H. now injection H as <-.
  - simpl in H. destruct (pd.getitem X c) as [s |] eqn:E; [| discriminate].
    cbn [bind] in H. apply (IH _ (rectangular_setitem n X c _ HX
      (eq_trans (fill_series_length st c keys s)
                (rectangular_getitem n X c s HX E))) H).
Qed.

Lemma rectangular_GroupImputer_transform (n : nat) (cols : list string)
      (fitted : option preprocess.GroupStatistic) (X X' : DataFrame) :
  rectangular n X ->
  preprocess.GroupImputer_transform cols fitted X = Ok X' ->
  rectangular n X'.
Proof.
  unfold preprocess.GroupImputer_transform. intros HX.
  destruct fitted as [st |]; [| discriminate].
  destruct (pd.getitem X status_col) as [keys |]; [| discriminate].
  cbn [bind]. now apply rectangular_impute_columns.
Qed.

Lemma rectangular_add_pressure_ratio (n : nat) (X X' : DataFrame) :
  rectangular n X ->
  preprocess.add_pressure_ratio sentinel X = Ok X' -> rectangular n X'.
Proof.
  unfold preprocess.add_pressure_ratio. intros HX.
  destruct (pd.getitem X "Pressure") as [p |] eqn:Ep; [| discriminate].
  cbn [bind].
  destruct (pd.getitem X "Satisfaction"); [| discriminate]. cbn [bind].
  intros H. injection H as <-. apply rectangular_setitem; [exact HX |].
  rewrite ratio_series_length.
  exact (rectangular_getitem n X _ p HX Ep).
Qed.

Lemma rectangular_normalize_column (n : nat)
      (table : list (string * string)) (c : string) (X X' : DataFrame) :
  rectangular n X ->
  preprocess.normalize_column other table c X = Ok X' -> rectangular n X'.
Proof.
  unfold preprocess.normalize_column. intros HX.
  destruct (pd.getitem X c) as [s |] eqn:E; [| discriminate]. cbn [bind].
  intros H. injection H as <-. apply rectangular_setitem; [exact HX |].
  rewrite length_map. exact (rectangular_getitem n X c s HX E).
Qed.

Lemma rectangular_drop (n : nat) (labels : list string)
      (X X' : DataFrame) :
  rectangular n X -> pd.drop X labels = Ok X' -> rectangular n X'.
Proof.
  unfold pd.drop. intros HX.
  destruct (pd.first_absent labels X); [discriminate |].
  intros H. injection H as <-. now apply rectangular_filter.
Qed.

Lemma encode_all_rows (n : nat) (hu : handle_unknown) (cols : list string)
      (cats : list (list cell)) (X : DataFrame) (blocks : list Series) :
  rectangular n X -> encode_all hu cols cats X = Ok blocks ->
  Forall (fun col => length col = n) blocks.
Proof.
  intros HX. revert cats blocks.
  induction cols as [| c cs IH]; intros cats blocks H.
  - simpl in H. injection H as <-. constructor.
  - destruct cats as [| k ks]; simpl in H; [injection H as <-; constructor |].
    destruct (pd.getitem X c) as [s |] eqn:E; [| discriminate].
    cbn [bind] in H.
    destruct (OneHotEncoder_transform_column hu k s) as [block |] eqn:Eb;
      [| discriminate].
    cbn [bind] in H.
    destruct (encode_all hu cs ks X) as [rest |] eqn:Er; [| discriminate].
    cbn [bind] in H. injection H as <-.
    apply Forall_app. split; [| exact (IH ks rest Er)].
    assert (block = one_hot k s) as ->
        by exact (transform_column_ok hu k s block Eb).
    unfold one_hot. apply Forall_forall. intros col Hc.
    apply in_map_iff in Hc as [v [<- _]]. rewrite length_map.
    exact (rectangular_getitem n X c s HX E).
Qed.

Lemma passthrough_rows (n : nat) (cols : list string) (X : DataFrame)
      (rest : list Series) :
  rectangular n X -> passthrough cols X = Ok rest ->
  Forall (fun col => length col = n) rest.
Proof.
  intros HX. revert rest. induction cols as [| c cs IH]; intros rest H.
  - simpl in H. injection H as <-. constructor.
  - simpl in H. destruct (pd.getitem X c) as [s |] eqn:E; [| discriminate].
    cbn [bind] in H.
    destruct (passthrough cs X) as [r |] eqn:Er; [| discriminate].
    cbn [bind] in H. injection H as <-.
    constructor; [exact (rectangular_getitem n X c s HX E) |].
    exact (IH r eq_refl).
Qed.

Lemma stacked_rows (n : nat) (rest : list Series) :
  Forall (fun col => length col = n) rest ->
  Forall (fun col => length col = n) (np.stacked rest).
Proof.
  intros H. destruct (stacked_cases rest) as [E | E]; rewrite E;
    [exact H |].
  apply Forall_forall. intros col Hc.
  apply in_map_iff in Hc as [s [<- Hs]]. rewrite length_map.
  exact (proj1 (Forall_forall _ rest) H s Hs).
Qed.

Lemma transform_stages_rows (n : nat) (st : store) (X : DataFrame)
      (m : list Series) :
  rectangular n X ->
  transform_stages sentinel diet_table sleep_table other st X = Ok m ->
  Forall (fun col => length col = n) m.
Proof.
  intros HX H.
  destruct (transform_stages_inv _ _ _ _ _ _ _ H)
    as (X1 & X2 & X3 & X4 & X5 & X6 & X7 & enc &
        E1 & E2 & E3 & E4 & E5 & E6 & E7 & _ & E8).
  pose proof (rectangular_assign_unified n _ _ _ _ _ HX E1) as R1.
  pose proof (rectangular_assign_unified n _ _ _ _ _ R1 E2) as R2.
  pose proof (rectangular_GroupImputer_transform n _ _ _ _ R2 E3) as R3.
  pose proof (rectangular_add_pressure_ratio n _ _ R3 E4) as R4.
  pose proof (rectangular_normalize_column n _ _ _ _ R4 E5) as R5.
  pose proof (rectangular_normalize_column n _ _ _ _ R5 E6) as R6.
  pose proof (rectangular_drop n _ _ _ R6 E7) as R7.
  destruct (transform_ok_parts _ _ _ _ _ E8) as (blocks & rest & Hb & Hr & ->).
  apply Forall_app. split.
  - exact (encode_all_rows n _ _ _ _ _ R7 Hb).
  - apply stacked_rows. exact (passthrough_rows n _ _ _ R7 Hr).
Qed.

Lemma rectangular_combine (n : nat) (names : list string)
      (m : list Series) :
  Forall (fun col => length col = n) m -> rectangular n (combine names m).
Proof.
  unfold rectangular. intros H. apply Forall_forall. intros [k s] Hin.
  apply in_combine_r in Hin. simpl.
  exact (proj1 (Forall_forall _ m) H s Hin).
Qed.

End Shape.

(** X9.  [preprocessor.transform] neither adds nor removes rows: applied
    to a frame of [n] rows it returns a matrix whose columns, the
    indicator columns and the passed-through ones alike, all have [n]
    rows. *)
Theorem transform_keeps_the_rows :
  forall (sentinel : Q) (diet_table sleep_table : list (string * string))
         (other : string) (n : nat) (X : DataFrame)
         (st st' : sklearn.store) (d : sklearn.data),
    notebook.rectangular n X ->
    sklearn.Pipeline_transform
      (notebook.preprocessor sentinel diet_table sleep_table other)
      (sklearn.Frame X) st = (Ok d, st') ->
    exists m,
      d = sklearn.Matrix m /\ Forall (fun col => length col = n) m.
Proof.
  intros sentinel diet_table sleep_table other n X st st' d HX H.
  destruct (Pipeline_transform_ok _ _ _ _ _ _ _ _ H) as (m & -> & _ & Hm).
  exists m. split; [reflexivity |].
  exact (transform_stages_rows _ _ _ _ n st X m HX Hm).
Qed.

Lemma transform_keeps_the_rows_witness :
  exists st m,
    sklearn.Pipeline_fit fixtures.pipeline (sklearn.Frame fixtures.X_train)
      sklearn.unfitted = (Ok tt, st) /\
    sklearn.Pipeline_transform fixtures.pipeline
      (sklearn.Frame fixtures.X_val) st = (Ok (sklearn.Matrix m), st) /\
    Forall (fun col => length col = 4) m.
Proof.
  assert (HX : notebook.rectangular 4 fixtures.X_val)
    by (repeat constructor).
  eexists. eexists. split; [vm_compute; reflexivity |].
  match goal with
  | |- sklearn.Pipeline_transform _ _ ?st = _ /\ _ =>
      edestruct (fun d H =>
                   transform_keeps_the_rows
                     0%Q fixtures.diet_table fixtures.sleep_table "Other"
                     4 fixtures.X_val st st d HX H)
        as (m & Heq & HF); [vm_compute; reflexivity |]
  end.
  injection Heq as <-.
  split; [vm_compute; reflexivity | exact HF].
Defined.

(** ** Columns no step touches *)

Section PassThrough.

Import sklearn notebook.

Variable sentinel : Q.
Variable diet_table sleep_table : list (string * string).
Variable other : string.
Variable repr_num : Q -> string.

Lemma prefix_append (a b c : string) :
  String.prefix (a ++ b)%string (a ++ b ++ c)%string = true.
Proof.
  induction a as [| x a IH]; simpl.
  - induction b as [| y b IHb]; simpl; [now destruct c |].
    destruct (ascii_dec y y) as [_ | Hn]; [exact IHb | now elim Hn].
  - destruct (ascii_dec x x) as [_ | Hn]; [exact IH | now elim Hn].
Qed.

Lemma plain_name_not_indicator (cats : list (list cell)) (c : string) :
  plain_name c ->
  ~ In c (OneHotEncoder_feature_names repr_num categorical_cols cats).
Proof.
  intros Hp Hin.
  apply (feature_name_prefix repr_num) in Hin as [cc [r [Hcc ->]]].
  specialize (Hp cc Hcc). rewrite prefix_append in Hp. discriminate Hp.
Qed.

Lemma written_cols_facts (c : string) :
  ~ In c written_cols ->
  c <> "Pressure" /\ c <> "Satisfaction" /\
  c <> "Pressure_Satisfaction_Ratio" /\ c <> "Dietary Habits" /\
  c <> "Sleep Duration" /\ ~ In c impute_cols /\ ~ In c drop_cols.
Proof.
  intros H.
  assert (Hl : forall x,
             In x [ "Pressure"; "Satisfaction";
                    "Pressure_Satisfaction_Ratio"; "Financial Stress";
                    "Dietary Habits"; "Sleep Duration" ] -> c <> x).
  { intros x Hx ->. apply H. unfold written_cols.
    apply in_or_app. now left. }
  repeat split.
  - apply Hl. simpl. auto.
  - apply Hl. simpl. auto.
  - apply Hl. simpl. auto.
  - apply Hl. simpl. auto 6.
  - apply Hl. simpl. auto 7.
  - intros Hin. apply (Hl c); [| reflexivity].
    unfold impute_cols in Hin. simpl in Hin. simpl.
    destruct Hin as [<- | [<- | [<- | []]]]; auto 6.
  - intros Hin. apply H. unfold written_cols.
    apply in_or_app. now right.
Qed.

Lemma GroupImputer_transform_other (cols : list string)
      (fitted : option preprocess.GroupStatistic) (X X' : DataFrame)
      (c : string) :
  ~ In c cols ->
  preprocess.GroupImputer_transform cols fitted X = Ok X' ->
  pd.getitem X' c = pd.getitem X c.
Proof.
  unfold preprocess.GroupImputer_transform. intros Hc.
  destruct fitted as [st |]; [| discriminate].
  destruct (pd.getitem X status_col) as [keys |]; [| discriminate].
  cbn [bind]. now apply impute_columns_other.
Qed.

(** A column no step writes or removes reaches the encoder as it
    came in. *)
Lemma untouched_before_encoder
      (fitted : option preprocess.GroupStatistic)
      (X X1 X2 X3 X4 X5 X6 X7 : DataFrame) (c : string) :
  preprocess.assign_pressure X = Ok X1 ->
  preprocess.assign_satisfaction X1 = Ok X2 ->
  preprocess.GroupImputer_transform impute_cols fitted X2 = Ok X3 ->
  preprocess.add_pressure_ratio sentinel X3 = Ok X4 ->
  preprocess.replace_diet_habits diet_table other X4 = Ok X5 ->
  preprocess.replace_sleep_duration sleep_table other X5 = Ok X6 ->
  pd.drop X6 drop_cols = Ok X7 ->
  ~ In c written_cols ->
  pd.getitem X7 c = pd.getitem X c.
Proof.
  intros E1 E2 E3 E4 E5 E6 E7 Hc.
  destruct (written_cols_facts c Hc)
    as (Hp & Hs & Hr & Hd & Hsl & Hi & Hdrop).
  rewrite (getitem_drop _ _ _ c E7 Hdrop).
  rewrite (normalize_column_getitem _ _ _ _ _ E6 c Hsl).
  rewrite (normalize_column_getitem _ _ _ _ _ E5 c Hd).
  rewrite (add_pressure_ratio_getitem _ _ _ E4 c Hr).
  rewrite (GroupImputer_transform_other _ _ _ _ c Hi E3).
  rewrite (assign_unified_getitem _ _ _ _ _ E2 c Hs).
  exact (assign_unified_getitem _ _ _ _ _ E1 c Hp).
Qed.

Lemma transform_stages_passthrough (st : store)
      (enc : ColumnTransformer_state) (X : DataFrame) (m : list Series)
      (c : string) :
  transform_stages sentinel diet_table sleep_table other st X = Ok m ->
  encode_ st = Some enc ->
  In c (remainder_ enc) ->
  ~ In c written_cols ->
  plain_name c ->
  exists s s',
    pd.getitem X c = Ok s /\
    output_column (feature_schema repr_num enc) m c = Some s' /\
    (s' = s \/ s' = map np.astype_float64 s).
Proof.
  intros H Henc Hrem Hc Hplain.
  destruct (transform_stages_inv _ _ _ _ _ _ _ H)
    as (X1 & X2 & X3 & X4 & X5 & X6 & X7 & enc' &
        E1 & E2 & E3 & E4 & E5 & E6 & E7 & Henc' & E8).
  assert (enc' = enc) by congruence. subst enc'.
  destruct (transform_ok_parts _ _ _ _ _ E8) as (blocks & rest & Hb & Hr & ->).
  destruct (passthrough_lookup _ _ _ c Hr Hrem) as (s & Hs & Hl).
  destruct (stacked_lookup _ _ c s Hl) as (s' & Hl' & Hcase).
  exists s, s'. split; [| split; [| exact Hcase]].
  - rewrite <- (untouched_before_encoder _ _ _ _ _ _ _ _ _ c
                  E1 E2 E3 E4 E5 E6 E7 Hc).
    exact Hs.
  - unfold output_column, feature_schema, cat_features.
    rewrite lookup_combine_app
      by (symmetry; exact (encode_all_length repr_num _ _ _ _ _ Hb)).
    rewrite lookup_combine_notin
      by (apply plain_name_not_indicator; exact Hplain).
    exact Hl'.
Qed.

End PassThrough.

(** X10.  A column no step touches comes out as it went in, but for
    the conversion to [float64].  Take a column the encoder passes
    through (a remainder column of the fitted encoder) that no step
    before the encoder writes or removes, and whose name cannot be
    taken for an indicator column's.  Whenever [preprocessor.transform]
    succeeds the input frame has this column, and the output column
    under its name in the encoder's schema holds the same series, or
    that series with every number rounded to [float64]; it holds the
    very same series when the numbers of the column are [float64]
    numbers of magnitude at most [2 ^ 53]. *)
Theorem untouched_columns_pass_through :
  forall (sentinel : Q) (diet_table sleep_table : list (string * string))
         (other : string) (repr_num : Q -> string)
         (st st' : sklearn.store) (enc : sklearn.ColumnTransformer_state)
         (X : DataFrame) (m : list Series) (c : string),
    sklearn.Pipeline_transform
      (notebook.preprocessor sentinel diet_table sleep_table other)
      (sklearn.Frame X) st = (Ok (sklearn.Matrix m), st') ->
    sklearn.encode_ st = Some enc ->
    In c (sklearn.remainder_ enc) ->
    ~ In c notebook.written_cols ->
    notebook.plain_name c ->
    exists s s',
      pd.getitem X c = Ok s /\
      notebook.output_column (notebook.feature_schema repr_num enc) m c
      = Some s' /\
      (s' = s \/ s' = map np.astype_float64 s) /\
      (np.exact s = true -> s' = s).
Proof.
  intros sentinel diet_table sleep_table other repr_num st st' enc X m c
         H Henc Hrem Hc Hplain.
  destruct (Pipeline_transform_ok _ _ _ _ _ _ _ _ H) as (m' & Hm & _ & Hst).
  injection Hm as <-.
  destruct (transform_stages_passthrough sentinel diet_table sleep_table
              other repr_num st enc X m c Hst Henc Hrem Hc Hplain)
    as (s & s' & Hs & Ho & Hcase).
  exists s, s'. split; [exact Hs |]. split; [exact Ho |].
  split; [exact Hcase |].
  intros Hx. destruct Hcase as [-> | ->]; [reflexivity |].
  now apply astype_exact.
Qed.

Lemma untouched_columns_pass_through_witness :
  exists st m enc,
    sklearn.Pipeline_fit fixtures.pipeline (sklearn.Frame fixtures.X_train)
      sklearn.unfitted = (Ok tt, st) /\
    sklearn.Pipeline_transform fixtures.pipeline
      (sklearn.Frame fixtures.X_val) st = (Ok (sklearn.Matrix m), st) /\
    sklearn.encode_ st = Some enc /\
    notebook.output_column
      (notebook.feature_schema fixtures.repr_num enc) m "Age"
    = Some [fixtures.n 21; fixtures.n 35; fixtures.n 19; fixtures.n 44].
Proof.
  assert (Hw : ~ In "Age" notebook.written_cols).
  { intros Hin. vm_compute in Hin.
    repeat (destruct Hin as [Hin | Hin]; [discriminate Hin |]).
    exact Hin. }
  assert (Hplain : notebook.plain_name "Age").
  { intros cc Hcc. unfold notebook.categorical_cols in Hcc. simpl in Hcc.
    repeat (destruct Hcc as [<- | Hcc]; [reflexivity |]). destruct Hcc. }
  eexists. eexists. eexists. split; [vm_compute; reflexivity |].
  match goal with
  | |- sklearn.Pipeline_transform _ _ ?st = _ /\ _ =>
      edestruct (fun enc m H Henc Hrem =>
                   untouched_columns_pass_through
                     0%Q fixtures.diet_table fixtures.sleep_table "Other"
                     fixtures.repr_num st st enc fixtures.X_val m "Age"
                     H Henc Hrem Hw Hplain)
        as (s & s' & Hs & Ho & _ & Hx);
        [ vm_compute; reflexivity | vm_compute; reflexivity
        | vm_compute; repeat (first [left; reflexivity | right]) | ]
  end.
  vm_compute in Hs. injection Hs as <-.
  rewrite (Hx eq_refl) in Ho.
  split; [vm_compute; reflexivity |].
  split; [vm_compute; reflexivity | exact Ho].
Defined.

(** ** The saved frames *)

Section SaveCell.

Import sklearn notebook.

Variable sentinel : Q.
Variable diet_table sleep_table : list (string * string).
Variable other : string.
Variable repr_num : Q -> string.

Lemma getitem_lookup (X : DataFrame) (c : string) :
  pd.getitem X c
  = match preprocess.lookup c X with
    | Some s => Ok s
    | None => Raise (KeyError c)
    end.
Proof.
  induction X as [| [k t] rest IH]; simpl; [reflexivity |].
  destruct (String.eqb k c); [reflexivity | exact IH].
Qed.

Lemma getitem_take_rows (idx : list nat) (X : DataFrame) (c : string) :
  pd.getitem (pd.take_rows idx X) c
  = match pd.getitem X c with
    | Ok s => Ok (take idx s)
    | Raise e => Raise e
    end.
Proof.
  induction X as [| [k t] rest IH]; simpl; [reflexivity |].
  destruct (String.eqb k c); [reflexivity | exact IH].
Qed.

Lemma nrows_rectangular (n : nat) (X : DataFrame) :
  rectangular n X -> nrows X <= n.
Proof.
  unfold rectangular, nrows.
  induction X as [| [k t] rest IH]; simpl; intros H; [lia |].
  pose proof (Forall_inv H) as Ht. simpl in Ht.
  pose proof (IH (Forall_inv_tail H)). lia.
Qed.

Lemma pad_full (n : nat) (s : Series) : length s = n -> pad n s = s.
Proof.
  intros <-. unfold pad. rewrite Nat.sub_diag. simpl. apply app_nil_r.
Qed.

(** A label series as long as the frame becomes its new last column;
    nothing is padded. *)
Lemma concat_columns_fits (n : nat) (X : DataFrame) (name : string)
      (s : Series) :
  rectangular n X -> length s = n ->
  concat_columns X name s = X ++ [(name, s)].
Proof.
  intros HX Hs. unfold concat_columns. cbv zeta.
  pose proof (nrows_rectangular n X HX) as Hn.
  replace (Nat.max (nrows X) (length s)) with n by lia.
  rewrite (pad_full n s Hs). f_equal.
  unfold rectangular in HX. clear Hn.
  induction X as [| [k t] rest IH]; [reflexivity |].
  simpl. rewrite (pad_full n t (Forall_inv HX)).
  now rewrite (IH (Forall_inv_tail HX)).
Qed.

Lemma filter_absent (X : DataFrame) (c : string) :
  ~ In c (pd.columns X) ->
  filter (fun p => negb (String.eqb (fst p) c)) X = X.
Proof.
  unfold pd.columns. induction X as [| [k t] rest IH]; [reflexivity |].
  simpl. intros Hn.
  destruct (String.eqb k c) eqn:E.
  - apply String.eqb_eq in E. exfalso. apply Hn. now left.
  - simpl. rewrite IH; [reflexivity |]. intros Hc. apply Hn. now right.
Qed.

Lemma pop_appended (X : DataFrame) (c : string) (s : Series) :
  ~ In c (pd.columns X) -> pd.pop (X ++ [(c, s)]) c = Ok (s, X).
Proof.
  intros Hn. unfold pd.pop.
  rewrite getitem_app_new
    by (unfold pd.has_column; now apply mem_str_false).
  cbn [bind]. rewrite filter_app, (filter_absent X c Hn). simpl.
  rewrite String.eqb_refl. simpl. now rewrite app_nil_r.
Qed.

Lemma save_run_inv (train test : DataFrame) (train_idx val_idx : list nat)
      (sv : saved) :
  save_run sentinel diet_table sleep_table other repr_num
    train test train_idx val_idx = Ok sv ->
  exists out y,
    run sentinel diet_table sleep_table other repr_num
      train test train_idx val_idx = Ok out /\
    pd.getitem train "Depression" = Ok y /\
    sv = save_cell out (take train_idx y) (take val_idx y).
Proof.
  unfold save_run, run. rewrite split_cell_loaded.
  destruct (pd.getitem train "Depression") as [y |]; [| discriminate].
  cbn [bind fst snd].
  destruct (fst (transform_cell _ _ _ _ _ _ _ _ _)) as [out |];
    [| discriminate].
  cbn [bind]. intros H. injection H as <-. now exists out, y.
Qed.

(** What a successful run has computed: the fitted objects, the three
    matrices, and the frames made of them under the schema's names. *)
Lemma run_frames (train test : DataFrame) (train_idx val_idx : list nat)
      (out : outputs) :
  run sentinel diet_table sleep_table other repr_num
    train test train_idx val_idx = Ok out ->
  exists st enc a b c,
    fit_stages sentinel diet_table sleep_table other
      (pd.take_rows train_idx (without_label train)) = Ok st /\
    encode_ st = Some enc /\
    transform_stages sentinel diet_table sleep_table other st
      (pd.take_rows train_idx (without_label train)) = Ok a /\
    transform_stages sentinel diet_table sleep_table other st
      (pd.take_rows val_idx (without_label train)) = Ok b /\
    transform_stages sentinel diet_table sleep_table other st test = Ok c /\
    features out = feature_schema repr_num enc /\
    ~ In "Depression" (features out) /\
    (length a = length (features out) /\
     final_train out = combine (features out) a) /\
    (length b = length (features out) /\
     final_val out = combine (features out) b) /\
    (length c = length (features out) /\
     final_test out = combine (features out) c) /\
    forall e, In e engineered_cols -> pd.has_column e train = false.
Proof.
  intros Hrun.
  destruct (run_inv _ _ _ _ _ _ _ _ _ _ Hrun) as (y & st & Hy & Hcell).
  destruct (transform_cell_inv _ _ _ _ _ _ _ _ _ _ _ Hcell)
    as (enc & tr & te & a & b & c &
        Hfit & Henc & Ha & Hb & Hte & Hc & Htr & Hf & Fa & Fb & Fc).
  change (Ok (without_label train) = Ok tr) in Htr. injection Htr as <-.
  change (Ok test = Ok te) in Hte. injection Hte as <-.
  pose proof (Pipeline_fit_preprocessor _ _ _ _ _ _ _ Hfit) as Hst.
  pose proof (fitted_schema sentinel diet_table sleep_table other repr_num
                _ _ enc Hst Henc) as Hschema.
  rewrite columns_take_rows in Hschema.
  destruct (Pipeline_transform_ok _ _ _ _ _ _ _ _ Ha) as (ma & -> & _ & Hma).
  destruct (Pipeline_transform_ok _ _ _ _ _ _ _ _ Hb) as (mb & -> & _ & Hmb).
  destruct (Pipeline_transform_ok _ _ _ _ _ _ _ _ Hc) as (mc & -> & _ & Hmc).
  destruct (DataFrame_of_ok _ _ _ Fa) as (ma' & Ea & La & Ca).
  destruct (DataFrame_of_ok _ _ _ Fb) as (mb' & Eb & Lb & Cb).
  destruct (DataFrame_of_ok _ _ _ Fc) as (mc' & Ec & Lc & Cc).
  injection Ea as <-. injection Eb as <-. injection Ec as <-.
  exists st, enc, ma, mb, mc.
  assert (Hw : length ma = length (feature_schema repr_num enc)).
  { destruct (transform_stages_inv _ _ _ _ _ _ _ Hma)
      as (X1 & X2 & X3 & X4 & X5 & X6 & X7 & enc' &
          _ & _ & _ & _ & _ & _ & _ & Henc' & E8).
    assert (enc' = enc) by congruence. subst enc'.
    exact (transform_width repr_num _ _ _ _ E8). }
  destruct (engineered_all_new
              (pd.take_rows train_idx (without_label train)))
    as [Hnew Hnone].
  { pose proof La as Hlen. rewrite Hf in Hlen. unfold all_features in Hlen.
    rewrite Hw, Hschema, !length_app in Hlen.
    change (length engineered_cols) with 3.
    cbn [length] in Hlen. lia. }
  assert (Hnames : features out = feature_schema repr_num enc).
  { rewrite Hf, Hschema, Hnew. reflexivity. }
  assert (Hlabel : ~ In "Depression" (features out))
    by (rewrite Hf; apply label_not_in_all_features).
  assert (Habsent : forall e, In e engineered_cols ->
                              pd.has_column e train = false).
  { intros e He. specialize (Hnone e He).
    unfold pd.has_column in Hnone. rewrite columns_take_rows in Hnone.
    fold (pd.has_column e (without_label train)) in Hnone.
    rewrite has_column_without_label in Hnone; [exact Hnone |].
    unfold engineered_cols in He. simpl in He.
    destruct He as [<- | [<- | [<- | []]]]; discriminate. }
  split; [exact Hst |]. split; [exact Henc |]. split; [exact Hma |].
  split; [exact Hmb |]. split; [exact Hmc |]. split; [exact Hnames |].
  split; [exact Hlabel |]. split; [now split |]. split; [now split |].
  split; [now split | exact Habsent].
Qed.

Lemma fitted_remainder (X : DataFrame) (st : store)
      (enc : ColumnTransformer_state) (c : string) :
  fit_stages sentinel diet_table sleep_table other X = Ok st ->
  encode_ st = Some enc ->
  pd.has_column c X = true ->
  ~ In c (drop_cols ++ categorical_cols) ->
  In c (remainder_ enc).
Proof.
  intros Hfit Henc Hc Hn.
  pose proof (fitted_schema sentinel diet_table sleep_table other repr_num
                _ _ enc Hfit Henc) as Hschema.
  unfold feature_schema in Hschema. apply app_inv_head in Hschema.
  rewrite Hschema. apply in_or_app. left.
  apply filter_In. split.
  - unfold pd.has_column in Hc. now apply mem_str_true.
  - apply andb_true_iff. split; apply negb_true_iff, mem_str_false;
      intros Hin; apply Hn; apply in_or_app; [now left | now right].
Qed.

(** The final frame made from the matrix of a data set holds, under the
    name of an untouched column, that column of the data set. *)
Lemma final_frame_column (X_fit X : DataFrame) (st : store)
      (enc : ColumnTransformer_state) (m : list Series)
      (c : string) (s : Series) :
  fit_stages sentinel diet_table sleep_table other X_fit = Ok st ->
  encode_ st = Some enc ->
  transform_stages sentinel diet_table sleep_table other st X = Ok m ->
  pd.has_column c X_fit = true ->
  pd.getitem X c = Ok s ->
  ~ In c (written_cols ++ categorical_cols) ->
  plain_name c ->
  exists s',
    pd.getitem (combine (feature_schema repr_num enc) m) c = Ok s' /\
    (s' = s \/ s' = map np.astype_float64 s).
Proof.
  intros Hfit Henc Hm Hc Hs Hn Hplain.
  assert (Hw : ~ In c written_cols)
    by (intros Hin; apply Hn; apply in_or_app; now left).
  assert (Hrem : In c (remainder_ enc)).
  { apply (fitted_remainder X_fit st enc c Hfit Henc Hc).
    intros Hin. apply in_app_or in Hin as [Hin | Hin].
    - apply Hw. unfold written_cols. apply in_or_app. now right.
    - apply Hn. apply in_or_app. now right. }
  destruct (transform_stages_passthrough sentinel diet_table sleep_table
              other repr_num st enc X m c Hm Henc Hrem Hw Hplain)
    as (s0 & s' & Hs0 & Ho & Hcase).
  assert (s0 = s) by congruence. subst s0.
  exists s'. split; [| exact Hcase].
  rewrite getitem_lookup. unfold output_column in Ho. now rewrite Ho.
Qed.

Lemma final_frame_column_exact (X_fit X : DataFrame) (st : store)
      (enc : ColumnTransformer_state) (m : list Series)
      (c : string) (s : Series) :
  fit_stages sentinel diet_table sleep_table other X_fit = Ok st ->
  encode_ st = Some enc ->
  transform_stages sentinel diet_table sleep_table other st X = Ok m ->
  pd.has_column c X_fit = true ->
  pd.getitem X c = Ok s ->
  ~ In c (written_cols ++ categorical_cols) ->
  plain_name c ->
  np.exact s = true ->
  pd.getitem (combine (feature_schema repr_num enc) m) c = Ok s.
Proof.
  intros Hfit Henc Hm Hc Hs Hn Hplain Hx.
  destruct (final_frame_column X_fit X st enc m c s
              Hfit Henc Hm Hc Hs Hn Hplain) as (s' & Hg & [-> | ->]);
    [exact Hg |].
  now rewrite (astype_exact s Hx) in Hg.
Qed.

Lemma exact_take (idx : list nat) (s : Series) :
  np.exact s = true -> np.exact (take idx s) = true.
Proof.
  unfold np.exact, take. intros H. rewrite forallb_forall in H.
  apply forallb_forall. intros c Hc.
  apply in_map_iff in Hc as [i [<- _]].
  destruct (nth_in_or_default i s NaN) as [Hin | ->];
    [now apply H | reflexivity].
Qed.

End SaveCell.

(** X11.  What the notebook saves.  Whenever the notebook gets as far
    as saving, the training and validation frames it saves are the final
    frames with the label as one more, last, column called [Depression]:
    [pd.concat] pads nothing, every column of the saved frame has as
    many rows as the split picked, and popping [Depression] from a saved
    frame gives back the labels of the split and the final frame.  The
    test frame is saved without a label. *)
Theorem saved_frames_are_features_then_label :
  forall (sentinel : Q) (diet_table sleep_table : list (string * string))
         (other : string) (repr_num : Q -> string)
         (train test : DataFrame) (train_idx val_idx : list nat)
         (sv : notebook.saved),
    notebook.save_run sentinel diet_table sleep_table other repr_num
      train test train_idx val_idx = Ok sv ->
    exists out y,
      notebook.run sentinel diet_table sleep_table other repr_num
        train test train_idx val_idx = Ok out /\
      pd.getitem train "Depression" = Ok y /\
      notebook.processed_train sv
      = notebook.final_train out
          ++ [("Depression", notebook.take train_idx y)] /\
      notebook.processed_val sv
      = notebook.final_val out
          ++ [("Depression", notebook.take val_idx y)] /\
      notebook.processed_test sv = notebook.final_test out /\
      notebook.rectangular (length train_idx) (notebook.processed_train sv) /\
      notebook.rectangular (length val_idx) (notebook.processed_val sv) /\
      pd.columns (notebook.processed_train sv)
      = notebook.features out ++ ["Depression"] /\
      pd.columns (notebook.processed_val sv)
      = notebook.features out ++ ["Depression"] /\
      pd.columns (notebook.processed_test sv) = notebook.features out /\
      pd.pop (notebook.processed_train sv) "Depression"
      = Ok (notebook.take train_idx y, notebook.final_train out) /\
      pd.pop (notebook.processed_val sv) "Depression"
      = Ok (notebook.take val_idx y, notebook.final_val out).
Proof.
  intros sentinel diet_table sleep_table other repr_num
         train test train_idx val_idx sv Hsave.
  destruct (save_run_inv _ _ _ _ _ _ _ _ _ _ Hsave)
    as (out & y & Hrun & Hy & ->).
  destruct (run_frames _ _ _ _ _ _ _ _ _ _ Hrun)
    as (st & enc & a & b & c & _ & _ & Ha & Hb & _ & _ & Hlabel &
        [La Fa] & [Lb Fb] & [Lc Fc] & _).
  exists out, y. split; [exact Hrun |]. split; [exact Hy |].
  assert (Ra : notebook.rectangular (length train_idx)
                 (notebook.final_train out)).
  { rewrite Fa. apply rectangular_combine.
    exact (transform_stages_rows _ _ _ _ _ _ _ _
             (rectangular_take_rows train_idx _) Ha). }
  assert (Rb : notebook.rectangular (length val_idx)
                 (notebook.final_val out)).
  { rewrite Fb. apply rectangular_combine.
    exact (transform_stages_rows _ _ _ _ _ _ _ _
             (rectangular_take_rows val_idx _) Hb). }
  assert (Ca : pd.columns (notebook.final_train out) = notebook.features out)
    by (rewrite Fa; now apply columns_combine).
  assert (Cb : pd.columns (notebook.final_val out) = notebook.features out)
    by (rewrite Fb; now apply columns_combine).
  assert (Cc : pd.columns (notebook.final_test out) = notebook.features out)
    by (rewrite Fc; now apply columns_combine).
  assert (Ta : notebook.processed_train
                 (notebook.save_cell out (notebook.take train_idx y)
                                         (notebook.take val_idx y))
               = notebook.final_train out
                   ++ [("Depression", notebook.take train_idx y)]).
  { apply (concat_columns_fits (length train_idx)); [exact Ra |].
    apply length_map. }
  assert (Tb : notebook.processed_val
                 (notebook.save_cell out (notebook.take train_idx y)
                                         (notebook.take val_idx y))
               = notebook.final_val out
                   ++ [("Depression", notebook.take val_idx y)]).
  { apply (concat_columns_fits (length val_idx)); [exact Rb |].
    apply length_map. }
  rewrite Ta, Tb. cbn [notebook.processed_test notebook.save_cell].
  split; [reflexivity |]. split; [reflexivity |]. split; [reflexivity |].
  assert (Hone : forall n idx,
             length idx = n ->
             Forall (fun p : string * Series => length (snd p) = n)
                    [("Depression", notebook.take idx y)]).
  { intros n idx Hn. constructor; [| constructor].
    simpl. unfold notebook.take. now rewrite length_map. }
  split; [apply Forall_app; split; [exact Ra | now apply Hone] |].
  split; [apply Forall_app; split; [exact Rb | now apply Hone] |].
  unfold pd.columns at 1 2. rewrite !map_app.
  fold (pd.columns (notebook.final_train out)).
  fold (pd.columns (notebook.final_val out)).
  rewrite Ca, Cb.
  split; [reflexivity |]. split; [reflexivity |]. split; [exact Cc |].
  split; apply pop_appended; [rewrite Ca | rewrite Cb]; exact Hlabel.
Qed.

Lemma saved_frames_are_features_then_label_witness :
  exists sv out,
    notebook.save_run 0%Q fixtures.diet_table fixtures.sleep_table "Other"
      fixtures.repr_num fixtures.train_csv fixtures.X_val [0; 2; 3] [1]
    = Ok sv /\
    notebook.processed_train sv
    = notebook.final_train out
        ++ [("Depression", [fixtures.n 1; fixtures.n 0; fixtures.n 1])] /\
    notebook.rectangular 3 (notebook.processed_train sv).
Proof.
  eexists.
  edestruct (fun sv Hsave =>
               saved_frames_are_features_then_label
                 0%Q fixtures.diet_table fixtures.sleep_table "Other"
                 fixtures.repr_num fixtures.train_csv fixtures.X_val
                 [0; 2; 3] [1] sv Hsave)
    as (out & y & _ & Hy & Ht & _ & _ & Hr & _);
    [ vm_compute; reflexivity | ].
  vm_compute in Hy. injection Hy as <-.
  exists out. split; [vm_compute; reflexivity |].
  split; [exact Ht | exact Hr].
Defined.

(** X12.  The saved rows are the rows the split picked, in the split's
    order.  Take a column of the training file that no step writes,
    removes or encodes and whose name cannot be taken for an indicator
    column's: the label [Depression], or a feature column whose numbers
    are [float64] numbers of magnitude at most [2 ^ 53] ([id] or [Age],
    say).  In the saved training frame this column holds, in row [i],
    the value of the training file's row [train_idx[i]], and likewise
    in the saved validation frame: features and label of one saved row
    come from one and the same record.  In the saved test frame a
    feature column of this kind is the test file's column. *)
Theorem saved_rows_are_the_split_rows :
  forall (sentinel : Q) (diet_table sleep_table : list (string * string))
         (other : string) (repr_num : Q -> string)
         (train test : DataFrame) (train_idx val_idx : list nat)
         (sv : notebook.saved) (c : string) (s : Series),
    notebook.save_run sentinel diet_table sleep_table other repr_num
      train test train_idx val_idx = Ok sv ->
    pd.getitem train c = Ok s ->
    ~ In c (notebook.written_cols ++ notebook.categorical_cols) ->
    notebook.plain_name c ->
    c = "Depression" \/ np.exact s = true ->
    pd.getitem (notebook.processed_train sv) c
    = Ok (notebook.take train_idx s) /\
    pd.getitem (notebook.processed_val sv) c
    = Ok (notebook.take val_idx s) /\
    (c <> "Depression" ->
     forall t, pd.getitem test c = Ok t -> np.exact t = true ->
               pd.getitem (notebook.processed_test sv) c = Ok t).
Proof.
  intros sentinel diet_table sleep_table other repr_num
         train test train_idx val_idx sv c s Hsave Hs Hn Hplain Hex.
  destruct (save_run_inv _ _ _ _ _ _ _ _ _ _ Hsave)
    as (out & y & Hrun & Hy & ->).
  destruct (run_frames _ _ _ _ _ _ _ _ _ _ Hrun)
    as (st & enc & a & b & m & Hfit & Henc & Ha & Hb & Hm & Hf & Hlabel &
        [La Fa] & [Lb Fb] & [Lc Fc] & _).
  assert (Ra : notebook.rectangular (length train_idx)
                 (notebook.final_train out)).
  { rewrite Fa. apply rectangular_combine.
    exact (transform_stages_rows _ _ _ _ _ _ _ _
             (rectangular_take_rows train_idx _) Ha). }
  assert (Rb : notebook.rectangular (length val_idx)
                 (notebook.final_val out)).
  { rewrite Fb. apply rectangular_combine.
    exact (transform_stages_rows _ _ _ _ _ _ _ _
             (rectangular_take_rows val_idx _) Hb). }
  cbn [notebook.processed_train notebook.processed_val
       notebook.processed_test notebook.save_cell].
  rewrite (concat_columns_fits (length train_idx) _ _
             (notebook.take train_idx y) Ra (length_map _ _)).
  rewrite (concat_columns_fits (length val_idx) _ _
             (notebook.take val_idx y) Rb (length_map _ _)).
  destruct (String.eqb c "Depression") eqn:Ec.
  - apply String.eqb_eq in Ec. subst c.
    assert (y = s) by congruence. subst y.
    split; [| split; [| intros Hne; now elim Hne]];
      apply getitem_app_new; unfold pd.has_column; apply mem_str_false;
      [ rewrite Fa | rewrite Fb ]; rewrite columns_combine by assumption;
      exact Hlabel.
  - apply String.eqb_neq in Ec.
    destruct Hex as [Hex | Hex]; [contradiction |].
    rewrite !getitem_app_other by exact Ec.
    assert (Hwl : pd.getitem (notebook.without_label train) c = Ok s).
    { unfold notebook.without_label.
      rewrite (getitem_filter (fun k => negb (String.eqb k "Depression")));
        [exact Hs |].
      apply String.eqb_neq in Ec. now rewrite Ec. }
    assert (Hc : pd.has_column c
                   (pd.take_rows train_idx (notebook.without_label train))
                 = true).
    { apply has_column_getitem. rewrite getitem_take_rows, Hwl.
      now eexists. }
    rewrite Fa, Fb, Fc, Hf.
    split; [| split].
    + apply (final_frame_column_exact sentinel diet_table sleep_table other
               repr_num _ _ st enc a c _ Hfit Henc Ha Hc); try assumption.
      * now rewrite getitem_take_rows, Hwl.
      * now apply exact_take.
    + apply (final_frame_column_exact sentinel diet_table sleep_table other
               repr_num _ _ st enc b c _ Hfit Henc Hb Hc); try assumption.
      * now rewrite getitem_take_rows, Hwl.
      * now apply exact_take.
    + intros _ t Ht Hxt.
      exact (final_frame_column_exact sentinel diet_table sleep_table other
               repr_num _ _ st enc m c t Hfit Henc Hm Hc Ht Hn Hplain Hxt).
Qed.

Lemma saved_rows_are_the_split_rows_witness :
  exists sv,
    notebook.save_run 0%Q fixtures.diet_table fixtures.sleep_table "Other"
      fixtures.repr_num fixtures.train_csv fixtures.X_val [0; 2; 3] [1]
    = Ok sv /\
    pd.getitem (notebook.processed_train sv) "Age"
    = Ok [fixtures.n 21; fixtures.n 19; fixtures.n 44] /\
    pd.getitem (notebook.processed_val sv) "Age" = Ok [fixtures.n 35].
Proof.
  assert (Hn : ~ In "Age" (notebook.written_cols ++ notebook.categorical_cols)).
  { intros Hin. vm_compute in Hin.
    repeat (destruct Hin as [Hin | Hin]; [discriminate Hin |]).
    exact Hin. }
  assert (Hplain : notebook.plain_name "Age").
  { intros cc Hcc. unfold notebook.categorical_cols in Hcc. simpl in Hcc.
    repeat (destruct Hcc as [<- | Hcc]; [reflexivity |]). destruct Hcc. }
  eexists.
  edestruct (fun sv Hsave =>
               saved_rows_are_the_split_rows
                 0%Q fixtures.diet_table fixtures.sleep_table "Other"
                 fixtures.repr_num fixtures.train_csv fixtures.X_val
                 [0; 2; 3] [1] sv "Age"
                 [fixtures.n 21; fixtures.n 35; fixtures.n 19; fixtures.n 44]
                 Hsave eq_refl Hn Hplain (or_intror eq_refl))
    as (Ht & Hv & _);
    [ vm_compute; reflexivity | ].
  split; [vm_compute; reflexivity |].
  split; [exact Ht | exact Hv].
Defined.

(** ** The feature schema, column by column *)

Section SchemaColumns.

Import sklearn notebook.

Variable sentinel : Q.
Variable diet_table sleep_table : list (string * string).
Variable other : string.
Variable repr_num : Q -> string.

Lemma feature_names_block (cols : list string) (cats : list (list cell))
      (j : nat) (c : string) (ks : list cell) (p : nat) (k : cell) :
  nth_error cols j = Some c -> nth_error cats j = Some ks ->
  nth_error ks p = Some k ->
  nth_error (OneHotEncoder_feature_names repr_num cols cats)
            (block_offset cats j + p)
  = Some (c ++ "_" ++ repr repr_num k)%string.
Proof.
  unfold OneHotEncoder_feature_names.
  revert cats j. induction cols as [| c0 cs IH]; intros cats j Hc Hk Hp.
  - destruct j; discriminate.
  - destruct cats as [| k0 ks0]; [destruct j; discriminate |].
    simpl. destruct j as [| j]; simpl in Hc, Hk.
    + injection Hc as ->. injection Hk as ->.
      unfold block_offset. simpl.
      rewrite nth_error_app1
        by (rewrite length_map; apply nth_error_Some; congruence).
      now rewrite nth_error_map, Hp.
    + unfold block_offset. simpl. rewrite length_app.
      fold (block_offset ks0 j).
      rewrite nth_error_app2 by (rewrite length_map; lia).
      rewrite length_map.
      replace (length k0 + block_offset ks0 j + p - length k0)
        with (block_offset ks0 j + p) by lia.
      exact (IH ks0 j Hc Hk Hp).
Qed.

Lemma passthrough_nth (cols : list string) (X : DataFrame)
      (rest : list Series) (q : nat) (r : string) :
  passthrough cols X = Ok rest -> nth_error cols q = Some r ->
  exists s, pd.getitem X r = Ok s /\ nth_error rest q = Some s.
Proof.
  revert rest q. induction cols as [| c0 cs IH]; intros rest q H Hq.
  - destruct q; discriminate.
  - simpl in H. destruct (pd.getitem X c0) as [s0 |] eqn:E0;
      [| discriminate].
    cbn [bind] in H.
    destruct (passthrough cs X) as [t |] eqn:Er; [| discriminate].
    cbn [bind] in H. injection H as <-.
    destruct q as [| q]; simpl in Hq.
    + injection Hq as <-. now exists s0.
    + exact (IH t q eq_refl Hq).
Qed.

Lemma encode_all_column (hu : handle_unknown) (cols : list string)
      (cats : list (list cell)) (X : DataFrame) (blocks : list Series)
      (j : nat) (c : string) (ks : list cell) :
  encode_all hu cols cats X = Ok blocks ->
  nth_error cols j = Some c -> nth_error cats j = Some ks ->
  exists s, pd.getitem X c = Ok s.
Proof.
  revert cats blocks j.
  induction cols as [| c0 cs IH]; intros cats blocks j H Hc Hk.
  - destruct j; discriminate.
  - destruct cats as [| k0 ks0]; [destruct j; discriminate |].
    simpl in H. destruct (pd.getitem X c0) as [s0 |] eqn:E0;
      [| discriminate].
    cbn [bind] in H.
    destruct (OneHotEncoder_transform_column hu k0 s0); [| discriminate].
    cbn [bind] in H.
    destruct (encode_all hu cs ks0 X) as [rest |] eqn:Er; [| discriminate].
    destruct j as [| j]; simpl in Hc, Hk.
    + injection Hc as <-. now exists s0.
    + exact (IH ks0 rest j Er Hc Hk).
Qed.

(** What the columns of the encoder's output are, position by
    position. *)
Lemma schema_columns (hu : handle_unknown) (cols : list string)
      (enc : ColumnTransformer_state) (X : DataFrame) (m : list Series) :
  ColumnTransformer_transform hu cols enc X = Ok m ->
  (forall j c ks p k,
      nth_error cols j = Some c ->
      nth_error (categories_ enc) j = Some ks ->
      nth_error ks p = Some k ->
      exists s,
        pd.getitem X c = Ok s /\
        nth_error (OneHotEncoder_feature_names repr_num cols
                     (categories_ enc) ++ remainder_ enc)
                  (block_offset (categories_ enc) j + p)
        = Some (c ++ "_" ++ repr repr_num k)%string /\
        nth_error m (block_offset (categories_ enc) j + p)
        = Some (map (indicator k) s)) /\
  (forall q r,
      nth_error (remainder_ enc) q = Some r ->
      exists s,
        pd.getitem X r = Ok s /\
        nth_error (OneHotEncoder_feature_names repr_num cols
                     (categories_ enc) ++ remainder_ enc)
                  (length (OneHotEncoder_feature_names repr_num cols
                             (categories_ enc)) + q)
        = Some r /\
        (nth_error m (length (OneHotEncoder_feature_names repr_num cols
                                (categories_ enc)) + q)
         = Some s \/
         nth_error m (length (OneHotEncoder_feature_names repr_num cols
                                (categories_ enc)) + q)
         = Some (map np.astype_float64 s))).
Proof.
  intros Ht.
  destruct (transform_ok_parts _ _ _ _ _ Ht) as (blocks & rest & Hb & Hr & ->).
  pose proof (encode_all_length repr_num _ _ _ _ _ Hb) as Hlen.
  split.
  - intros j c ks p k Hc Hk Hp.
    destruct (encode_all_column _ _ _ _ _ j c ks Hb Hc Hk) as [s Hs].
    exists s. split; [exact Hs |].
    pose proof (feature_names_block cols (categories_ enc) j c ks p k
                  Hc Hk Hp) as Hname.
    assert (Hlt : block_offset (categories_ enc) j + p
                  < length (OneHotEncoder_feature_names repr_num cols
                              (categories_ enc)))
      by (apply nth_error_Some; congruence).
    split.
    + rewrite nth_error_app1 by exact Hlt. exact Hname.
    + rewrite nth_error_app1 by (rewrite Hlen; exact Hlt).
      rewrite (encode_all_block hu cols (categories_ enc) X blocks
                 j c ks s p Hb Hc Hk Hs)
        by (apply nth_error_Some; congruence).
      unfold one_hot. now rewrite nth_error_map, Hp.
  - intros q r Hq.
    destruct (passthrough_nth _ _ _ q r Hr Hq) as (s & Hs & Hn).
    exists s. split; [exact Hs |]. split.
    + rewrite nth_error_app2 by lia.
      replace (length (OneHotEncoder_feature_names repr_num cols
                         (categories_ enc)) + q
               - length (OneHotEncoder_feature_names repr_num cols
                           (categories_ enc)))
        with q by lia.
      exact Hq.
    + rewrite <- Hlen.
      rewrite !nth_error_app2 by lia.
      replace (length blocks + q - length blocks) with q by lia.
      destruct (stacked_cases rest) as [E | E]; rewrite E.
      * now left.
      * right. exact (map_nth_error (map np.astype_float64) q rest Hn).
Qed.

Lemma encoder_input_stages (st : store) (X : DataFrame)
      (m : list Series) :
  transform_stages sentinel diet_table sleep_table other st X = Ok m ->
  exists X7 enc,
    encoder_input sentinel diet_table sleep_table other st X = Ok X7 /\
    encode_ st = Some enc /\
    ColumnTransformer_transform hu_ignore categorical_cols enc X7 = Ok m.
Proof.
  intros Hm.
  destruct (transform_stages_inv _ _ _ _ _ _ _ Hm)
    as (X1 & X2 & X3 & X4 & X5 & X6 & X7 & enc &
        E1 & E2 & E3 & E4 & E5 & E6 & E7 & Henc & E8).
  exists X7, enc. split; [| split; assumption].
  unfold encoder_input.
  rewrite E1. cbn [bind]. rewrite E2. cbn [bind].
  rewrite E3. cbn [bind]. rewrite E4. cbn [bind].
  rewrite E5. cbn [bind]. rewrite E6. cbn [bind]. exact E7.
Qed.

End SchemaColumns.

(** C5.  Whatever data set [transform] is applied to, when it returns
    it returns a matrix laid out as the schema the fitted encoder
    fixes, a list of names that depends on the fitted state only: the
    matrix has as many columns as the schema has names; at the position
    of the name [c_k] it has the indicator of the learned value [k] in
    the encoded column [c], and at the position of a remainder name it
    has that column, as it reaches the encoder (as [float64] when the
    remainder holds no text).  Two data sets give matrices of the same
    width.  In the notebook the names given to the three final frames
    are this schema, in its order, laid over the three matrices
    [transform] returned. *)
Theorem feature_schema_fixed :
  forall (sentinel : Q) (diet_table sleep_table : list (string * string))
         (other : string) (repr_num : Q -> string),
    let P := notebook.preprocessor sentinel diet_table sleep_table other in
    (forall (st st' : sklearn.store) (X : DataFrame) (d : sklearn.data),
        sklearn.Pipeline_transform P (sklearn.Frame X) st = (Ok d, st') ->
        exists enc m X7,
          sklearn.encode_ st = Some enc /\ d = sklearn.Matrix m /\
          notebook.encoder_input sentinel diet_table sleep_table other st X
          = Ok X7 /\
          length m = length (notebook.feature_schema repr_num enc) /\
          (forall j c ks p k,
              nth_error notebook.categorical_cols j = Some c ->
              nth_error (sklearn.categories_ enc) j = Some ks ->
              nth_error ks p = Some k ->
              exists s,
                pd.getitem X7 c = Ok s /\
                nth_error (notebook.feature_schema repr_num enc)
                  (notebook.block_offset (sklearn.categories_ enc) j + p)
                = Some (c ++ "_" ++ sklearn.repr repr_num k)%string /\
                nth_error m
                  (notebook.block_offset (sklearn.categories_ enc) j + p)
                = Some (map (sklearn.indicator k) s)) /\
          (forall q r,
              nth_error (sklearn.remainder_ enc) q = Some r ->
              exists s,
                pd.getitem X7 r = Ok s /\
                nth_error (notebook.feature_schema repr_num enc)
                  (length (notebook.cat_features repr_num enc) + q)
                = Some r /\
                (nth_error m
                   (length (notebook.cat_features repr_num enc) + q)
                 = Some s \/
                 nth_error m
                   (length (notebook.cat_features repr_num enc) + q)
                 = Some (map np.astype_float64 s)))) /\
    (forall (st s1 s2 : sklearn.store) (X1 X2 : DataFrame)
            (m1 m2 : list Series),
        sklearn.Pipeline_transform P (sklearn.Frame X1) st
        = (Ok (sklearn.Matrix m1), s1) ->
        sklearn.Pipeline_transform P (sklearn.Frame X2) st
        = (Ok (sklearn.Matrix m2), s2) ->
        length m1 = length m2) /\
    (forall (train test : DataFrame) (train_idx val_idx : list nat)
            (out : notebook.outputs),
        notebook.run sentinel diet_table sleep_table other repr_num
          train test train_idx val_idx = Ok out ->
        (pd.columns (notebook.final_train out) = notebook.features out /\
         pd.columns (notebook.final_val out) = notebook.features out /\
         pd.columns (notebook.final_test out) = notebook.features out) /\
        exists st enc a b c,
          sklearn.Pipeline_fit P
            (sklearn.Frame
               (pd.take_rows train_idx (notebook.without_label train)))
            sklearn.unfitted = (Ok tt, st) /\
          sklearn.encode_ st = Some enc /\
          notebook.features out = notebook.feature_schema repr_num enc /\
          sklearn.Pipeline_transform P
            (sklearn.Frame
               (pd.take_rows train_idx (notebook.without_label train))) st
          = (Ok (sklearn.Matrix a), st) /\
          sklearn.Pipeline_transform P
            (sklearn.Frame
               (pd.take_rows val_idx (notebook.without_label train))) st
          = (Ok (sklearn.Matrix b), st) /\
          sklearn.Pipeline_transform P (sklearn.Frame test) st
          = (Ok (sklearn.Matrix c), st) /\
          notebook.final_train out = combine (notebook.features out) a /\
          notebook.final_val out = combine (notebook.features out) b /\
          notebook.final_test out = combine (notebook.features out) c).
Proof.
  intros sentinel diet_table sleep_table other repr_num P.
  split; [| split].
  - intros st st' X d H.
    destruct (Pipeline_transform_ok _ _ _ _ _ _ _ _ H) as (m & -> & _ & Hm).
    destruct (encoder_input_stages _ _ _ _ _ _ _ Hm)
      as (X7 & enc & Hin & Henc & Ht).
    exists enc, m, X7.
    split; [exact Henc |]. split; [reflexivity |]. split; [exact Hin |].
    split; [exact (transform_width repr_num _ enc _ _ Ht) |].
    exact (schema_columns repr_num _ _ _ _ _ Ht).
  - intros st s1 s2 X1 X2 m1 m2 H1 H2.
    destruct (Pipeline_transform_matrix sentinel diet_table sleep_table other
                repr_num X1 st s1 _ H1) as [e1 [n1 [He1 [Hd1 [Hl1 _]]]]].
    destruct (Pipeline_transform_matrix sentinel diet_table sleep_table other
                repr_num X2 st s2 _ H2) as [e2 [n2 [He2 [Hd2 [Hl2 _]]]]].
    injection Hd1 as <-. injection Hd2 as <-.
    assert (e1 = e2) by congruence. subst e2. congruence.
  - intros train test train_idx val_idx out Hrun. split.
    + revert Hrun. unfold notebook.run.
      destruct (notebook.split_cell train_idx val_idx
                  (notebook.loaded train test)) as [ky |]; [| discriminate].
      cbn [bind].
      destruct (notebook.transform_cell sentinel diet_table sleep_table
                  other repr_num (fst ky) (fst (snd (snd ky)))
                  (snd (snd (snd ky))) sklearn.unfitted) as [r st] eqn:E.
      simpl. intros ->.
      exact (transform_cell_columns sentinel diet_table sleep_table other
               repr_num _ _ _ _ _ _ E).
    + destruct (run_frames _ _ _ _ _ _ _ _ _ _ Hrun)
        as (st & enc & a & b & c & Hfit & Henc & Ha & Hb & Hc & Hf & _ &
            [_ Fa] & [_ Fb] & [_ Fc] & _).
      exists st, enc, a, b, c.
      split.
      { pose proof (Pipeline_fit_cases sentinel diet_table sleep_table
                      other
                      (pd.take_rows train_idx
                         (notebook.without_label train))
                      sklearn.unfitted) as Hpf.
        now rewrite Hfit in Hpf. }
      split; [exact Henc |]. split; [exact Hf |].
      unfold P. rewrite !Pipeline_transform_preprocessor, Ha, Hb, Hc.
      repeat split; assumption.
Qed.

Lemma feature_schema_fixed_witness :
  exists out,
    notebook.run 0%Q fixtures.diet_table fixtures.sleep_table "Other"
      fixtures.repr_num fixtures.train_csv fixtures.X_val [0; 2; 3] [1]
    = Ok out /\
    pd.columns (notebook.final_train out) = notebook.features out /\
    pd.columns (notebook.final_val out) = notebook.features out /\
    pd.columns (notebook.final_test out) = notebook.features out.
Proof.
  eexists. split; [vm_compute; reflexivity |].
  refine (proj1 (proj2 (proj2 (feature_schema_fixed
                                 0%Q fixtures.diet_table fixtures.sleep_table
                                 "Other" fixtures.repr_num))
                   fixtures.train_csv fixtures.X_val [0; 2; 3] [1] _ _)).
  vm_compute. reflexivity.
Defined.

(** ** Frames a fitted pipeline accepts *)

Section Accepts.

Import sklearn notebook.

Variable sentinel : Q.
Variable diet_table sleep_table : list (string * string).
Variable other : string.

Lemma has_column_setitem_iff (X : DataFrame) (c t : string) (s : Series) :
  pd.has_column c (pd.setitem X t s) = true
  <-> pd.has_column c X = true \/ c = t.
Proof.
  unfold pd.has_column at 1. rewrite columns_setitem, mem_str_true, in_app_iff.
  fold (pd.has_column c X). unfold pd.has_column at 2.
  rewrite mem_str_true.
  destruct (pd.has_column t X) eqn:Et; simpl; split.
  - intros [H | []]. now left.
  - intros [H | ->]; [now left |].
    left. unfold pd.has_column in Et. now apply mem_str_true.
  - intros [H | [<- | []]]; [now left | now right].
  - intros [H | ->]; [now left | right; now left].
Qed.

Lemma has_column_filter_iff (keep : string -> bool) (X : DataFrame)
      (c : string) :
  pd.has_column c (filter (fun p => keep (fst p)) X) = true
  <-> pd.has_column c X = true /\ keep c = true.
Proof.
  unfold pd.has_column. rewrite columns_filter, !mem_str_true.
  apply filter_In.
Qed.

Lemma covers_getitem (A B : DataFrame) (c : string) (s : Series) :
  covers A B -> pd.getitem A c = Ok s -> exists s', pd.getitem B c = Ok s'.
Proof.
  intros Hcov E. apply has_column_getitem. apply Hcov.
  apply has_column_getitem. now exists s.
Qed.

Lemma covers_setitem (A B : DataFrame) (t : string) (s s' : Series) :
  covers A B -> covers (pd.setitem A t s) (pd.setitem B t s').
Proof.
  intros Hcov c Hc. apply has_column_setitem_iff in Hc.
  apply has_column_setitem_iff.
  destruct Hc as [Hc | ->]; [left; now apply Hcov | now right].
Qed.

Lemma covers_assign_unified (target a w : string) (A B A' : DataFrame) :
  covers A B ->
  preprocess.assign_unified target a w A = Ok A' ->
  exists B', preprocess.assign_unified target a w B = Ok B' /\ covers A' B'.
Proof.
  unfold preprocess.assign_unified. intros Hcov.
  destruct (pd.getitem A status_col) as [ks |] eqn:Ek; [| discriminate].
  cbn [bind].
  destruct (pd.getitem A a) as [sa |] eqn:Ea; [| discriminate]. cbn [bind].
  destruct (pd.getitem A w) as [sw |] eqn:Ew; [| discriminate]. cbn [bind].
  intros H. injection H as <-.
  destruct (covers_getitem A B _ _ Hcov Ek) as [ks' ->].
  destruct (covers_getitem A B _ _ Hcov Ea) as [sa' ->].
  destruct (covers_getitem A B _ _ Hcov Ew) as [sw' ->].
  cbn [bind]. eexists. split; [reflexivity |]. now apply covers_setitem.
Qed.

Lemma covers_impute_columns (st : preprocess.GroupStatistic)
      (cols : list string) (keys keys' : Series) (A B A' : DataFrame) :
  covers A B ->
  preprocess.impute_columns st keys cols A = Ok A' ->
  exists B', preprocess.impute_columns st keys' cols B = Ok B' /\
             covers A' B'.
Proof.
  revert A B. induction cols as [| c cs IH]; intros A B Hcov H.
  - simpl in H. injection H as <-. now exists B.
  - simpl in H. destruct (pd.getitem A c) as [s |] eqn:E; [| discriminate].
    cbn [bind] in H. simpl.
    destruct (covers_getitem A B _ _ Hcov E) as [s' ->]. cbn [bind].
    apply (IH _ _ (covers_setitem A B c _ _ Hcov) H).
Qed.

Lemma covers_GroupImputer_transform (cols : list string)
      (stat : preprocess.GroupStatistic) (A B A' : DataFrame) :
  covers A B ->
  preprocess.GroupImputer_transform cols (Some stat) A = Ok A' ->
  exists B', preprocess.GroupImputer_transform cols (Some stat) B = Ok B' /\
             covers A' B'.
Proof.
  unfold preprocess.GroupImputer_transform. intros Hcov.
  destruct (pd.getitem A status_col) as [ks |] eqn:Ek; [| discriminate].
  cbn [bind]. intros H.
  destruct (covers_getitem A B _ _ Hcov Ek) as [ks' ->]. cbn [bind].
  exact (covers_impute_columns stat cols ks ks' A B A' Hcov H).
Qed.

Lemma covers_add_pressure_ratio (A B A' : DataFrame) :
  covers A B ->
  preprocess.add_pressure_ratio sentinel A = Ok A' ->
  exists B', preprocess.add_pressure_ratio sentinel B = Ok B' /\
             covers A' B'.
Proof.
  unfold preprocess.add_pressure_ratio. intros Hcov.
  destruct (pd.getitem A "Pressure") as [p |] eqn:Ep; [| discriminate].
  cbn [bind].
  destruct (pd.getitem A "Satisfaction") as [s |] eqn:Es; [| discriminate].
  cbn [bind]. intros H. injection H as <-.
  destruct (covers_getitem A B _ _ Hcov Ep) as [p' ->].
  destruct (covers_getitem A B _ _ Hcov Es) as [s' ->].
  cbn [bind]. eexists. split; [reflexivity |]. now apply covers_setitem.
Qed.

Lemma covers_normalize_column (table : list (string * string))
      (c : string) (A B A' : DataFrame) :
  covers A B ->
  preprocess.normalize_column other table c A = Ok A' ->
  exists B', preprocess.normalize_column other table c B = Ok B' /\
             covers A' B'.
Proof.
  unfold preprocess.normalize_column. intros Hcov.
  destruct (pd.getitem A c) as [s |] eqn:E; [| discriminate]. cbn [bind].
  intros H. injection H as <-.
  destruct (covers_getitem A B _ _ Hcov E) as [s' ->].
  cbn [bind]. eexists. split; [reflexivity |]. now apply covers_setitem.
Qed.

Lemma covers_drop (labels : list string) (A B A' : DataFrame) :
  covers A B -> pd.drop A labels = Ok A' ->
  exists B', pd.drop B labels = Ok B' /\ covers A' B'.
Proof.
  unfold pd.drop. intros Hcov.
  destruct (pd.first_absent labels A) eqn:EA; [discriminate |].
  intros H. injection H as <-.
  assert (pd.first_absent labels B = None) as ->.
  { apply first_absent_none. intros l Hl. apply Hcov.
    exact (proj1 (first_absent_none labels A) EA l Hl). }
  eexists. split; [reflexivity |].
  intros c Hc.
  apply (has_column_filter_iff (fun k => negb (mem_str k labels))) in Hc.
  apply (has_column_filter_iff (fun k => negb (mem_str k labels))).
  destruct Hc as [Hc Hk]. split; [now apply Hcov | exact Hk].
Qed.

(** *** Columns of numbers *)

Lemma numeric_forall (s : Series) :
  np.numeric s = true <-> forall c, In c s -> is_text c = false.
Proof.
  unfold np.numeric. rewrite negb_true_iff. split.
  - intros H c Hc. destruct (is_text c) eqn:E; [| reflexivity].
    assert (existsb is_text s = true)
      by (apply existsb_exists; now exists c).
    congruence.
  - intros H. destruct (existsb is_text s) eqn:E; [| reflexivity].
    apply existsb_exists in E as [c [Hc Ht]]. rewrite (H c Hc) in Ht.
    discriminate Ht.
Qed.

Lemma coalesce_numeric (status a w : Series) :
  np.numeric a = true -> np.numeric w = true ->
  np.numeric (preprocess.coalesce status a w) = true.
Proof.
  rewrite !numeric_forall. intros Ha Hw.
  revert status w Hw. induction a as [| x xs IH]; intros status w Hw c Hc;
    [destruct Hc |].
  simpl in Hc. destruct Hc as [<- | Hc].
  - assert (Hx : is_text x = false) by (apply Ha; now left).
    assert (Hh : is_text (hd NaN w) = false)
      by (destruct w as [| y ys]; [reflexivity | apply Hw; now left]).
    unfold preprocess.coalesce_cell.
    destruct (is_missing x), (is_missing (hd NaN w)),
      (cell_eqb (hd NaN status) (Str "Student")); assumption.
  - apply (IH (fun c' H => Ha c' (or_intror H)) (tl status) (tl w));
      [| exact Hc].
    intros c' H'. apply Hw. destruct w; [destruct H' | now right].
Qed.

Lemma fill_series_numeric (st : preprocess.GroupStatistic) (col : string)
      (keys vals : Series) :
  np.numeric vals = true ->
  np.numeric (preprocess.fill_series st col keys vals) = true.
Proof.
  rewrite !numeric_forall. revert keys.
  induction vals as [| v vs IH]; intros keys Hv c Hc; [destruct Hc |].
  simpl in Hc. destruct Hc as [<- | Hc].
  - destruct (is_missing v).
    + unfold preprocess.fill_value.
      destruct (preprocess.group_median st (hd NaN keys) col);
        [reflexivity |].
      unfold preprocess.cell_of.
      now destruct (preprocess.fallback_median st col).
    + apply Hv. now left.
  - exact (IH (tl keys) (fun c' H => Hv c' (or_intror H)) c Hc).
Qed.

Lemma astype_numeric (s : Series) :
  np.numeric s = true -> np.numeric (map np.astype_float64 s) = true.
Proof.
  rewrite !numeric_forall. intros H c Hc.
  apply in_map_iff in Hc as [c0 [<- Hc0]].
  specialize (H c0 Hc0). now destruct c0.
Qed.

Lemma one_hot_numeric (ks : list cell) (s : Series) :
  Forall (fun col => np.numeric col = true) (one_hot ks s).
Proof.
  unfold one_hot. apply Forall_forall. intros col Hc.
  apply in_map_iff in Hc as [k [<- _]].
  apply numeric_forall. intros c Hc.
  apply in_map_iff in Hc as [v [<- _]].
  unfold indicator. now destruct (cell_eqb v k).
Qed.

Lemma encode_all_numeric (hu : handle_unknown) (cols : list string)
      (cats : list (list cell)) (X : DataFrame) (blocks : list Series) :
  encode_all hu cols cats X = Ok blocks ->
  Forall (fun col => np.numeric col = true) blocks.
Proof.
  revert cats blocks. induction cols as [| c cs IH]; intros cats blocks H.
  - simpl in H. injection H as <-. constructor.
  - destruct cats as [| k ks]; simpl in H; [injection H as <-; constructor |].
    destruct (pd.getitem X c) as [s |]; [| discriminate]. cbn [bind] in H.
    destruct (OneHotEncoder_transform_column hu k s) as [block |] eqn:Eb;
      [| discriminate].
    cbn [bind] in H.
    destruct (encode_all hu cs ks X) as [rest |] eqn:Er; [| discriminate].
    cbn [bind] in H. injection H as <-.
    apply Forall_app. split; [| exact (IH ks rest Er)].
    rewrite (transform_column_ok hu k s block Eb). apply one_hot_numeric.
Qed.

Lemma passthrough_numeric (T cols : list string) (X : DataFrame)
      (rest : list Series) :
  numeric_outside T X -> (forall c, In c cols -> ~ In c T) ->
  passthrough cols X = Ok rest ->
  Forall (fun col => np.numeric col = true) rest.
Proof.
  intros HX. revert rest. induction cols as [| c cs IH]; intros rest Hc H.
  - simpl in H. injection H as <-. constructor.
  - simpl in H. destruct (pd.getitem X c) as [s |] eqn:E; [| discriminate].
    cbn [bind] in H.
    destruct (passthrough cs X) as [r |] eqn:Er; [| discriminate].
    cbn [bind] in H. injection H as <-.
    constructor; [exact (HX c s E (Hc c (or_introl eq_refl))) |].
    exact (IH r (fun c' H' => Hc c' (or_intror H')) eq_refl).
Qed.

Lemma stacked_numeric (rest : list Series) :
  Forall (fun col => np.numeric col = true) rest ->
  Forall (fun col => np.numeric col = true) (np.stacked rest).
Proof.
  intros H. destruct (stacked_cases rest) as [E | E]; rewrite E;
    [exact H |].
  apply Forall_forall. intros col Hc.
  apply in_map_iff in Hc as [s [<- Hs]]. apply astype_numeric.
  exact (proj1 (Forall_forall _ rest) H s Hs).
Qed.

Lemma numeric_outside_setitem (T : list string) (X : DataFrame)
      (c : string) (s : Series) :
  numeric_outside T X -> (In c T \/ np.numeric s = true) ->
  numeric_outside T (pd.setitem X c s).
Proof.
  intros HX Hs c' s' Hg Hn.
  destruct (String.eqb c' c) eqn:E.
  - apply String.eqb_eq in E. subst c'.
    rewrite getitem_setitem_same in Hg. injection Hg as <-.
    destruct Hs as [Hs | Hs]; [contradiction | exact Hs].
  - apply String.eqb_neq in E.
    rewrite getitem_setitem_other in Hg by exact E.
    exact (HX c' s' Hg Hn).
Qed.

Lemma source_cols_numeric (c : string) :
  In c [ "Academic Pressure"; "Work Pressure"; "Study Satisfaction";
         "Job Satisfaction"; "Pressure"; "Satisfaction";
         "Financial Stress" ] ->
  ~ In c text_cols.
Proof.
  intros Hc Hin. unfold text_cols, categorical_cols in Hin. simpl in Hc, Hin.
  repeat (destruct Hc as [<- | Hc];
          [repeat (destruct Hin as [Hin | Hin]; [discriminate Hin |]);
           exact Hin |]).
  exact Hc.
Qed.

Lemma numeric_outside_assign_unified (target a w : string)
      (X X' : DataFrame) :
  ~ In a text_cols -> ~ In w text_cols ->
  numeric_outside text_cols X ->
  preprocess.assign_unified target a w X = Ok X' ->
  numeric_outside text_cols X'.
Proof.
  unfold preprocess.assign_unified. intros Ha Hw HX.
  destruct (pd.getitem X status_col) as [ks |]; [| discriminate].
  cbn [bind].
  destruct (pd.getitem X a) as [sa |] eqn:Ea; [| discriminate]. cbn [bind].
  destruct (pd.getitem X w) as [sw |] eqn:Ew; [| discriminate]. cbn [bind].
  intros H. injection H as <-. apply numeric_outside_setitem; [exact HX |].
  right. apply coalesce_numeric; [exact (HX a sa Ea Ha) |].
  exact (HX w sw Ew Hw).
Qed.

Lemma numeric_outside_impute_columns (st : preprocess.GroupStatistic)
      (keys : Series) (cols : list string) (X X' : DataFrame) :
  (forall c, In c cols -> ~ In c text_cols) ->
  numeric_outside text_cols X ->
  preprocess.impute_columns st keys cols X = Ok X' ->
  numeric_outside text_cols X'.
Proof.
  revert X. induction cols as [| c cs IH]; intros X Hc HX H.
  - simpl in H. now injection H as <-.
  - simpl in H. destruct (pd.getitem X c) as [s |] eqn:E; [| discriminate].
    cbn [bind] in H.
    apply (IH _ (fun c' H' => Hc c' (or_intror H'))
              (numeric_outside_setitem _ X c _ HX
                 (or_intror (fill_series_numeric st c keys s
                               (HX c s E (Hc c (or_introl eq_refl))))))
              H).
Qed.

Lemma numeric_outside_filter (keep : string -> bool) (X : DataFrame) :
  numeric_outside text_cols X ->
  numeric_outside text_cols (filter (fun p => keep (fst p)) X).
Proof.
  intros HX c s Hg Hn.
  destruct (keep c) eqn:Ek.
  - rewrite (getitem_filter keep X c Ek) in Hg. exact (HX c s Hg Hn).
  - rewrite (getitem_filter_out keep X c Ek) in Hg. discriminate Hg.
Qed.

(** The frame that reaches the encoder holds text in the text columns
    only. *)
Lemma numeric_before_encoder
      (fitted : option preprocess.GroupStatistic)
      (X X1 X2 X3 X4 X5 X6 X7 : DataFrame) :
  preprocess.assign_pressure X = Ok X1 ->
  preprocess.assign_satisfaction X1 = Ok X2 ->
  preprocess.GroupImputer_transform impute_cols fitted X2 = Ok X3 ->
  preprocess.add_pressure_ratio sentinel X3 = Ok X4 ->
  preprocess.replace_diet_habits diet_table other X4 = Ok X5 ->
  preprocess.replace_sleep_duration sleep_table other X5 = Ok X6 ->
  pd.drop X6 drop_cols = Ok X7 ->
  numeric_outside text_cols X ->
  numeric_outside text_cols X7.
Proof.
  intros E1 E2 E3 E4 E5 E6 E7 H0.
  assert (Hsrc := source_cols_numeric).
  pose proof (numeric_outside_assign_unified _ _ _ _ _
                (Hsrc _ (or_introl eq_refl))
                (Hsrc _ (or_intror (or_introl eq_refl))) H0 E1) as H1.
  pose proof (numeric_outside_assign_unified _ _ _ _ _
                (Hsrc _ (or_intror (or_intror (or_introl eq_refl))))
                (Hsrc _ (or_intror (or_intror (or_intror
                                                 (or_introl eq_refl)))))
                H1 E2) as H2.
  assert (H3 : numeric_outside text_cols X3).
  { unfold preprocess.GroupImputer_transform in E3.
    destruct fitted as [stat |]; [| discriminate].
    destruct (pd.getitem X2 status_col) as [keys |]; [| discriminate].
    cbn [bind] in E3.
    apply (numeric_outside_impute_columns stat keys impute_cols X2 X3);
      [| exact H2 | exact E3].
    intros c Hc. apply Hsrc. unfold impute_cols in Hc. simpl in Hc. simpl.
    destruct Hc as [<- | [<- | [<- | []]]]; auto 8. }
  assert (H4 : numeric_outside text_cols X4).
  { unfold preprocess.add_pressure_ratio in E4.
    destruct (pd.getitem X3 "Pressure") as [p |]; [| discriminate].
    cbn [bind] in E4.
    destruct (pd.getitem X3 "Satisfaction") as [q |]; [| discriminate].
    cbn [bind] in E4. injection E4 as <-.
    apply numeric_outside_setitem; [exact H3 |].
    right. apply ratio_series_numeric. }
  assert (Hnorm : forall table col A A',
             In col text_cols -> numeric_outside text_cols A ->
             preprocess.normalize_column other table col A = Ok A' ->
             numeric_outside text_cols A').
  { intros table col A A' Hcol HA. unfold preprocess.normalize_column.
    destruct (pd.getitem A col) as [sc |]; [| discriminate]. cbn [bind].
    intros H. injection H as <-.
    apply numeric_outside_setitem; [exact HA | now left]. }
  assert (H5 : numeric_outside text_cols X5).
  { apply (Hnorm diet_table "Dietary Habits" X4 X5); [| exact H4 | exact E5].
    unfold text_cols, categorical_cols. simpl. auto 8. }
  assert (H6 : numeric_outside text_cols X6).
  { apply (Hnorm sleep_table "Sleep Duration" X5 X6); [| exact H5 | exact E6].
    unfold text_cols, categorical_cols. simpl. auto 8. }
  unfold pd.drop in E7.
  destruct (pd.first_absent drop_cols X6); [discriminate |].
  injection E7 as <-.
  exact (numeric_outside_filter (fun n => negb (mem_str n drop_cols)) X6 H6).
Qed.

(** *** The encoded columns as they reach the encoder *)

Lemma normalized_text (table : list (string * string)) (s : Series) :
  s <> [] -> existsb is_text (map (preprocess.normalize_cell other table) s)
             = true.
Proof.
  destruct s as [| v vs]; [congruence |]. intros _. simpl.
  unfold preprocess.normalize_cell at 1.
  destruct v as [q | t |]; [reflexivity | | reflexivity].
  now destruct (preprocess.lookup t table).
Qed.

Lemma normalize_column_same (table : list (string * string))
      (col : string) (X X' : DataFrame) :
  preprocess.normalize_column other table col X = Ok X' ->
  exists s,
    pd.getitem X col = Ok s /\
    pd.getitem X' col = Ok (map (preprocess.normalize_cell other table) s).
Proof.
  unfold preprocess.normalize_column.
  destruct (pd.getitem X col) as [s |]; [| discriminate]. cbn [bind].
  intros H. injection H as <-. exists s. split; [reflexivity |].
  apply getitem_setitem_same.
Qed.

Lemma raw_categorical_untouched (c : string) :
  In c raw_categorical_cols -> ~ In c written_cols.
Proof.
  intros Hc Hin. unfold raw_categorical_cols in Hc.
  unfold written_cols, drop_cols in Hin. simpl in Hc, Hin.
  repeat (destruct Hc as [<- | Hc];
          [repeat (destruct Hin as [Hin | Hin]; [discriminate Hin |]);
           exact Hin |]).
  exact Hc.
Qed.

Lemma categorical_cases (c : string) :
  In c categorical_cols ->
  In c raw_categorical_cols \/ c = "Sleep Duration" \/ c = "Dietary Habits".
Proof.
  unfold categorical_cols, raw_categorical_cols. simpl.
  intros [<- | [<- | [<- | [<- | [<- | [<- | []]]]]]]; auto 8.
Qed.

(** With a row in each column and text in the encoded columns no step
    rewrites, the encoder takes every encoded column. *)
Lemma encodable_before_encoder
      (fitted : option preprocess.GroupStatistic)
      (cats : list (list cell)) (n : nat)
      (X X1 X2 X3 X4 X5 X6 X7 : DataFrame) :
  preprocess.assign_pressure X = Ok X1 ->
  preprocess.assign_satisfaction X1 = Ok X2 ->
  preprocess.GroupImputer_transform impute_cols fitted X2 = Ok X3 ->
  preprocess.add_pressure_ratio sentinel X3 = Ok X4 ->
  preprocess.replace_diet_habits diet_table other X4 = Ok X5 ->
  preprocess.replace_sleep_duration sleep_table other X5 = Ok X6 ->
  pd.drop X6 drop_cols = Ok X7 ->
  rectangular n X -> 0 < n ->
  (forall c, In c raw_categorical_cols -> has_text X c = true) ->
  encodable categorical_cols cats X7.
Proof.
  intros E1 E2 E3 E4 E5 E6 E7 HX Hn Htext.
  pose proof (rectangular_assign_unified n _ _ _ _ _ HX E1) as R1.
  pose proof (rectangular_assign_unified n _ _ _ _ _ R1 E2) as R2.
  pose proof (rectangular_GroupImputer_transform n _ _ _ _ R2 E3) as R3.
  pose proof (rectangular_add_pressure_ratio sentinel n _ _ R3 E4) as R4.
  pose proof (rectangular_normalize_column other n _ _ _ _ R4 E5) as R5.
  pose proof (rectangular_normalize_column other n _ _ _ _ R5 E6) as R6.
  pose proof (rectangular_drop n _ _ _ R6 E7) as R7.
  assert (Hrow : forall s : Series, length s = n -> s <> [])
    by (intros s Hl ->; simpl in Hl; lia).
  assert (Hacc : forall ks s,
             length s = n -> existsb is_text s = true ->
             accepts ks s = true).
  { intros ks s Hl Ht. unfold accepts, np.numeric.
    destruct s as [| v vs]; [simpl in Hl; lia |].
    rewrite Ht. simpl. now rewrite andb_false_r. }
  intros c ks s Hin Hs.
  pose proof (rectangular_getitem n X7 c s R7 Hs) as Hlen.
  apply Hacc; [exact Hlen |].
  apply in_combine_l in Hin.
  destruct (categorical_cases c Hin) as [Hraw | [-> | ->]].
  - pose proof (untouched_before_encoder sentinel diet_table sleep_table
                  other _ _ _ _ _ _ _ _ _ c E1 E2 E3 E4 E5 E6 E7
                  (raw_categorical_untouched c Hraw)) as Hsame.
    specialize (Htext c Hraw). unfold has_text in Htext.
    rewrite <- Hsame, Hs in Htext. exact Htext.
  - destruct (normalize_column_same _ _ _ _ E6) as (s5 & H5 & H6).
    rewrite (getitem_drop _ _ _ "Sleep Duration" E7) in Hs
      by (unfold drop_cols; simpl; intros H;
          repeat (destruct H as [H | H]; [discriminate H |]); exact H).
    assert (s = map (preprocess.normalize_cell other sleep_table) s5)
      by congruence.
    subst s. apply normalized_text. apply Hrow.
    rewrite <- Hlen. symmetry. apply length_map.
  - destruct (normalize_column_same _ _ _ _ E5) as (s4 & H4 & H5).
    rewrite (getitem_drop _ _ _ "Dietary Habits" E7) in Hs
      by (unfold drop_cols; simpl; intros H;
          repeat (destruct H as [H | H]; [discriminate H |]); exact H).
    rewrite (normalize_column_getitem _ _ _ _ _ E6 "Dietary Habits") in Hs
      by discriminate.
    assert (s = map (preprocess.normalize_cell other diet_table) s4)
      by congruence.
    subst s. apply normalized_text. apply Hrow.
    rewrite <- Hlen. symmetry. apply length_map.
Qed.

Lemma remainder_not_text (X_fit : DataFrame) (st : store)
      (enc : ColumnTransformer_state) (c : string) :
  fit_stages sentinel diet_table sleep_table other X_fit = Ok st ->
  encode_ st = Some enc ->
  In c (remainder_ enc) -> ~ In c text_cols.
Proof.
  intros Hfit Henc Hc.
  destruct (fit_stages_inv _ _ _ _ _ _ Hfit)
    as (A1 & A2 & stat & A3 & A4 & A5 & A6 & A7 & enc' &
        _ & _ & _ & _ & _ & _ & _ & E7 & E8 & ->).
  simpl in Henc. injection Henc as ->.
  destruct (fit_columns_present _ _ _ E8) as [Hrem _].
  rewrite Hrem, (columns_drop _ _ _ E7) in Hc.
  apply filter_In in Hc as [Hc Hcat].
  apply filter_In in Hc as [_ Hdrop].
  apply negb_true_iff in Hcat, Hdrop.
  apply mem_str_false in Hcat, Hdrop.
  intros Hin. unfold text_cols in Hin.
  apply in_app_or in Hin as [Hin | Hin]; [exact (Hcat Hin) |].
  apply Hdrop. unfold drop_cols. simpl in Hin |- *.
  destruct Hin as [<- | [<- | [<- | [<- | []]]]]; auto 10.
Qed.

Lemma fitted_accepts (X_fit X : DataFrame) (st : store) (n : nat) :
  fit_stages sentinel diet_table sleep_table other X_fit = Ok st ->
  covers X_fit X ->
  rectangular n X -> 0 < n ->
  (forall c, In c raw_categorical_cols -> has_text X c = true) ->
  numeric_outside text_cols X ->
  exists m,
    transform_stages sentinel diet_table sleep_table other st X = Ok m /\
    Forall (fun col => np.numeric col = true) m.
Proof.
  intros Hfit Hcov HX Hn Htext Hnum.
  assert (Hrem := fun enc c =>
            remainder_not_text X_fit st enc c Hfit).
  destruct (fit_stages_inv _ _ _ _ _ _ Hfit)
    as (A1 & A2 & stat & A3 & A4 & A5 & A6 & A7 & enc &
        E1 & E2 & _ & E3 & E4 & E5 & E6 & E7 & E8 & ->).
  destruct (covers_assign_unified _ _ _ _ _ _ Hcov E1) as (B1 & F1 & C1).
  destruct (covers_assign_unified _ _ _ _ _ _ C1 E2) as (B2 & F2 & C2).
  destruct (covers_GroupImputer_transform _ _ _ _ _ C2 E3) as (B3 & F3 & C3).
  destruct (covers_add_pressure_ratio _ _ _ C3 E4) as (B4 & F4 & C4).
  destruct (covers_normalize_column _ _ _ _ _ C4 E5) as (B5 & F5 & C5).
  destruct (covers_normalize_column _ _ _ _ _ C5 E6) as (B6 & F6 & C6).
  destruct (covers_drop _ _ _ _ C6 E7) as (B7 & F7 & C7).
  fold preprocess.assign_pressure in F1.
  fold preprocess.assign_satisfaction in F2.
  fold (preprocess.replace_diet_habits diet_table other) in F5.
  fold (preprocess.replace_sleep_duration sleep_table other) in F6.
  destruct (fit_columns_present _ _ _ E8) as [_ Habs].
  destruct (transform_present categorical_cols enc B7)
    as (blocks & rest & Hb & Hr & Ht).
  { apply first_absent_none. intros l Hl. apply C7.
    exact (proj1 (first_absent_none _ A7) Habs l Hl). }
  { exact (encodable_before_encoder _ _ n _ _ _ _ _ _ _ _
             F1 F2 F3 F4 F5 F6 F7 HX Hn Htext). }
  exists (np.hstack blocks rest). split.
  - unfold transform_stages.
    rewrite F1. cbn [bind]. rewrite F2. cbn [bind].
    cbv beta iota zeta delta [impute_ encode_].
    rewrite F3. cbn [bind]. rewrite F4. cbn [bind].
    rewrite F5. cbn [bind]. rewrite F6. cbn [bind].
    rewrite F7. cbn [bind]. exact Ht.
  - unfold np.hstack. apply Forall_app. split.
    + exact (encode_all_numeric _ _ _ _ _ Hb).
    + apply stacked_numeric.
      apply (passthrough_numeric text_cols (remainder_ enc) B7 rest);
        [| | exact Hr].
      * exact (numeric_before_encoder _ _ _ _ _ _ _ _ _
                 F1 F2 F3 F4 F5 F6 F7 Hnum).
      * intros c Hc. exact (Hrem enc c eq_refl Hc).
Qed.

End Accepts.

(** X13.  Once [preprocessor.fit] has succeeded on a frame,
    [preprocessor.transform] does not fail on a frame of at least one
    row that has at least the columns of that frame, text in the
    encoded columns no step rewrites, and numbers and missing values
    only outside the text columns, whatever these values are: a
    category the encoder has not seen or a group the imputer has not
    seen raises nothing.  The matrix it returns has no text in it. *)
Theorem fitted_pipeline_accepts_same_columns :
  forall (sentinel : Q) (diet_table sleep_table : list (string * string))
         (other : string) (X_fit X : DataFrame) (st0 st : sklearn.store)
         (n : nat),
    sklearn.Pipeline_fit
      (notebook.preprocessor sentinel diet_table sleep_table other)
      (sklearn.Frame X_fit) st0 = (Ok tt, st) ->
    notebook.covers X_fit X ->
    notebook.rectangular n X -> 0 < n ->
    (forall c, In c notebook.raw_categorical_cols ->
               notebook.has_text X c = true) ->
    notebook.numeric_outside notebook.text_cols X ->
    exists m,
      sklearn.Pipeline_transform
        (notebook.preprocessor sentinel diet_table sleep_table other)
        (sklearn.Frame X) st = (Ok (sklearn.Matrix m), st) /\
      Forall (fun col => np.numeric col = true) m.
Proof.
  intros sentinel diet_table sleep_table other X_fit X st0 st n
         Hfit Hcov HX Hn Htext Hnum.
  pose proof (Pipeline_fit_preprocessor _ _ _ _ _ _ _ Hfit) as Hst.
  destruct (fitted_accepts sentinel diet_table sleep_table other
              X_fit X st n Hst Hcov HX Hn Htext Hnum) as (m & Hm & Hall).
  exists m. split; [| exact Hall].
  rewrite Pipeline_transform_preprocessor. now rewrite Hm.
Qed.

Lemma fitted_pipeline_accepts_same_columns_witness :
  exists st m,
    sklearn.Pipeline_fit fixtures.pipeline (sklearn.Frame fixtures.X_train)
      sklearn.unfitted = (Ok tt, st) /\
    sklearn.Pipeline_transform fixtures.pipeline
      (sklearn.Frame fixtures.X_val) st = (Ok (sklearn.Matrix m), st) /\
    Forall (fun col => np.numeric col = true) m.
Proof.
  assert (Hcov : notebook.covers fixtures.X_train fixtures.X_val)
    by (intros c Hc; exact Hc).
  assert (HX : notebook.rectangular 4 fixtures.X_val)
    by (repeat constructor).
  assert (Htext : forall c, In c notebook.raw_categorical_cols ->
                            notebook.has_text fixtures.X_val c = true).
  { intros c Hc. unfold notebook.raw_categorical_cols in Hc. simpl in Hc.
    repeat (destruct Hc as [<- | Hc]; [reflexivity |]). destruct Hc. }
  assert (Hnum : notebook.numeric_outside notebook.text_cols fixtures.X_val).
  { intros c s Hg Hn. 
    assert (Hall : forallb (fun p => mem_str (fst p) notebook.text_cols
                                     || np.numeric (snd p))
                           fixtures.X_val = true) by reflexivity.
    rewrite forallb_forall in Hall.
    assert (Hin : In (c, s) fixtures.X_val
                  \/ pd.getitem fixtures.X_val c = Raise (KeyError c)).
    { clear Hall Hn. revert Hg. generalize fixtures.X_val.
      induction d as [| [k t] rest IH]; simpl; [discriminate |].
      destruct (String.eqb k c) eqn:E.
      - intros H. injection H as <-. apply String.eqb_eq in E. subst k.
        left. now left.
      - intros H. destruct (IH H) as [Hi | Hr]; [left; now right |].
        rewrite Hr in H. discriminate H. }
    destruct Hin as [Hin | Hr]; [| rewrite Hr in Hg; discriminate Hg].
    specialize (Hall _ Hin). cbn [fst snd] in Hall.
    apply orb_prop in Hall as [Hm | Hm]; [| exact Hm].
    apply mem_str_true in Hm. contradiction. }
  eexists.
  edestruct (fun st Hfit =>
               fitted_pipeline_accepts_same_columns
                 0%Q fixtures.diet_table fixtures.sleep_table "Other"
                 fixtures.X_train fixtures.X_val sklearn.unfitted st 4
                 Hfit Hcov HX (Nat.lt_0_succ 3) Htext Hnum)
    as (m & Hm & Hall); [vm_compute; reflexivity |].
  exists m. split; [vm_compute; reflexivity |].
  split; [exact Hm | exact Hall].
Defined.

(** ** What a run that succeeds tells about the files *)

Section RunsThrough.

Import sklearn notebook.

Variable sentinel : Q.
Variable diet_table sleep_table : list (string * string).
Variable other : string.
Variable repr_num : Q -> string.

Lemma covers_same_columns (A A' B : DataFrame) :
  pd.columns A' = pd.columns A -> covers A B -> covers A' B.
Proof.
  intros Hc Hcov c H. apply Hcov.
  now rewrite <- (has_column_columns c A A' Hc).
Qed.

(** A frame the fitted pipeline accepts has the columns of the frame
    it was fitted on. *)
Lemma accepted_covers (X_fit X : DataFrame) (st : store)
      (m : list Series) :
  fit_stages sentinel diet_table sleep_table other X_fit = Ok st ->
  (forall e, In e engineered_cols -> pd.has_column e X_fit = false) ->
  transform_stages sentinel diet_table sleep_table other st X = Ok m ->
  covers X_fit X.
Proof.
  intros Hfit Hnew Hm c Hc.
  destruct (transform_stages_inv _ _ _ _ _ _ _ Hm)
    as (T1 & T2 & T3 & T4 & T5 & T6 & T7 & enc &
        E1 & E2 & E3 & E4 & E5 & E6 & E7 & Henc & E8).
  assert (H6 : pd.has_column c T6 = true).
  { destruct (mem_str c drop_cols) eqn:Ed.
    - apply mem_str_true in Ed. unfold pd.drop in E7.
      destruct (pd.first_absent drop_cols T6) eqn:Ef; [discriminate |].
      exact (proj1 (first_absent_none _ _) Ef c Ed).
    - assert (H7 : pd.has_column c T7 = true).
      { unfold ColumnTransformer_transform in E8.
        destruct (pd.first_absent (categorical_cols ++ remainder_ enc) T7)
          eqn:Ea; [discriminate |].
        apply (proj1 (first_absent_none _ _) Ea). apply in_or_app.
        destruct (mem_str c categorical_cols) eqn:Ec;
          [left; now apply mem_str_true |].
        right.
        apply (fitted_remainder sentinel diet_table sleep_table other
                 repr_num X_fit st enc c Hfit Henc Hc).
        intros Hin. apply in_app_or in Hin as [Hin | Hin];
          apply mem_str_true in Hin; congruence. }
      unfold pd.has_column in H7 |- *.
      rewrite (columns_drop _ _ _ E7) in H7.
      apply mem_str_true in H7. apply filter_In in H7 as [H7 _].
      now apply mem_str_true. }
  unfold pd.has_column in H6.
  rewrite (columns_before_drop _ _ _ _ _ _ _ _ _ _ _ _ E1 E2 E3 E4 E5 E6)
    in H6.
  apply mem_str_true in H6. apply in_app_or in H6 as [H6 | H6].
  - unfold pd.has_column. now apply mem_str_true.
  - apply filter_In in H6 as [H6 _]. rewrite (Hnew c H6) in Hc.
    discriminate Hc.
Qed.

(** A frame the fitted pipeline accepts has a row. *)
Lemma accepted_has_row (X_fit X : DataFrame) (st : store)
      (m : list Series) :
  fit_stages sentinel diet_table sleep_table other X_fit = Ok st ->
  transform_stages sentinel diet_table sleep_table other st X = Ok m ->
  exists s, pd.getitem X "Gender" = Ok s /\ s <> [].
Proof.
  intros Hfit Hm.
  destruct (transform_stages_inv _ _ _ _ _ _ _ Hm)
    as (T1 & T2 & T3 & T4 & T5 & T6 & T7 & enc &
        E1 & E2 & E3 & E4 & E5 & E6 & E7 & Henc & E8).
  destruct (fit_stages_inv _ _ _ _ _ _ Hfit)
    as (A1 & A2 & stat & A3 & A4 & A5 & A6 & A7 & enc' &
        _ & _ & _ & _ & _ & _ & _ & _ & F8 & Hst).
  rewrite Hst in Henc. simpl in Henc. injection Henc as ->.
  destruct (ColumnTransformer_fit_ok _ _ _ F8) as (cats & El & Hcats).
  assert (Hk : exists k ks, categories_ enc = k :: ks).
  { rewrite Hcats. simpl. unfold categorical_cols in El. simpl in El.
    destruct (pd.getitem A7 "Gender") as [g |]; [| discriminate El].
    cbn [bind] in El.
    destruct (learn_categories g) as [k |]; [| discriminate El].
    cbn [bind] in El.
    match type of El with
    | context [bind ?e _] => destruct e as [ks |]; [| discriminate El]
    end.
    cbn [bind] in El. injection El as <-. now exists k, ks. }
  destruct Hk as (k & ks & Hk).
  destruct (transform_ok_parts _ _ _ _ _ E8) as (blocks & rest & Hb & _ & _).
  rewrite Hk in Hb. unfold categorical_cols in Hb. simpl in Hb.
  destruct (pd.getitem T7 "Gender") as [s |] eqn:Es; [| discriminate Hb].
  cbn [bind] in Hb.
  destruct (OneHotEncoder_transform_column hu_ignore k s)
    as [block |] eqn:Eb; [| discriminate Hb].
  rewrite (untouched_before_encoder sentinel diet_table sleep_table
             other _ _ _ _ _ _ _ _ _ "Gender" E1 E2 E3 E4 E5 E6 E7
             (raw_categorical_untouched "Gender" (or_introl eq_refl)))
    in Es.
  exists s. split; [exact Es |].
  pose proof (transform_column_accepts _ _ _ _ Eb) as Ha.
  intros ->. discriminate Ha.
Qed.

(** Rows are selected for a frame the fitted pipeline accepts. *)
Lemma accepted_selection (X_fit X : DataFrame) (idx : list nat)
      (st : store) (m : list Series) :
  fit_stages sentinel diet_table sleep_table other X_fit = Ok st ->
  transform_stages sentinel diet_table sleep_table other st
    (pd.take_rows idx X) = Ok m ->
  idx <> [].
Proof.
  intros Hfit Hm.
  destruct (accepted_has_row _ _ _ _ Hfit Hm) as (s & Hs & Hne).
  pose proof (rectangular_getitem _ _ _ _
                (rectangular_take_rows idx X) Hs) as Hl.
  intros ->. destruct s; [now apply Hne | discriminate Hl].
Qed.

End RunsThrough.

(** X14.  What a run that succeeds tells about the files.  When the
    cells from the split to the final frames all succeed, the training
    file has a [Depression] column, [preprocessor.fit] has succeeded on
    the training rows of the split, the test file has every feature
    column of the training file, the training file has no column called
    [Pressure], [Satisfaction] or [Pressure_Satisfaction_Ratio], and
    rows were selected for training and for validation and the test
    file has a row. *)
Theorem notebook_runs_through_only_if :
  forall (sentinel : Q) (diet_table sleep_table : list (string * string))
         (other : string) (repr_num : Q -> string)
         (train test : DataFrame) (train_idx val_idx : list nat)
         (out : notebook.outputs),
    notebook.run sentinel diet_table sleep_table other repr_num
      train test train_idx val_idx = Ok out ->
    (exists y, pd.getitem train "Depression" = Ok y) /\
    (exists st,
        sklearn.Pipeline_fit
          (notebook.preprocessor sentinel diet_table sleep_table other)
          (sklearn.Frame
             (pd.take_rows train_idx (notebook.without_label train)))
          sklearn.unfitted = (Ok tt, st)) /\
    notebook.covers (notebook.without_label train) test /\
    (forall e, In e notebook.engineered_cols ->
               pd.has_column e train = false) /\
    train_idx <> [] /\ val_idx <> [] /\
    (exists s, pd.getitem test "Gender" = Ok s /\ s <> []).
Proof.
  intros sentinel diet_table sleep_table other repr_num
         train test train_idx val_idx out Hrun.
  destruct (run_inv _ _ _ _ _ _ _ _ _ _ Hrun) as (y & _ & Hy & _).
  destruct (run_frames _ _ _ _ _ _ _ _ _ _ Hrun)
    as (st & enc & a & b & c & Hfit & Henc & Ha & Hb & Hc & _ & _ &
        _ & _ & _ & Hnew).
  split; [now exists y |]. split.
  { exists st.
    pose proof (Pipeline_fit_cases sentinel diet_table sleep_table other
                  (pd.take_rows train_idx (notebook.without_label train))
                  sklearn.unfitted) as Hpf.
    now rewrite Hfit in Hpf. }
  split.
  { apply (covers_same_columns
             (pd.take_rows train_idx (notebook.without_label train)));
      [symmetry; apply columns_take_rows |].
    apply (accepted_covers sentinel diet_table sleep_table other repr_num
             _ _ st c Hfit); [| exact Hc].
    intros e He. unfold pd.has_column. rewrite columns_take_rows.
    fold (pd.has_column e (notebook.without_label train)).
    rewrite has_column_without_label; [now apply Hnew |].
    unfold notebook.engineered_cols in He. simpl in He.
    destruct He as [<- | [<- | [<- | []]]]; discriminate. }
  split; [exact Hnew |].
  split;
    [exact (accepted_selection sentinel diet_table sleep_table other
              _ _ _ st a Hfit Ha) |].
  split;
    [exact (accepted_selection sentinel diet_table sleep_table other
              _ _ _ st b Hfit Hb) |].
  exact (accepted_has_row sentinel diet_table sleep_table other
           _ _ st c Hfit Hc).
Qed.

Lemma notebook_runs_through_only_if_witness :
  (exists y, pd.getitem fixtures.train_csv "Depression" = Ok y) /\
  (exists st,
      sklearn.Pipeline_fit fixtures.pipeline
        (sklearn.Frame
           (pd.take_rows [0; 2; 3]
              (notebook.without_label fixtures.train_csv)))
        sklearn.unfitted = (Ok tt, st)) /\
  notebook.covers (notebook.without_label fixtures.train_csv)
    fixtures.X_val /\
  (forall e, In e notebook.engineered_cols ->
             pd.has_column e fixtures.train_csv = false) /\
  [0; 2; 3] <> [] /\ [1] <> [] /\
  (exists s, pd.getitem fixtures.X_val "Gender" = Ok s /\ s <> []).
Proof.
  eapply (notebook_runs_through_only_if
            0%Q fixtures.diet_table fixtures.sleep_table "Other"
            fixtures.repr_num fixtures.train_csv fixtures.X_val
            [0; 2; 3] [1]).
  vm_compute. reflexivity.
Defined.

(** X15.  Nothing is learned from validation or test data.  Two runs
    of the notebook whose splits pick the same training rows give the
    same feature names and the same final training frame, whatever the
    other rows of the training file, the validation rows and the test
    file are; they give the same final validation frame when the
    validation rows are the same too, and the same final test frame when
    the test file is. *)
Theorem final_frames_depend_on_training_rows :
  forall (sentinel : Q) (diet_table sleep_table : list (string * string))
         (other : string) (repr_num : Q -> string)
         (train test train' test' : DataFrame)
         (train_idx val_idx train_idx' val_idx' : list nat)
         (out out' : notebook.outputs),
    notebook.run sentinel diet_table sleep_table other repr_num
      train test train_idx val_idx = Ok out ->
    notebook.run sentinel diet_table sleep_table other repr_num
      train' test' train_idx' val_idx' = Ok out' ->
    pd.take_rows train_idx (notebook.without_label train)
    = pd.take_rows train_idx' (notebook.without_label train') ->
    notebook.features out = notebook.features out' /\
    notebook.final_train out = notebook.final_train out' /\
    (pd.take_rows val_idx (notebook.without_label train)
     = pd.take_rows val_idx' (notebook.without_label train') ->
     notebook.final_val out = notebook.final_val out') /\
    (test = test' -> notebook.final_test out = notebook.final_test out').
Proof.
  intros sentinel diet_table sleep_table other repr_num
         train test train' test' train_idx val_idx train_idx' val_idx'
         out out' Hrun Hrun' Hrows.
  destruct (run_frames _ _ _ _ _ _ _ _ _ _ Hrun)
    as (st & enc & a & b & c & Hfit & Henc & Ha & Hb & Hc & Hf & _ &
        [_ Fa] & [_ Fb] & [_ Fc] & _).
  destruct (run_frames _ _ _ _ _ _ _ _ _ _ Hrun')
    as (st' & enc' & a' & b' & c' & Hfit' & Henc' & Ha' & Hb' & Hc' & Hf' &
        _ & [_ Fa'] & [_ Fb'] & [_ Fc'] & _).
  rewrite <- Hrows in Hfit', Ha'.
  assert (st' = st) by congruence. subst st'.
  assert (enc' = enc) by congruence. subst enc'.
  assert (Hnames : notebook.features out = notebook.features out')
    by congruence.
  split; [exact Hnames |].
  split; [rewrite Fa, Fa', <- Hnames; congruence |].
  split.
  - intros Hval. rewrite <- Hval in Hb'.
    rewrite Fb, Fb', <- Hnames. congruence.
  - intros <-. rewrite Fc, Fc', <- Hnames. congruence.
Qed.

Lemma final_frames_depend_on_training_rows_witness :
  exists out out',
    notebook.run 0%Q fixtures.diet_table fixtures.sleep_table "Other"
      fixtures.repr_num fixtures.train_csv fixtures.X_val [0; 2; 3] [1]
    = Ok out /\
    notebook.run 0%Q fixtures.diet_table fixtures.sleep_table "Other"
      fixtures.repr_num fixtures.train_csv fixtures.X_train [0; 2; 3] [1; 1]
    = Ok out' /\
    notebook.features out = notebook.features out' /\
    notebook.final_train out = notebook.final_train out'.
Proof.
  do 2 eexists.
  edestruct (fun out out' Hrun Hrun' =>
               final_frames_depend_on_training_rows
                 0%Q fixtures.diet_table fixtures.sleep_table "Other"
                 fixtures.repr_num
                 fixtures.train_csv fixtures.X_val
                 fixtures.train_csv fixtures.X_train
                 [0; 2; 3] [1] [0; 2; 3] [1; 1] out out'
                 Hrun Hrun' eq_refl)
    as (Hf & Ht & _);
    [ vm_compute; reflexivity | vm_compute; reflexivity | ].
  split; [vm_compute; reflexivity |].
  split; [vm_compute; reflexivity |].
  split; [exact Hf | exact Ht].
Defined.
